(* ===== verification/_CoqProject ===== *)
-Q . S2P
Prelude.v
PyCore.v
Store.v
Json.v
Flask.v
Listing.v
Search.v
Quiz.v
Mutation.v
App.v
Schema.v
