(* ===== verification/Prelude.v ===== *)
(** * A verification development of the Trivia API (Flask backend)

    The program is one Python module, [src/backend/flaskr/__init__.py]:
    [create_app] builds a Flask application over a PostgreSQL store
    (the [Question] and [Category] tables of [starter/backend/models.py],
    which is not under [src/]), configures Flask-CORS and an
    [after_request] hook, registers seven views with [@app.route] and
    four error handlers.  A request is matched against the URL rules,
    runs its view, which reads the JSON body, queries and mutates the
    store through SQLAlchemy and answers with [jsonify] or [abort];
    what the view raises goes to the error handlers, and the hooks add
    headers to every response.

    ** Files, in dependency order

    - [Prelude]: this header, the notation scope [trivia_scope], the
      hint databases [trivia] and [trivia_simpl], the tactics [invc]
      and [reflect_eqb], and the list lemmas the components share.
    - [PyCore]: the Python fragment the handlers use.  [exn] names the
      exceptions (werkzeug's [HTTPException] with its code, [KeyError],
      [IndexError], [TypeError], [AttributeError], and [DBError] for a
      failed SQL statement); [PyM S A := S -> outcome A * S] is a
      state-and-exception monad with the notation [let! x := c in k];
      [py_try] is [try/except/finally] with a bare [except] (which also
      catches [abort]'s exceptions); [py_slice] is CPython's slice
      index adjustment; [py_int_of_string] is [int(s)], [py_str_int]
      is [str(z)] and [ascii_lower] is ASCII case folding.
    - [Store] (Module [Models]): the two tables as records, the query
      layer as the class [QueryLayer] with the laws [QueryLayerLaws]
      (insert appends a row with the next sequence value and commits,
      delete removes the rows of a key and commits), its list
      implementation [ListDb], the SQL queries the handlers build
      ([query_get], [filter_category], [filter_not_in] with SQL's
      three-valued [NOT IN], [query_first]) and the store invariant
      [wf_store] (unique keys drawn from the sequence).  Modelled from
      the spec (section 3) because [models.py] is not under [src/].
      The laws fix a storage order (rows in insertion order, a new row
      last): the queries of the program have no [ORDER BY], so
      PostgreSQL promises no order; the theorems that speak of "storage
      order" or of the last record of a listing hold for a store that
      returns its rows in that order.
    - [Json] (Module [Json]): Python values [pyval] (including mapped
      [Question] objects), JSON documents, subscription [py_getitem],
      [to_json] = [json.dumps(sort_keys=True)] which refuses a mapped
      object with [TypeError], [dict_setitem], and the conversion of
      Python values into SQL parameters as psycopg2 sends them and
      PostgreSQL reads them: [== None] is [IS NULL], a string compared
      with or stored into an [integer] column goes through [integer]'s
      input syntax ([pg_int4_in], 32-bit range), an int stored into a
      text column becomes its decimal text.
    - [Flask] (Module [Flask]): requests and responses, the world (the
      store and whether the session was closed), the store operations
      in the monad, [db.session] calls ([db.sessions] is an
      [AttributeError]), [request.get_json], [request.args.get(...,
      type=int)], [jsonify], the error handlers (lines 320-350),
      [handle_exception], the [after_request] hook (lines 25-29) and
      Flask-CORS (line 20): the resource [/app/*] matched with
      [re.IGNORECASE], the "already evaluated" test, and the exception
      wrapper ([intercept_exceptions]) that adds the CORS header to an
      error response before the hooks run.  It also defines the handler predicates
      [read_only], [never_ok] and [returns Q], with closure lemmas and
      the tactics [solve_read_only], [solve_never_ok] and
      [solve_returns] that follow a handler's structure.
    - [Listing] (Module [Listing]): [convert_questions_to_dict], the
      paging of [get_questions] ([page_slice]) and the views
      [get_categories], [get_questions] and [get_questions_by_categories]
      (lines 35-112 and 244-266).
    - [Search] (Module [Search]): PostgreSQL's [ILIKE] (tokens [%], [_],
      backslash escapes, ASCII case folding) and the view
      [search_questions] (lines 204-234).
    - [Quiz] (Module [Quiz]): the quiz query [quiz_select] and the view
      [quizzes_search] (lines 279-313).
    - [Mutation] (Module [Mutation]): [del_question] (lines 121-148) and
      [post_question] (lines 160-188).
    - [App] (Module [App]): the URL rules of the seven decorators (one
      [rule_*] definition each), [add_url_rule] and [create_app],
      werkzeug's matching ([dispatch]: 404, 405, automatic [OPTIONS],
      [HEAD] as [GET], the [int] converter, the 308 redirect of a path
      that matches only with its slashes merged) and the request cycle
      [handle_request] (view, error handlers, Flask-CORS's wrapper,
      hooks).
    - [Schema] (Module [Schema]): a type language for JSON documents,
      the response shapes of the table of section 6 of the spec, and
      the typing of every response of the request cycle.

    Each view is a function [request -> M St response] over any store
    [St] with a [QueryLayer]; its statements follow the source line by
    line, every [abort], [try], [except] and [finally] included.

    ** What the theorems show

    - Listing: [get_questions] serves exactly the reference window
      [take 10 (drop ((page-1)*10) all)] for [page >= 1]; pages hold at
      most 10 records and tile the list; malformed, zero and negative
      pages, the empty category table and the unreachable 400/422
      branches are characterised; [get_categories] maps every id to its
      type, and its answer does not depend on the storage order of the
      category table ([jsonify] sorts the keys);
      [get_questions_by_categories] never succeeds ([db.sessions]).
    - Search: for a term without wildcards the view refines the
      specification of section 4.5 (case-insensitive containment, in
      storage order, 404 when empty); [_] and [%] are wildcards; error
      paths (missing term 422, non-string term 500).
    - Quiz: the selected question is in scope and new, and it is the
      first such row; exhaustion and [NULL] in the list; every
      well-formed request is answered 422 and the view never answers
      normally.
    - Mutation: deletion and creation commit their change and answer
      422; the error paths (404, 500 for a missing [currentCategory],
      422 for missing fields or out-of-range integers); neither view
      ever answers normally, and each changes the store only by the one
      delete of the requested id or the one insert of the body's four
      fields, in order; a created question is the last record of the
      last page of a later listing (spec, section 8).
    - App: [create_app] raises [TypeError]; the [questionsPost] rule
      would answer 405; every response carries the hook's two headers
      once each and the CORS origin header exactly on the paths of the
      resource, which are all 404s; the exception-to-response mapping;
      an end-to-end [DELETE]; a request changes the store only by a
      routed [DELETE], so over any sequence of requests ([reachable],
      by rule induction) the question table only shrinks and a deleted
      question never comes back (spec, section 8).
    - Schema: every response is a 200 with the JSON type of its route,
      a registered error code with the uniform error object, werkzeug's
      default page, or the empty answer of an automatic [OPTIONS].

    ** Fuel and bounds

    [str(z)] is computed by [dec_digits] with fuel [digit_fuel m =
    log2 m + 1]: a number below [2 ^ (k+1)] has at most [k+1] decimal
    digits, so the fuel is always enough ([digit_fuel_enough]) and
    [int(str(z)) = z] holds for every integer, with no hypothesis.  All
    other recursion is structural.  Integers are unbounded [Z] in
    Python and checked against PostgreSQL's 32-bit range where a value
    is stored or a string is read as an [integer].

    ** Not modelled

    [setup_db] and the connection configuration; Flask's and werkzeug's
    internals beyond request matching, error handling and hooks (the
    model takes the parsed request: [req_path] is werkzeug's
    [request.path], which starts with exactly one [/], and the request
    carries no headers); the [print] of line 298 (output only); the ids
    that SQLAlchemy would assign after a failed insert (the sequence is
    only advanced on a committed insert); case folding and whitespace
    beyond ASCII.

    Versions: [request.get_json()] answers a body of another content
    type with 415, as werkzeug 2.3 and later do (earlier versions
    returned [None], and the subscription that follows raised
    [TypeError]); the redirect of a path with [//] is werkzeug 2's 308;
    Flask-CORS matches its resource ignoring case, as before 6.0 (no
    route of the app starts with [/a] or [/A], so the CORS theorems
    hold for a case-sensitive match too); PostgreSQL's [integer] input
    syntax is that of versions before 16 (no underscores, no [0x]
    prefixes).

    Requests with an [Origin] header: Flask-CORS answers them by
    echoing the origin (with [Vary: Origin]) instead of [*]; the
    theorems on headers are about requests without one.  The
    [Location] of a redirect is the path of the absolute URL werkzeug
    writes.  SQL values that the model's rows cannot hold are refused
    with [DBError]: [None] for a column (PostgreSQL stores [NULL]) and
    a boolean for a text column.  The module-level [db = SQLAlchemy()]
    is distinct from the models' [db]: its session calls are modelled
    as having no effect on the committed store, which is what
    happens. *)

From Stdlib Require Export String Ascii ZArith Lia.
From stdpp Require Export base list strings sorting.

Declare Scope trivia_scope.
Delimit Scope trivia_scope with trivia.

(** Hint databases of the development: [trivia] collects the lemmas
    that close the routine side goals of the handler proofs, and
    [trivia_simpl] the rewriting rules that normalise list lengths and
    slices. *)
Create HintDb trivia discriminated.
Create Rewrite HintDb trivia_simpl.

(** ** Tactics *)

(** [invc H] inverts [H] and cleans up the equations it produces. *)
Ltac invc H := inversion H; subst; clear H.

(** [reflect_eqb] turns the boolean tests on integers and
    strings that the models compute into propositions. *)
Ltac reflect_eqb :=
  repeat match goal with
  | H : (_ =? _)%Z = true |- _ => apply Z.eqb_eq in H
  | H : (_ =? _)%Z = false |- _ => apply Z.eqb_neq in H
  | H : (_ <? _)%Z = true |- _ => apply Z.ltb_lt in H
  | H : (_ <? _)%Z = false |- _ => apply Z.ltb_ge in H
  | H : (_ <=? _)%Z = true |- _ => apply Z.leb_le in H
  | H : (_ <=? _)%Z = false |- _ => apply Z.leb_gt in H
  | H : String.eqb _ _ = true |- _ => apply String.eqb_eq in H
  | H : String.eqb _ _ = false |- _ => apply String.eqb_neq in H
  | H : negb _ = true |- _ => apply negb_true_iff in H
  | H : negb _ = false |- _ => apply negb_false_iff in H
  | H : _ && _ = true |- _ => apply andb_true_iff in H as [? ?]
  end.

(** ** Generic lemmas on lists *)

Section ListFacts.
  Context {A : Type}.

  (** A window [take k (drop s l)] never holds more than [k] elements. *)
Lemma length_take_drop_le (k s : nat) (l : list A) :
    length (take k (drop s l)) <= k.
  Proof. rewrite length_take. lia. Qed.

  (** Consecutive windows of the same width tile the list. *)
Lemma take_drop_tile (k n : nat) (l : list A) :
    take (n * k) l ++ take k (drop (n * k) l) = take (S n * k) l.
  Proof.
    rewrite take_take_drop. f_equal. lia.
  Qed.


Lemma filter_length_le (f : A -> bool) (l : list A) :
    length (List.filter f l) <= length l.
  Proof.
    induction l as [|a l IH]; simpl; [lia|].
    destruct (f a); simpl; lia.
  Qed.

Lemma filter_app_bool (f : A -> bool) (l1 l2 : list A) :
    List.filter f (l1 ++ l2) = List.filter f l1 ++ List.filter f l2.
  Proof. apply List.filter_app. Qed.

  (** The head of a filtered list is the first element passing the
      test: [List.find] and [hd_error ∘ filter] agree. *)
Lemma hd_error_filter_find (f : A -> bool) (l : list A) :
    hd_error (List.filter f l) = List.find f l.
  Proof.
    induction l as [|a l IH]; simpl; [done|].
    destruct (f a); simpl; done.
  Qed.

Lemma find_some_first (f : A -> bool) (l : list A) (x : A) :
    List.find f l = Some x ->
    exists l1 l2, l = l1 ++ x :: l2 /\ f x = true /\
                  Forall (fun y => f y = false) l1.
  Proof.
    induction l as [|a l IH]; simpl; [done|].
    destruct (f a) eqn:Ha.
    - intros [= <-]. exists [], l. auto.
    - intros Hf. destruct (IH Hf) as (l1 & l2 & -> & Hx & Hl1).
      exists (a :: l1), l2. auto.
  Qed.
(** Filtering keeps a key projection duplicate-free. *)
Lemma NoDup_map_filter {B} (g : A -> B) (f : A -> bool) (l : list A) :
  NoDup (map g l) -> NoDup (map g (List.filter f l)).
Proof.
  induction l as [|a l IH]; simpl; [done|].
  intros Hnd. apply NoDup_cons in Hnd as [Hnin Hnd].
  destruct (f a); simpl; [|by apply IH].
  apply NoDup_cons. split; [|by apply IH].
  intros Hin. apply Hnin. apply list_elem_of_In in Hin. apply list_elem_of_In.
  apply in_map_iff in Hin as (y & Hy & Hiny). apply in_map_iff.
  exists y. split; [done|]. apply filter_In in Hiny. tauto.
Qed.

Lemma Forall_filter_bool (P : A -> Prop) (f : A -> bool) (l : list A) :
  Forall P l -> Forall P (List.filter f l).
Proof.
  intros Hl. apply Forall_forall. intros x Hx.
  apply list_elem_of_In, filter_In in Hx as [Hx _].
  rewrite Forall_forall in Hl. apply Hl. by apply list_elem_of_In.
Qed.

(** Two elements of a list with duplicate-free keys that share a key
    are the same element. *)
Lemma NoDup_map_inj_in {B} (g : A -> B) (l : list A) (x y : A) :
  NoDup (map g l) -> In x l -> In y l -> g x = g y -> x = y.
Proof.
  induction l as [|a l IH]; simpl; [done|].
  intros Hnd Hx Hy Hg. apply NoDup_cons in Hnd as [Hnin Hnd].
  destruct Hx as [<-|Hx], Hy as [<-|Hy]; auto.
  - exfalso. apply Hnin. apply list_elem_of_In. rewrite Hg. by apply in_map.
  - exfalso. apply Hnin. apply list_elem_of_In. rewrite <- Hg. by apply in_map.
Qed.
(** An injective key projection keeps a duplicate-free list
    duplicate-free. *)
(** [map g] keeps a list duplicate-free when [g] is injective on its
    elements. *)
Lemma NoDup_map_inj_on {B} (g : A -> B) (l : list A) :
  (forall x y, In x l -> In y l -> g x = g y -> x = y) -> NoDup l -> NoDup (map g l).
Proof.
  intros Hinj Hnd. induction Hnd as [|x l Hnin Hnd IH]; simpl; constructor.
  - intros Hin. apply list_elem_of_In, in_map_iff in Hin as (y & Hy & Hiny).
    apply Hinj in Hy; [|by right|by left]. subst y. apply Hnin. by apply list_elem_of_In.
  - apply IH. intros a b Ha Hb. apply Hinj; by right.
Qed.

Lemma NoDup_map_inj {B} (g : A -> B) (l : list A) :
  (forall x y, g x = g y -> x = y) -> NoDup l -> NoDup (map g l).
Proof. intros Hinj. apply NoDup_map_inj_on. auto. Qed.
Lemma existsb_ext (f g : A -> bool) (l : list A) :
  (forall x, f x = g x) -> existsb f l = existsb g l.
Proof. intros Hfg. induction l as [|x l IH]; simpl; [done|]. by rewrite Hfg, IH. Qed.


End ListFacts.

#[export] Hint Resolve length_take_drop_le filter_length_le : trivia.
#[export] Hint Rewrite @length_take @length_drop @length_app @length_map
  @filter_app_bool : trivia_simpl.
