(* ===== verification/PyCore.v ===== *)
(** * PyCore: the fragment of Python's semantics the handlers run on

    The outcome of a Python statement (a value or a raised exception),
    the state-and-exception monad [PyM] in which the Flask handlers of
    [src/backend/flaskr/__init__.py] are written, with Python's
    [try]/[except]/[finally], and the three built-in operations the
    handlers apply to data: list slicing [l[i:j]] (CPython's index
    adjustment), [int(s)] on a query-string argument and [str(n)] on an
    integer. *)

From S2P Require Import Prelude.

Open Scope Z_scope.

(** ** Exceptions and outcomes *)

(** The exceptions the handlers can raise: [HTTPException code] is what
    [flask.abort(code)] and werkzeug raise; the others are Python's
    built-in exceptions and the driver's error for a refused SQL
    statement. *)
Inductive exn : Type :=
  | HTTPException (code : Z)
  | KeyError
  | IndexError
  | TypeError
  | AttributeError
  | DBError.

#[export] Instance exn_eq_dec : EqDecision exn.
Proof. solve_decision. Defined.

Inductive outcome (A : Type) : Type :=
  | Ret (a : A)
  | Raise (e : exn).
Arguments Ret {A} a.
Arguments Raise {A} e.

(** ** The handler monad: state passing with exceptions *)

Definition PyM (S A : Type) : Type := S -> outcome A * S.

Section PyMonad.
  Context {S : Type}.

Definition pret {A} (a : A) : PyM S A := fun s => (Ret a, s).
Definition praise {A} (e : exn) : PyM S A := fun s => (Raise e, s).
Definition plift {A} (o : outcome A) : PyM S A := fun s => (o, s).

Definition pbind {A B} (m : PyM S A) (k : A -> PyM S B) : PyM S B :=
    fun s =>
      match m s with
      | (Ret a, s') => k a s'
      | (Raise e, s') => (Raise e, s')
      end.

Definition pget : PyM S S := fun s => (Ret s, s).
Definition pmodify (f : S -> S) : PyM S unit := fun s => (Ret tt, f s).

  (** [flask.abort(code)]. *)
Definition abort {A} (code : Z) : PyM S A := praise (HTTPException code).

  (** [try: body / except: handler / finally: fin], with a bare
      [except:] (it catches every exception, [HTTPException] included).
      The [finally] block runs on both paths; an exception it raises
      replaces the outcome of the [try] statement. *)
Definition py_try {A} (body : PyM S A) (handler : exn -> PyM S A)
      (fin : PyM S unit) : PyM S A :=
    fun s =>
      let '(r, s1) :=
        match body s with
        | (Ret a, s1) => (Ret a, s1)
        | (Raise e, s1) => handler e s1
        end in
      match fin s1 with
      | (Ret _, s2) => (r, s2)
      | (Raise e', s2) => (Raise e', s2)
      end.

  (** [try: body / except: handler] without a [finally] block. *)
Definition py_try_except {A} (body : PyM S A) (handler : exn -> PyM S A)
      : PyM S A :=
    py_try body handler (pret tt).
End PyMonad.

Notation "'let!' x ':=' c 'in' k" := (pbind c (fun x => k))
  (at level 10, x name, c at level 100, k at level 200) : trivia_scope.
Open Scope trivia_scope.


(** ** List slicing [l[i:j]] *)

(** CPython's [PySlice_AdjustIndices] for a step of 1: a negative index
    counts from the end, and the result is clamped to [0, len]. *)
Definition py_slice_index (n i : Z) : Z :=
  if i <? 0 then Z.max 0 (i + n) else Z.min i n.

Definition py_slice {A} (l : list A) (i j : Z) : list A :=
  let n := Z.of_nat (length l) in
  let a := py_slice_index n i in
  let b := py_slice_index n j in
  take (Z.to_nat (b - a)) (drop (Z.to_nat a) l).

(** ** [int(s)] on a string (base 10) *)

(** The characters [str.strip] and [int] treat as white space in the
    ASCII range: tab, line feed, vertical tab, form feed, carriage
    return, the four information separators 0x1c-0x1f and space. *)
Definition is_py_space (c : ascii) : bool :=
  let n := nat_of_ascii c in
  ((9 <=? n) && (n <=? 13))%nat || ((28 <=? n) && (n <=? 32))%nat.

Fixpoint lstrip (cs : list ascii) : list ascii :=
  match cs with
  | c :: r => if is_py_space c then lstrip r else cs
  | [] => []
  end.

Definition strip (cs : list ascii) : list ascii := rev (lstrip (rev (lstrip cs))).

Definition digit_value (c : ascii) : option Z :=
  let n := nat_of_ascii c in
  if ((48 <=? n) && (n <=? 57))%nat then Some (Z.of_nat n - 48) else None.

(** The digits of a base-10 literal, where one underscore may separate
    two digits ([PyLong_FromString]); [after_digit] records whether the
    previous character was a digit. *)
Fixpoint digits_aux (acc : Z) (after_digit : bool) (cs : list ascii) : option Z :=
  match cs with
  | [] => if after_digit then Some acc else None
  | c :: r =>
      match digit_value c with
      | Some d => digits_aux (acc * 10 + d) true r
      | None =>
          if Ascii.eqb c "_" && after_digit then digits_aux acc false r
          else None
      end
  end.

(** [int(s)]: [None] is the [ValueError] Python raises. *)
Definition py_int_of_string (s : string) : option Z :=
  match strip (list_ascii_of_string s) with
  | c :: r =>
      if Ascii.eqb c "-" then option_map Z.opp (digits_aux 0 false r)
      else if Ascii.eqb c "+" then digits_aux 0 false r
      else digits_aux 0 false (c :: r)
  | [] => None
  end.

(** ** Case folding *)

(** ASCII case folding, as [str.lower] and PostgreSQL's [lower] do it
    on the letters [A]-[Z] (the only case-insensitive comparisons of
    the program are on ASCII text here). *)
Definition ascii_lower (c : ascii) : ascii :=
  let n := nat_of_ascii c in
  if ((65 <=? n) && (n <=? 90))%nat then ascii_of_nat (n + 32) else c.

(** ** [str(n)] on an integer *)

Definition ascii_of_digit (d : Z) : ascii := ascii_of_nat (48 + Z.to_nat d).

(** The decimal digits of [n >= 0], most significant first, in front
    of [acc]; [fuel] bounds the number of digits. *)
Fixpoint dec_digits (fuel : nat) (n : Z) (acc : list ascii) : list ascii :=
  match fuel with
  | O => acc
  | S f =>
      let acc' := ascii_of_digit (n mod 10) :: acc in
      if n <? 10 then acc' else dec_digits f (n / 10) acc'
  end.

(** [Z.log2 n + 1] binary digits bound the decimal digits of [n]. *)
Definition digit_fuel (n : Z) : nat := S (Z.to_nat (Z.log2 n)).

Definition py_str_int (z : Z) : string :=
  let m := Z.abs z in
  let ds := dec_digits (digit_fuel m) m [] in
  string_of_list_ascii (if z <? 0 then "-"%char :: ds else ds).

(** ** Lemmas *)

Section PyMonadFacts.
  Context {S A B : Type}.

Lemma pbind_Ret (m : PyM S A) (k : A -> PyM S B) s a s' :
    m s = (Ret a, s') -> pbind m k s = k a s'.
  Proof. unfold pbind. intros ->. done. Qed.

Lemma pbind_Raise (m : PyM S A) (k : A -> PyM S B) s e s' :
    m s = (Raise e, s') -> pbind m k s = (Raise e, s').
  Proof. unfold pbind. intros ->. done. Qed.

  (** A [finally] block that cannot raise leaves the outcome of the
      [try] statement in place. *)
Lemma py_try_fin_ok (body : PyM S A) h (fin : PyM S unit) s r s1 s2 :
    (match body s with
     | (Ret a, s1) => (Ret a, s1)
     | (Raise e, s1) => h e s1
     end) = (r, s1) ->
    fin s1 = (Ret tt, s2) ->
    py_try body h fin s = (r, s2).
  Proof. unfold py_try. intros -> ->. done. Qed.
End PyMonadFacts.

(** *** Slicing *)

(** For indices [0 <= i <= j], [l[i:j]] is the window of [j - i]
    elements starting at [i] (clamped at the end of the list). *)
Lemma py_slice_window {A} (l : list A) (i j : Z) :
  0 <= i -> i <= j ->
  py_slice l i j = take (Z.to_nat (j - i)) (drop (Z.to_nat i) l).
Proof.
  intros Hi Hij. unfold py_slice, py_slice_index.
  destruct (Z.ltb_spec i 0), (Z.ltb_spec j 0); try lia.
  set (n := Z.of_nat (length l)).
  destruct (Z.le_gt_cases i n).
  - rewrite (Z.min_l i n) by lia.
    destruct (Z.le_gt_cases j n).
    + rewrite (Z.min_l j n) by lia. done.
    + rewrite (Z.min_r j n) by lia.
      rewrite !take_ge; [done| |]; rewrite length_drop; subst n; lia.
  - rewrite !Z.min_r by lia.
    rewrite !(drop_ge l); [by rewrite !take_nil| |]; subst n; lia.
Qed.

(** Slicing commutes with [map]: [[f(x) for x in l][i:j]] is
    [[f(x) for x in l[i:j]]]. *)
Lemma py_slice_map {A B} (f : A -> B) (l : list A) (i j : Z) :
  py_slice (map f l) i j = map f (py_slice l i j).
Proof. unfold py_slice. by rewrite length_map, skipn_map, firstn_map. Qed.

(** For [i <= j], [l[i:j]] never holds more than [j - i] elements,
    whatever the signs of [i] and [j]. *)
Lemma py_slice_length_le {A} (l : list A) (i j : Z) :
  i <= j -> (length (py_slice l i j) <= Z.to_nat (j - i))%nat.
Proof.
  intros Hij. unfold py_slice, py_slice_index. rewrite length_take.
  destruct (Z.ltb_spec i 0), (Z.ltb_spec j 0); lia.
Qed.

(** *** Decimal digits *)

Lemma digit_value_of_digit (d : Z) :
  0 <= d < 10 -> digit_value (ascii_of_digit d) = Some d.
Proof.
  intros Hd. unfold digit_value, ascii_of_digit.
  rewrite nat_ascii_embedding by lia.
  replace ((48 <=? 48 + Z.to_nat d)%nat && (48 + Z.to_nat d <=? 57)%nat)
    with true by (symmetry; apply andb_true_iff; split; apply Nat.leb_le; lia).
  f_equal. lia.
Qed.

Lemma digits_aux_digit (a : Z) (b : bool) (c : ascii) (d : Z) (r : list ascii) :
  digit_value c = Some d -> digits_aux a b (c :: r) = digits_aux (a * 10 + d) true r.
Proof. intros H. cbn [digits_aux]. by rewrite H. Qed.

Lemma dec_digits_S (f : nat) (n : Z) (acc : list ascii) :
  dec_digits (S f) n acc =
  if n <? 10 then ascii_of_digit (n mod 10) :: acc
  else dec_digits f (n / 10) (ascii_of_digit (n mod 10) :: acc).
Proof. reflexivity. Qed.

(** [dec_digits] emits a non-empty block of digits that [digits_aux]
    reads back as [n]. *)
Lemma dec_digits_spec (f : nat) (n : Z) (acc : list ascii) :
  0 <= n < 10 ^ Z.of_nat (S f) ->
  exists ds, dec_digits (S f) n acc = ds ++ acc /\
    Forall (fun c => is_Some (digit_value c)) ds /\ ds <> [] /\
    forall a b rest, digits_aux a b (ds ++ rest) =
                     digits_aux (a * 10 ^ Z.of_nat (length ds) + n) true rest.
Proof.
  revert n acc. induction f as [|f IH]; intros n acc Hn;
    pose proof (Z.mod_pos_bound n 10 ltac:(lia)) as Hmod;
    pose proof (digit_value_of_digit (n mod 10) Hmod) as Hd;
    rewrite dec_digits_S; destruct (Z.ltb_spec n 10).
  1,3: exists [ascii_of_digit (n mod 10)]; split; [done|];
    split; [constructor; [by rewrite Hd | constructor]|];
    split; [done|]; intros a b rest; cbn [app length];
    rewrite (digits_aux_digit _ _ _ _ _ Hd);
    rewrite Z.mod_small by lia; f_equal; lia.
  - change (10 ^ Z.of_nat 1) with 10 in Hn. lia.
  - destruct (IH (n / 10) (ascii_of_digit (n mod 10) :: acc)) as
      (ds & Hds & Hall & Hne & Hread).
    { split; [apply Z.div_pos; lia|].
      apply Z.div_lt_upper_bound; [lia|].
      rewrite Nat2Z.inj_succ, Z.pow_succ_r in Hn by lia. lia. }
    exists (ds ++ [ascii_of_digit (n mod 10)]).
    rewrite Hds, <- app_assoc. split; [done|].
    split; [apply Forall_app; split; [done|constructor; [by rewrite Hd|constructor]]|].
    split; [by destruct ds|].
    intros a b rest. rewrite <- app_assoc. cbn [app]. rewrite Hread.
    rewrite (digits_aux_digit _ _ _ _ _ Hd), length_app. cbn [length].
    f_equal. rewrite Nat2Z.inj_add, Z.pow_add_r by lia.
    pose proof (Z.div_mod n 10 ltac:(lia)). change (Z.of_nat 1) with 1. lia.
Qed.

Lemma digit_fuel_enough (m : Z) :
  0 <= m -> m < 10 ^ Z.of_nat (digit_fuel m).
Proof.
  intros Hm. unfold digit_fuel.
  rewrite Nat2Z.inj_succ, Z2Nat.id by (apply Z.log2_nonneg).
  destruct (Z.eq_dec m 0) as [->|Hm0]; [simpl; lia|].
  destruct (Z.log2_spec m ltac:(lia)) as [_ Hlt].
  eapply Z.lt_le_trans; [exact Hlt|].
  apply Z.pow_le_mono_l. lia.
Qed.

Lemma strip_id (cs : list ascii) :
  (forall c r, cs = c :: r -> is_py_space c = false) ->
  (forall c r, cs = r ++ [c] -> is_py_space c = false) ->
  strip cs = cs.
Proof.
  intros Hhd Htl. unfold strip.
  assert (Hl : lstrip cs = cs).
  { destruct cs as [|c r]; [done|]. simpl. by rewrite (Hhd c r). }
  rewrite Hl.
  destruct (rev cs) as [|c r] eqn:Hr.
  - simpl. rewrite <- (rev_involutive cs), Hr. done.
  - simpl. rewrite (Htl c (rev r)).
    + rewrite <- Hr. apply rev_involutive.
    + rewrite <- (rev_involutive cs), Hr. done.
Qed.

Lemma digit_not_space (c : ascii) :
  is_Some (digit_value c) -> is_py_space c = false.
Proof.
  unfold digit_value, is_py_space. intros Hs.
  destruct ((48 <=? nat_of_ascii c)%nat && (nat_of_ascii c <=? 57)%nat) eqn:E;
    [|by destruct Hs].
  apply andb_true_iff in E as [E1 E2]. apply Nat.leb_le in E1, E2.
  apply orb_false_iff; split; apply andb_false_iff; right; apply Nat.leb_gt; lia.
Qed.

Lemma digit_not_sign (c : ascii) :
  is_Some (digit_value c) -> Ascii.eqb c "-" = false /\ Ascii.eqb c "+" = false.
Proof.
  unfold digit_value. intros Hs.
  destruct ((48 <=? nat_of_ascii c)%nat && (nat_of_ascii c <=? 57)%nat) eqn:E;
    [|by destruct Hs].
  apply andb_true_iff in E as [E1 E2]. apply Nat.leb_le in E1, E2.
  split; apply Ascii.eqb_neq; intros ->; vm_compute in E1, E2; lia.
Qed.

(** [str(z)] of a non-negative integer is a non-empty block of decimal
    digits whose value is [z]. *)
Lemma py_str_int_nonneg (z : Z) :
  0 <= z -> exists ds, py_str_int z = string_of_list_ascii ds /\
    Forall (fun c => is_Some (digit_value c)) ds /\ ds <> [] /\ digits_aux 0 false ds = Some z.
Proof.
  intros Hz. unfold py_str_int. replace (Z.abs z) with z by lia.
  destruct (Z.ltb_spec z 0); [lia|].
  assert (Hm : 0 <= z < 10 ^ Z.of_nat (digit_fuel z)) by (split; [lia|by apply digit_fuel_enough]).
  unfold digit_fuel in *.
  destruct (dec_digits_spec _ z [] Hm) as (ds & Hds & Hall & Hne & Hread).
  exists ds. rewrite Hds, app_nil_r. do 3 (split; [done|]).
  rewrite <- (app_nil_r ds), Hread. done.
Qed.

(** [int] reads back what [str] prints; [str] is therefore injective,
    which makes the keys [jsonify] writes for distinct ids distinct. *)
Lemma py_str_int_read (z : Z) :
  py_int_of_string (py_str_int z) = Some z.
Proof.
  unfold py_str_int, py_int_of_string. rewrite list_ascii_of_string_of_list_ascii.
  set (m := Z.abs z).
  assert (Hm : 0 <= m < 10 ^ Z.of_nat (digit_fuel m)).
  { split; [lia|]. apply digit_fuel_enough. lia. }
  unfold digit_fuel in *.
  destruct (dec_digits_spec _ m [] Hm) as (ds & Hds & Hall & Hne & Hread).
  rewrite Hds, app_nil_r.
  assert (Hfirst : forall c r, ds = c :: r -> is_Some (digit_value c)).
  { intros c r ->. by inversion Hall. }
  assert (Hlast : forall c r, ds = r ++ [c] -> is_Some (digit_value c)).
  { intros c r ->. apply Forall_app in Hall as [_ H]. by inversion H. }
  assert (Hval : digits_aux 0 false ds = Some m).
  { rewrite <- (app_nil_r ds), Hread. done. }
  destruct (Z.ltb_spec z 0).
  - rewrite strip_id.
    + simpl. rewrite Hval. simpl. f_equal. lia.
    + intros c r [= <- _]. done.
    + intros c r Hcr. destruct r as [|c' r]; simpl in Hcr; [by destruct ds|].
      invc Hcr. by apply digit_not_space, (Hlast c r).
  - rewrite strip_id.
    + destruct ds as [|c r]; [done|].
      destruct (digit_not_sign c (Hfirst c r eq_refl)) as [-> ->].
      rewrite Hval. f_equal. lia.
    + intros c r Hcr. by apply digit_not_space, (Hfirst c r).
    + intros c r Hcr. by apply digit_not_space, (Hlast c r).
Qed.

