(* ===== verification/Store.v ===== *)
(** * Store: the relational store behind the API

    The two tables of [starter/backend/models.py] (not part of [src/];
    modelled from the spec, section 3): [Question] and [Category].  The
    handlers reach the store through the query layer, stated here as
    the class [QueryLayer] with the laws [QueryLayerLaws] it promises;
    [ListDb] implements it with a table as a list of rows in storage
    order (PostgreSQL returns an unordered [SELECT] in heap order, which
    for a table that is only appended to is insertion order).

    The SQL queries the handlers build with SQLAlchemy
    ([Query.get], [filter(Question.category == c)], [~Question.id.in_(ids)],
    [Query.first]) are functions of the table contents, defined once
    over any implementation of the interface. *)

From S2P Require Import Prelude PyCore.

Open Scope Z_scope.

Module Models.

(** ** Rows *)

Record question := mkQuestion {
  q_id : Z;
  q_question : string;
  q_answer : string;
  q_category : Z;
  q_difficulty : Z
}.

Record category := mkCategory {
  c_id : Z;
  c_type : string
}.

(** The four columns a client supplies when it creates a question. *)
Record question_fields := mkFields {
  f_question : string;
  f_answer : string;
  f_category : Z;
  f_difficulty : Z
}.

#[export] Instance question_eq_dec : EqDecision question.
Proof. solve_decision. Defined.
#[export] Instance category_eq_dec : EqDecision category.
Proof. solve_decision. Defined.

(** The row [Question(...).insert()] adds, with the next value of the
    primary-key sequence. *)
Definition make_question (id : Z) (f : question_fields) : question :=
  {| q_id := id; q_question := f_question f; q_answer := f_answer f;
     q_category := f_category f; q_difficulty := f_difficulty f |}.

(** ** The query layer: interface and laws *)

Class QueryLayer (St : Type) := {
  questions_of : St -> list question;             (** [Question.query.all()] *)
  categories_of : St -> list category;            (** [Category.query.all()] *)
  next_id_of : St -> Z;                           (** the id sequence *)
  insert_question : question_fields -> St -> St;  (** [Question.insert()] *)
  delete_question : Z -> St -> St                 (** [Question.deletes()] *)
}.

(** What the store promises: an insert appends one row with a fresh
    sequence value, a delete removes the rows with that primary key,
    and neither touches the category table.  Both commit at once
    ([db.session.add]/[delete] followed by [db.session.commit()] in
    the models), so no later rollback undoes them.  The laws also fix
    the order the tables are read in (a new row last): the program's
    queries have no [ORDER BY], so this is an assumption on the store,
    which PostgreSQL meets for a table read by a sequential scan after
    appends only. *)
Class QueryLayerLaws (St : Type) `{QueryLayer St} := {
  insert_questions_law f s :
    questions_of (insert_question f s) = questions_of s ++ [make_question (next_id_of s) f];
  insert_next_law f s : next_id_of (insert_question f s) = next_id_of s + 1;
  insert_categories_law f s : categories_of (insert_question f s) = categories_of s;
  delete_questions_law i s :
    questions_of (delete_question i s) = List.filter (fun q => negb (q_id q =? i)) (questions_of s);
  delete_next_law i s : next_id_of (delete_question i s) = next_id_of s;
  delete_categories_law i s : categories_of (delete_question i s) = categories_of s
}.

(** ** SQL queries over the question table *)

Section Queries.
Context {St : Type} `{QueryLayer St}.

(** [Question.query.get(i)]: the row with primary key [i]. *)
Definition query_get (s : St) (i : Z) : option question :=
  List.find (fun q => q_id q =? i) (questions_of s).

(** [Question.query.filter(Question.category == c)] and
    [filter_by(category=c)]. *)
Definition filter_category (c : Z) (qs : list question) : list question :=
  List.filter (fun q => q_category q =? c) qs.

(** The same filter for a parameter that may be [None]: SQLAlchemy
    writes [category IS NULL], which no stored row satisfies (every
    stored category is an integer). *)
Definition filter_category_param (c : option Z) (qs : list question) : list question :=
  match c with Some z => filter_category z qs | None => [] end.

(** [x NOT IN (v1, ..., vn)] in SQL's three-valued logic, where a
    [NULL] element ([None]) makes the test unknown unless some element
    equals [x]; a [WHERE] clause keeps a row only when the test is
    true. *)
Definition sql_not_in (x : Z) (vs : list (option Z)) : bool :=
  forallb (fun v => match v with Some y => negb (x =? y) | None => false end) vs.

(** [filter(~Question.id.in_(ids))]. *)
Definition filter_not_in (ids : list (option Z)) (qs : list question) : list question :=
  List.filter (fun q => sql_not_in (q_id q) ids) qs.

(** [Query.first()]: [LIMIT 1] on the rows in storage order. *)
Definition query_first (qs : list question) : option question := hd_error qs.

(** The store's integrity: the primary keys of both tables are unique,
    and every question id was drawn from the sequence, which starts at
    1 and has not yet reached [next_id_of s]. *)
Definition wf_store (s : St) : Prop :=
  NoDup (map q_id (questions_of s)) /\
  Forall (fun q => 0 < q_id q < next_id_of s) (questions_of s) /\
  0 < next_id_of s /\
  NoDup (map c_id (categories_of s)).

#[export] Instance wf_store_dec (s : St) : Decision (wf_store s).
Proof. unfold wf_store. apply _. Defined.
End Queries.

(** ** The list implementation *)

Record db := mkDb {
  db_questions : list question;
  db_categories : list category;
  db_next_id : Z
}.

#[export] Instance ListDb : QueryLayer db := {
  questions_of := db_questions;
  categories_of := db_categories;
  next_id_of := db_next_id;
  insert_question f s :=
    mkDb (db_questions s ++ [make_question (db_next_id s) f])
         (db_categories s) (db_next_id s + 1);
  delete_question i s :=
    mkDb (List.filter (fun q => negb (q_id q =? i)) (db_questions s))
         (db_categories s) (db_next_id s)
}.

(** The store of the spec's example (section 8): categories
    Science (1) and Art (2), questions 1 and 2 in Science and 3 in Art. *)
Definition sample_db : db :=
  mkDb [mkQuestion 1 "What is H2O?" "Water" 1 1;
        mkQuestion 2 "Speed of light?" "c" 1 3;
        mkQuestion 3 "Who painted Guernica?" "Picasso" 2 2]
       [mkCategory 1 "Science"; mkCategory 2 "Art"] 4.

(** ** Lemmas *)

(** The list implementation keeps the promises of the interface. *)
#[export] Instance ListDb_laws : QueryLayerLaws db.
Proof. split; reflexivity. Qed.

Section StoreFacts.
Context {St : Type} `{QueryLayerLaws St}.

(** Inserting a question keeps the store well formed: the new row
    takes the next sequence value, which no existing row has. *)
Theorem insert_preserves_wf (f : question_fields) (s : St) :
  wf_store s -> wf_store (insert_question f s).
Proof.
  intros (Hnd & Hrange & Hnext & Hcat). unfold wf_store.
  rewrite insert_questions_law, insert_next_law, insert_categories_law.
  split; [|split; [|split]]; [| |lia|done].
  - rewrite map_app. apply NoDup_app. split; [done|]. split; [|apply NoDup_singleton].
    intros x Hx Hy. apply list_elem_of_singleton in Hy. subst x.
    apply list_elem_of_In, in_map_iff in Hx as (q & Hq & Hin).
    rewrite Forall_forall in Hrange. apply list_elem_of_In in Hin.
    specialize (Hrange q Hin). simpl in Hq. lia.
  - apply Forall_app. split.
    + eapply Forall_impl; [exact Hrange|]. simpl. lia.
    + constructor; [simpl; lia|constructor].
Qed.

(** Deleting a question keeps the store well formed. *)
Theorem delete_preserves_wf (i : Z) (s : St) :
  wf_store s -> wf_store (delete_question i s).
Proof.
  intros (Hnd & Hrange & Hnext & Hcat). unfold wf_store.
  rewrite delete_questions_law, delete_next_law, delete_categories_law.
  split; [by apply NoDup_map_filter|]. split; [by apply Forall_filter_bool|]. done.
Qed.

(** After [delete_question i], no row with primary key [i] is left,
    and every other row is kept. *)
Theorem delete_question_spec (i : Z) (s : St) (q : question) :
  In q (questions_of (delete_question i s)) <-> In q (questions_of s) /\ q_id q <> i.
Proof.
  rewrite delete_questions_law, filter_In, negb_true_iff, Z.eqb_neq. done.
Qed.

(** In a well-formed store, [Question.query.get(i)] returns exactly
    the row whose primary key is [i]. *)
Theorem query_get_spec (s : St) (i : Z) (q : question) :
  wf_store s -> query_get s i = Some q <-> In q (questions_of s) /\ q_id q = i.
Proof.
  intros (Hnd & _). unfold query_get. split.
  - intros Hf. apply find_some in Hf as [Hin Hid]. by apply Z.eqb_eq in Hid.
  - intros [Hin Hid]. destruct (List.find _ _) as [q'|] eqn:Hf.
    + apply find_some in Hf as [Hin' Hid']. apply Z.eqb_eq in Hid'.
      f_equal. apply (NoDup_map_inj_in q_id (questions_of s)); auto. congruence.
    + eapply find_none in Hf; [|exact Hin]. apply Z.eqb_neq in Hf. done.
Qed.

(** [query_get] returns [None] exactly when no row has the key. *)
Lemma query_get_None (s : St) (i : Z) :
  query_get s i = None <-> forall q, In q (questions_of s) -> q_id q <> i.
Proof.
  unfold query_get. split.
  - intros Hf q Hin. eapply find_none in Hf; [|exact Hin]. by apply Z.eqb_neq in Hf.
  - intros Hno. destruct (List.find _ _) as [q|] eqn:Hf; [|done].
    apply find_some in Hf as [Hin Hid]. apply Z.eqb_eq in Hid. by destruct (Hno q Hin).
Qed.
End StoreFacts.

Lemma sample_db_wf : wf_store sample_db.
Proof. apply (bool_decide_unpack _). vm_compute. reflexivity. Qed.

Lemma insert_preserves_wf_witness :
  wf_store (insert_question (mkFields "Capital of France?" "Paris" 2 1) sample_db).
Proof. apply insert_preserves_wf. exact sample_db_wf. Defined.

Lemma delete_preserves_wf_witness : wf_store (delete_question 2 sample_db).
Proof. apply delete_preserves_wf. exact sample_db_wf. Defined.

Lemma query_get_spec_witness :
  query_get sample_db 3 = Some (mkQuestion 3 "Who painted Guernica?" "Picasso" 2 2).
Proof.
  apply (query_get_spec sample_db 3 _ sample_db_wf). split; [simpl; tauto|done].
Defined.

End Models.
