(* ===== verification/Json.v ===== *)
(** * Json: Python values, JSON documents and their conversions

    The values the handlers build and inspect: the Python objects of a
    parsed request body ([request.get_json()]), the dicts and lists a
    handler passes to [jsonify], and the mapped [Question] objects
    SQLAlchemy returns.  [to_json] is Flask's [jsonify] (the default
    JSON provider: [json.dumps] with [sort_keys=True]), which refuses a
    value it cannot encode with [TypeError]; [py_getitem] is Python's
    subscription [v[k]]; [sql_*] convert a Python value into an SQL
    parameter of a column's type, as psycopg2 sends it and PostgreSQL
    reads it ([pg_int4_in] is the input syntax of [integer]). *)

From S2P Require Import Prelude PyCore Store.
Import Models.

Open Scope Z_scope.

#[local] Set Warnings "-register-all".

Module Json.

(** ** Python values *)

Inductive pyval : Type :=
  | PNone
  | PBool (b : bool)
  | PInt (z : Z)
  | PStr (s : string)
  | PList (l : list pyval)
  | PDict (kvs : list (pyval * pyval))
  | PEntity (q : question).   (** a mapped [Question] instance *)

(** ** JSON documents *)

Inductive json : Type :=
  | JNull
  | JBool (b : bool)
  | JNum (z : Z)
  | JStr (s : string)
  | JArr (l : list json)
  | JObj (kvs : list (string * json)).

(** The member [k] of a JSON object. *)
Definition json_field (j : json) (k : string) : option json :=
  match j with
  | JObj kvs => option_map snd (List.find (fun kv => String.eqb (fst kv) k) kvs)
  | _ => None
  end.

(** ** Python equality on dict keys and with an integer *)

Definition py_num (v : pyval) : option Z :=
  match v with
  | PInt z => Some z
  | PBool b => Some (if b then 1 else 0)
  | _ => None
  end.

(** [k1 == k2] for hashable keys: numbers compare by value ([True == 1]),
    strings by content, [None] only with itself; a mapped object only
    with itself. *)
Definition py_key_eqb (k1 k2 : pyval) : bool :=
  match k1, k2 with
  | PStr a, PStr b => String.eqb a b
  | PNone, PNone => true
  | PEntity a, PEntity b => bool_decide (a = b)
  | _, _ =>
      match py_num k1, py_num k2 with
      | Some a, Some b => a =? b
      | _, _ => false
      end
  end.

(** [v == z] for an integer literal [z]. *)
Definition py_eq_int (v : pyval) (z : Z) : bool :=
  match py_num v with Some a => a =? z | None => false end.

(** ** Subscription [c[k]] *)

Definition dict_lookup (k : pyval) (kvs : list (pyval * pyval)) : option pyval :=
  option_map snd (List.find (fun kv => py_key_eqb (fst kv) k) kvs).

(** A sequence index [i] of a sequence of length [n]: negative indices
    count from the end; [None] is [IndexError]. *)
Definition seq_index (n i : Z) : option nat :=
  let j := if i <? 0 then i + n else i in
  if (0 <=? j) && (j <? n) then Some (Z.to_nat j) else None.

Definition py_getitem (c k : pyval) : outcome pyval :=
  match c with
  | PDict kvs =>
      match dict_lookup k kvs with Some v => Ret v | None => Raise KeyError end
  | PList l =>
      match py_num k with
      | Some i =>
          match seq_index (Z.of_nat (length l)) i with
          | Some n => match nth_error l n with Some v => Ret v | None => Raise IndexError end
          | None => Raise IndexError
          end
      | None => Raise TypeError
      end
  | PStr s =>
      match py_num k with
      | Some i =>
          match seq_index (Z.of_nat (String.length s)) i with
          | Some n => match String.get n s with
                      | Some ch => Ret (PStr (String ch EmptyString))
                      | None => Raise IndexError
                      end
          | None => Raise IndexError
          end
      | None => Raise TypeError
      end
  | _ => Raise TypeError   (** [None], numbers and mapped objects are not subscriptable *)
  end.

(** ** [jsonify]: [json.dumps(v, sort_keys=True)] *)

(** The key of a JSON object member, as [json.dumps] writes a dict key. *)
Definition json_key (k : pyval) : outcome string :=
  match k with
  | PStr s => Ret s
  | PInt z => Ret (py_str_int z)
  | PBool b => Ret (if b then "true" else "false")
  | PNone => Ret "null"
  | _ => Raise TypeError
  end.

(** [sorted(d.items())] compares the keys with [<]: it succeeds when
    there are fewer than two keys, or all keys are strings, or all are
    numbers; otherwise Python raises [TypeError]. *)
Definition is_str_key (k : pyval) : bool := match k with PStr _ => true | _ => false end.
Definition is_num_key (k : pyval) : bool := match py_num k with Some _ => true | None => false end.

Definition keys_sortable {B} (kvs : list (pyval * B)) : bool :=
  (length kvs <=? 1)%nat || forallb (fun kv => is_str_key (fst kv)) kvs
  || forallb (fun kv => is_num_key (fst kv)) kvs.

Definition key_leb {B} (a b : pyval * B) : bool :=
  match fst a, fst b with
  | PStr x, PStr y => String.leb x y
  | ka, kb =>
      match py_num ka, py_num kb with
      | Some x, Some y => x <=? y
      | _, _ => true
      end
  end.

Definition key_le {B} (a b : pyval * B) : Prop := key_leb a b = true.

#[export] Instance key_le_dec {B} : RelDecision (@key_le B).
Proof. intros a b. unfold key_le. apply _. Defined.

(** [sorted] can compare any two keys it accepts. *)
#[export] Instance key_le_total {B} : Total (@key_le B).
Proof.
  intros [a x] [b y]. unfold key_le, key_leb. cbn [fst].
  destruct a as [|[]|za|sa|la|da|qa], b as [|[]|zb|sb|lb|db|qb]; cbn [py_num];
    try (by left); try (by right); try apply String.leb_total.
  all: match goal with |- (?x <=? ?y) = true \/ _ =>
         destruct (Z.le_ge_cases x y); [left|right]; apply Z.leb_le; lia end.
Qed.

(** The order on the items of a dict whose keys are integers. *)
Definition int_key {B} (kv : pyval * B) : option Z :=
  match fst kv with PInt z => Some z | _ => None end.

Definition int_key_le {B} (a b : pyval * B) : Prop :=
  exists x y, int_key a = Some x /\ int_key b = Some y /\ x <= y.

#[export] Instance int_key_le_trans {B} : Transitive (@int_key_le B).
Proof. intros a b c (x & y & Ha & Hb & Hxy) (y' & z & Hb' & Hc & Hyz). exists x, z. naive_solver lia. Qed.

(** The members in [sorted] order. *)
Definition sort_items {B} (kvs : list (pyval * B)) : list (pyval * B) :=
  merge_sort key_le kvs.

(** Apply a conversion that can raise to each element, left to right;
    the first exception stops the traversal. *)
Fixpoint map_outcome {A B} (f : A -> outcome B) (l : list A) : outcome (list B) :=
  match l with
  | [] => Ret []
  | x :: r =>
      match f x with
      | Ret y => match map_outcome f r with Ret ys => Ret (y :: ys) | Raise e => Raise e end
      | Raise e => Raise e
      end
  end.

Fixpoint to_json (v : pyval) : outcome json :=
  match v with
  | PNone => Ret JNull
  | PBool b => Ret (JBool b)
  | PInt z => Ret (JNum z)
  | PStr s => Ret (JStr s)
  | PList l =>
      match map_outcome to_json l with Ret js => Ret (JArr js) | Raise e => Raise e end
  | PDict kvs =>
      if keys_sortable kvs then
        match map_outcome (fun kv =>
                match json_key (fst kv), to_json (snd kv) with
                | Ret ks, Ret j => Ret (fst kv, (ks, j))
                | Raise e, _ | Ret _, Raise e => Raise e
                end) kvs with
        | Ret items => Ret (JObj (map snd (sort_items items)))
        | Raise e => Raise e
        end
      else Raise TypeError
  | PEntity _ => Raise TypeError   (** "Object of type Question is not JSON serializable" *)
  end.

(** [d[k] = v] on a dict: an existing key keeps its position and takes
    the new value; a new key goes at the end (insertion order). *)
Fixpoint dict_setitem (kvs : list (pyval * pyval)) (k v : pyval) : list (pyval * pyval) :=
  match kvs with
  | [] => [(k, v)]
  | (k', v') :: r => if py_key_eqb k' k then (k', v) :: r else (k', v') :: dict_setitem r k v
  end.

(** ** SQL parameters *)

(** The range of PostgreSQL's [integer] column type. *)
Definition int4_min : Z := - 2 ^ 31.
Definition int4_max : Z := 2 ^ 31 - 1.

(** The characters C's [isspace] accepts: tab, line feed, vertical
    tab, form feed, carriage return and space. *)
Definition is_c_space (c : ascii) : bool :=
  let n := nat_of_ascii c in ((9 <=? n) && (n <=? 13))%nat || (n =? 32)%nat.

Fixpoint skip_c_space (cs : list ascii) : list ascii :=
  match cs with
  | c :: r => if is_c_space c then skip_c_space r else cs
  | [] => []
  end.

(** The decimal digits at the front of a list: their value, their
    number, and what follows them. *)
Fixpoint take_digits (acc : Z) (n : nat) (cs : list ascii) : Z * nat * list ascii :=
  match cs with
  | c :: r =>
      match digit_value c with
      | Some d => take_digits (acc * 10 + d) (S n) r
      | None => (acc, n, cs)
      end
  | [] => (acc, n, [])
  end.

(** PostgreSQL's input function of [integer] ([pg_strtoint32], as in
    versions before 16), which types a quoted literal compared with or
    stored into an [integer] column: spaces, an optional sign, at least
    one digit, spaces, and a value in the 32-bit range; anything else
    is an error. *)
Definition pg_int4_in (s : string) : option Z :=
  let cs := skip_c_space (list_ascii_of_string s) in
  let '(neg, cs') :=
    match cs with
    | c :: r => if Ascii.eqb c "-" then (true, r) else if Ascii.eqb c "+" then (false, r) else (false, cs)
    | [] => (false, [])
    end in
  let '(v, n, rest) := take_digits 0 0 cs' in
  let z := if neg then - v else v in
  match n, skip_c_space rest with
  | S _, [] => if (int4_min <=? z) && (z <=? int4_max) then Some z else None
  | _, _ => None
  end.

(** A Python value compared with an integer column
    ([Question.category == v], [filter_by(category=v)]), as psycopg2
    sends it: an int is a numeric literal compared by value; [None]
    makes SQLAlchemy write [IS NULL] ([None] here); a string is a
    quoted literal that PostgreSQL reads as an [integer]; a boolean
    ([true]), a list or a dict cannot be compared with an integer. *)
Definition sql_int_cmp (v : pyval) : outcome (option Z) :=
  match v with
  | PInt z => Ret (Some z)
  | PNone => Ret None
  | PStr s => match pg_int4_in s with Some z => Ret (Some z) | None => Raise DBError end
  | _ => Raise DBError
  end.

(** A Python value stored into an [integer] column: an int must fit
    the column's 32-bit range, a string must be an [integer] literal.
    ([None] would store [NULL], which the rows of the model do not
    hold; it is refused.) *)
Definition sql_int_assign (v : pyval) : outcome Z :=
  match v with
  | PInt z => if (int4_min <=? z) && (z <=? int4_max) then Ret z else Raise DBError
  | PStr s => match pg_int4_in s with Some z => Ret z | None => Raise DBError end
  | _ => Raise DBError
  end.

(** A Python value stored into a text column: a string as it is; an
    int through PostgreSQL's assignment cast to a string type, its
    decimal form.  (A boolean, [None] or a container is refused.) *)
Definition sql_text (v : pyval) : outcome string :=
  match v with
  | PStr s => Ret s
  | PInt z => Ret (py_str_int z)
  | _ => Raise DBError
  end.

(** The list bound by [Question.id.in_(v)]: integers (a string is read
    as an [integer] literal), or [None] for a [NULL] element. *)
Definition sql_int_list (v : pyval) : outcome (list (option Z)) :=
  let fix go (l : list pyval) : outcome (list (option Z)) :=
    match l with
    | [] => Ret []
    | x :: r =>
        match sql_int_cmp x, go r with
        | Ret o, Ret vs => Ret (o :: vs)
        | Raise e, _ | Ret _, Raise e => Raise e
        end
    end in
  match v with PList l => go l | _ => Raise DBError end.

(** ** Lemmas *)

(** A conversion that succeeds on every element of a mapped list. *)
Lemma map_outcome_map_Ret {A B C} (f : B -> outcome C) (g : A -> B) (h : A -> C) (l : list A) :
  (forall x, f (g x) = Ret (h x)) -> map_outcome f (map g l) = Ret (map h l).
Proof. intros Hf. induction l as [|x l IH]; simpl; [done|]. by rewrite Hf, IH. Qed.

(** One element that cannot be converted makes the traversal raise
    (that exception, or one of an element before it). *)
Lemma map_outcome_Raise_In {A B} (f : A -> outcome B) (l : list A) (x : A) (e : exn) :
  In x l -> f x = Raise e -> exists e', map_outcome f l = Raise e'.
Proof.
  intros Hin Hx. induction l as [|y l IH]; [done|]. simpl.
  destruct Hin as [->|Hin].
  - rewrite Hx. eauto.
  - destruct (f y); [|eauto]. destruct (IH Hin) as [e' ->]. eauto.
Qed.

(** A dict with a mapped object among its values cannot be encoded:
    [jsonify] raises, whatever the other members are. *)
Lemma to_json_dict_entity (kvs : list (pyval * pyval)) :
  existsb (fun kv => match snd kv with PEntity _ => true | _ => false end) kvs = true ->
  exists e, to_json (PDict kvs) = Raise e.
Proof.
  intros ([k v] & Hin & Hv)%existsb_exists. cbn [to_json].
  destruct (keys_sortable kvs); [|eauto].
  destruct v; try discriminate.
  match goal with |- context [map_outcome ?f kvs] =>
    assert (Hf : exists e0, f (k, PEntity q) = Raise e0) by (cbn; destruct (json_key k); eauto);
    destruct Hf as [e0 Hf]; destruct (map_outcome_Raise_In f kvs _ e0 Hin Hf) as [e ->] end.
  eauto.
Qed.

(** [d[k] = v] with a key not yet in the dict appends the item. *)
Lemma dict_setitem_fresh (kvs : list (pyval * pyval)) (k v : pyval) :
  Forall (fun kv => py_key_eqb (fst kv) k = false) kvs ->
  dict_setitem kvs k v = kvs ++ [(k, v)].
Proof.
  induction 1 as [|[k' v'] kvs Hk _ IH]; [done|]. simpl in *. by rewrite Hk, IH.
Qed.

(** In an object whose member names are distinct, [json_field] finds
    exactly the members of the object. *)
Lemma json_field_spec (kvs : list (string * json)) (k : string) (j : json) :
  NoDup (map fst kvs) -> json_field (JObj kvs) k = Some j <-> In (k, j) kvs.
Proof.
  intros Hnd. unfold json_field. split.
  - destruct (List.find _ _) as [[k' j']|] eqn:Hf; [|done]. intros [= <-].
    apply find_some in Hf as [Hin Hk]. apply String.eqb_eq in Hk. simpl in Hk. by subst.
  - intros Hin. destruct (List.find _ _) as [kv|] eqn:Hf.
    + apply find_some in Hf as [Hin' Hk]. apply String.eqb_eq in Hk.
      rewrite (NoDup_map_inj_in fst kvs kv (k, j)); auto.
    + eapply find_none in Hf; [|exact Hin]. simpl in Hf. by rewrite String.eqb_refl in Hf.
Qed.

(** [str] is injective on integers (a consequence of the round trip). *)
Lemma py_str_int_inj (a b : Z) : py_str_int a = py_str_int b -> a = b.
Proof.
  intros Heq. apply (f_equal py_int_of_string) in Heq.
  rewrite !py_str_int_read in Heq. congruence.
Qed.

Lemma Sorted_key_le_int {B} (l : list (pyval * B)) :
  Forall (fun kv => is_Some (int_key kv)) l -> Sorted key_le l -> Sorted int_key_le l.
Proof.
  intros Hall Hs. induction Hs as [|a l Hs IH Hhd]; constructor.
  - apply IH. by inversion Hall.
  - destruct Hhd as [|b l Hab]; constructor. inversion Hall as [|? ? [x Hx] Hl]; subst.
    inversion Hl as [|? ? [y Hy] _]; subst. exists x, y. split; [done|]. split; [done|].
    unfold key_le, key_leb, int_key in *. destruct (fst a), (fst b); simplify_eq. by apply Z.leb_le.
Qed.

(** [sorted] puts the items of a dict with distinct integer keys in one
    order, whatever the order they were inserted in. *)
Lemma sort_items_perm {B} (l1 l2 : list (pyval * B)) :
  Forall (fun kv => is_Some (int_key kv)) l1 -> NoDup (map fst l1) -> l1 ≡ₚ l2 ->
  sort_items l1 = sort_items l2.
Proof.
  intros Hint Hnd Hp. unfold sort_items.
  assert (Hint2 : Forall (fun kv => is_Some (int_key kv)) l2) by by rewrite <- Hp.
  apply (Sorted_unique_strong int_key_le).
  - intros x1 x2 Hx1 Hx2 (a & b & Ha & Hb & Hab) (b' & a' & Hb' & Ha' & Hba).
    rewrite merge_sort_Permutation in Hx1. rewrite merge_sort_Permutation, <- Hp in Hx2.
    apply list_elem_of_In in Hx1, Hx2.
    apply (NoDup_map_inj_in fst l1); [done..|].
    unfold int_key in *. destruct (fst x1), (fst x2); simplify_eq. f_equal. lia.
  - apply Sorted_key_le_int; [by rewrite merge_sort_Permutation|]. apply Sorted_merge_sort, key_le_total.
  - apply Sorted_key_le_int; [by rewrite merge_sort_Permutation|]. apply Sorted_merge_sort, key_le_total.
  - by rewrite !merge_sort_Permutation.
Qed.

End Json.
