(* ===== verification/Flask.v ===== *)
(** * Flask: requests, responses and the request-scoped pieces of the app

    What a handler of [src/backend/flaskr/__init__.py] sees and
    returns: the request ([request.method], [request.args],
    [request.get_json()]), the response [jsonify] builds, the world a
    handler runs in (the store and the session of the module-level
    [db = SQLAlchemy()] of line 9), the error handlers of lines
    320-350, the [after_request] hook of lines 25-29 and the
    Flask-CORS extension configured at line 20 (its [after_request]
    function and its wrapper of the exception handlers). *)

From S2P Require Import Prelude PyCore Store Json.
Import Models Json.

Open Scope Z_scope.

Module Flask.

(** ** Requests and responses *)

Inductive http_method : Type := GET | POST | PATCH | DELETE | PUT | HEAD | OPTIONS.

#[export] Instance http_method_eq_dec : EqDecision http_method.
Proof. solve_decision. Defined.

(** The method's name, as werkzeug writes it in an [Allow] header. *)
Definition method_name (m : http_method) : string :=
  match m with
  | GET => "GET" | POST => "POST" | PATCH => "PATCH" | DELETE => "DELETE"
  | PUT => "PUT" | HEAD => "HEAD" | OPTIONS => "OPTIONS"
  end.

(** The body of a request, as [request.get_json()] sees it. *)
Inductive request_body : Type :=
  | BodyJson (v : pyval)   (** a JSON body, parsed *)
  | BodyMalformed          (** JSON content type, unparsable body *)
  | BodyNotJson.           (** no JSON content type *)

Record request := mkRequest {
  req_method : http_method;
  req_path : string;
  req_args : list (string * string);   (** the query string, in order *)
  req_body : request_body
}.

Inductive payload : Type :=
  | RJson (j : json)        (** a [jsonify] body *)
  | RDefault (code : Z)     (** werkzeug's default error page *)
  | REmpty.                 (** an empty body *)

Record response := mkResponse {
  status : Z;
  body : payload;
  headers : list (string * string)
}.

(** ** The world of a request *)

(** The store, and whether the session of the module-level
    [db = SQLAlchemy()] has been closed.  That object is never bound
    to the app ([setup_db] binds the models' own [SQLAlchemy] object),
    so its session holds none of the store's changes. *)
Record world (St : Type) := mkWorld {
  w_db : St;
  w_closed : bool
}.
Arguments mkWorld {St} w_db w_closed.
Arguments w_db {St} w.
Arguments w_closed {St} w.

Definition M (St A : Type) : Type := PyM (world St) A.

Section Ops.
Context {St : Type} `{QueryLayer St}.

(** [Question.query.all()], [Category.query.all()]. *)
Definition all_questions : M St (list question) := fun w => (Ret (questions_of (w_db w)), w).
Definition all_categories : M St (list category) := fun w => (Ret (categories_of (w_db w)), w).

(** [Question.query.get(i)]. *)
Definition get_question (i : Z) : M St (option question) :=
  fun w => (Ret (query_get (w_db w) i), w).

(** [question.insert()] and [question.deletes()] of the models; the
    inserted object receives the next value of the id sequence. *)
Definition store_insert (f : question_fields) : M St question :=
  fun w => (Ret (make_question (next_id_of (w_db w)) f),
            mkWorld (insert_question f (w_db w)) (w_closed w)).
Definition store_delete (i : Z) : M St unit :=
  fun w => (Ret tt, mkWorld (delete_question i (w_db w)) (w_closed w)).

(** The methods of [db.session] the handlers call. *)
Inductive session_call : Type := Commit | Rollback | Close.

(** [db.<attr>.<call>()]: the attribute must be [session]
    ([AttributeError] otherwise).  Commit and rollback act on a
    session with no pending change; close closes it. *)
Definition db_session_call (attr : string) (c : session_call) : M St unit :=
  if String.eqb attr "session" then
    match c with
    | Close => fun w => (Ret tt, mkWorld (w_db w) true)
    | Commit | Rollback => pret tt
    end
  else praise AttributeError.
End Ops.

(** [request.get_json()]: a malformed body is werkzeug's [BadRequest]
    (400), a body of another content type [UnsupportedMediaType]
    (415, werkzeug 2.3 and later). *)
Definition get_json {S} (r : request) : PyM S pyval :=
  match req_body r with
  | BodyJson v => pret v
  | BodyMalformed => abort 400
  | BodyNotJson => abort 415
  end.

(** [request.args.get(key, default, type=int)]: the first value of
    [key], converted with [int]; a [ValueError] gives the default. *)
Definition args_get_int (args : list (string * string)) (key : string) (default : Z) : Z :=
  match List.find (fun kv => String.eqb (fst kv) key) args with
  | Some (_, v) => match py_int_of_string v with Some z => z | None => default end
  | None => default
  end.

(** [jsonify(v)]: a 200 response, or the [TypeError] of the encoder. *)
Definition jsonify {S} (v : pyval) : PyM S response :=
  match to_json v with
  | Ret j => pret (mkResponse 200 (RJson j) [])
  | Raise e => praise e
  end.

(** ** Error handlers (lines 320-350) *)

Definition error_body (code : Z) (message : string) : json :=
  JObj [("error", JNum code); ("message", JStr message); ("success", JBool false)].

(** The handlers registered with [@app.errorhandler]; their bodies are
    written here in [jsonify]'s sorted key order. *)
Definition error_handler (code : Z) : option response :=
  if code =? 404 then Some (mkResponse 404 (RJson (error_body 404 "Resource Not Found")) [])
  else if code =? 405 then Some (mkResponse 405 (RJson (error_body 405 "Not Allowed")) [])
  else if code =? 422 then Some (mkResponse 422 (RJson (error_body 422 "Unprocessable")) [])
  else if code =? 400 then Some (mkResponse 400 (RJson (error_body 400 "Bad Request")) [])
  else None.

(** What Flask makes of an exception that leaves a view: an
    [HTTPException] goes to its registered handler, or to werkzeug's
    default page; any other exception is an Internal Server Error. *)
Definition handle_exception (e : exn) : response :=
  match e with
  | HTTPException code =>
      match error_handler code with
      | Some r => r
      | None => mkResponse code (RDefault code) []
      end
  | _ => mkResponse 500 (RDefault 500) []
  end.

(** ** [after_request] hooks *)

(** Lines 25-29: [response.headers.add(...)] twice. *)
Definition after_request (r : response) : response :=
  mkResponse (status r) (body r)
    (headers r ++ [("Access-Control-Allow-Headers", "Content-Type, Authorization");
                   ("Access-Control-Allow-Methods", "GET, POST, PATCH, DELETE, OPTIONS")]).

(** Line 20: [CORS(app, resources={r"/app/*": {"origins": "*"}})].
    Flask-CORS (before 6.0) tests [request.path] with
    [re.match(pattern, path, re.IGNORECASE)], which anchors the pattern
    at the start only and ignores case: [/app] followed by any number
    of [/] matches every path whose first four characters are [/app] in
    any case ([/APP/x], [/apple]). *)
Definition cors_resource_match (path : string) : bool :=
  String.prefix "/app" (string_of_list_ascii (map ascii_lower (list_ascii_of_string path))).

(** Whether a response already carries a header. *)
Definition has_header (k : string) (r : response) : bool :=
  existsb (fun h => String.eqb (fst h) k) (headers r).

(** Flask-CORS's [cors_after_request], for a request without an
    [Origin] header (the requests of the model carry no headers): a
    response that already has [Access-Control-Allow-Origin] is left as
    it is ("CORS have been already evaluated"); otherwise, on a path of
    the resource, [origins="*"] with [always_send] adds
    [Access-Control-Allow-Origin: *] (and no [Vary], since the value is
    the wildcard). *)
Definition cors_after_request (path : string) (r : response) : response :=
  if has_header "Access-Control-Allow-Origin" r then r
  else if cors_resource_match path then
    mkResponse (status r) (body r) (headers r ++ [("Access-Control-Allow-Origin", "*")])
  else r.

(** Flask-CORS's [intercept_exceptions] (on by default) wraps
    [app.handle_exception] and [app.handle_user_exception]: the
    response made for an exception passes through
    [cors_after_request] before the [after_request] hooks run. *)
Definition error_response (path : string) (e : exn) : response :=
  cors_after_request path (handle_exception e).

(** Flask runs the [after_request] functions in the reverse order of
    their registration: the app's hook (registered second), then the
    extension's. *)
Definition process_response (path : string) (r : response) : response :=
  cors_after_request path (after_request r).

(** A computation that does not change the store (it may close the
    session). *)
Definition read_only {St A} (m : M St A) : Prop := forall w, w_db (snd (m w)) = w_db w.

(** A computation that raises on every run: the handler never answers
    with a value of its own. *)
Definition never_ok {St A} (m : M St A) : Prop := forall w, exists e w', m w = (Raise e, w').

(** Every value the computation returns satisfies [Q] (whatever it
    raises). *)
Definition returns {St A} (Q : A -> Prop) (m : M St A) : Prop :=
  forall w a w', m w = (Ret a, w') -> Q a.

(** ** Lemmas *)

(** *** Hooks *)

(** The hooks only add headers. *)
Lemma cors_after_request_status (path : string) (r : response) :
  status (cors_after_request path r) = status r /\ body (cors_after_request path r) = body r.
Proof. unfold cors_after_request. by destruct (has_header _ _), (cors_resource_match path). Qed.

Lemma process_response_status (path : string) (r : response) :
  status (process_response path r) = status r /\ body (process_response path r) = body r.
Proof. unfold process_response. by rewrite !(proj1 (cors_after_request_status _ _)), !(proj2 (cors_after_request_status _ _)). Qed.

Lemma cors_after_request_headers (path : string) (r : response) :
  headers (cors_after_request path r) =
  headers r ++ (if has_header "Access-Control-Allow-Origin" r then []
                else if cors_resource_match path then [("Access-Control-Allow-Origin", "*")] else []).
Proof.
  unfold cors_after_request.
  destruct (has_header _ _), (cors_resource_match path); simpl; by rewrite ?app_nil_r.
Qed.

Section ReadOnly.
Context {St : Type} `{QueryLayer St}.

Lemma read_only_pret {A} (a : A) : read_only (St:=St) (pret a).
Proof. done. Qed.

Lemma read_only_praise {A} (e : exn) : read_only (St:=St) (A:=A) (praise e).
Proof. done. Qed.

Lemma read_only_abort {A} (code : Z) : read_only (St:=St) (A:=A) (abort code).
Proof. done. Qed.

Lemma read_only_plift {A} (o : outcome A) : read_only (St:=St) (plift o).
Proof. done. Qed.

Lemma read_only_pbind {A B} (m : M St A) (k : A -> M St B) :
  read_only m -> (forall a, read_only (k a)) -> read_only (pbind m k).
Proof.
  intros Hm Hk w. unfold pbind. specialize (Hm w).
  destruct (m w) as [[a|e] w'] eqn:E; simpl in *; [by rewrite Hk|done].
Qed.

Lemma read_only_py_try {A} (body : M St A) (h : exn -> M St A) (fin : M St unit) :
  read_only body -> (forall e, read_only (h e)) -> read_only fin -> read_only (py_try body h fin).
Proof.
  intros Hb Hh Hf w. unfold py_try. specialize (Hb w).
  destruct (body w) as [[a|e] w1] eqn:E; simpl in *.
  - specialize (Hf w1). destruct (fin w1) as [[[]|e'] w2] eqn:F; simpl in *; congruence.
  - specialize (Hh e w1). destruct (h e w1) as [r w2] eqn:G. simpl in *.
    specialize (Hf w2). destruct (fin w2) as [[[]|e'] w3] eqn:F; simpl in *; congruence.
Qed.

Lemma read_only_py_try_except {A} (body : M St A) (h : exn -> M St A) :
  read_only body -> (forall e, read_only (h e)) -> read_only (py_try_except body h).
Proof. intros. apply read_only_py_try; auto using read_only_pret. Qed.

(** After a step, a read-only continuation keeps the store that step
    left. *)
Lemma pbind_db_tail {A B} (m : M St A) (k : A -> M St B) (w : world St) :
  (forall a, read_only (k a)) -> w_db (snd (pbind m k w)) = w_db (snd (m w)).
Proof. intros Hk. unfold pbind. destruct (m w) as [[a|e] w']; [apply Hk|done]. Qed.

(** A [try] statement whose handler and [finally] block are read-only
    keeps the store its body left. *)
Lemma py_try_db_body {A} (body : M St A) (h : exn -> M St A) (fin : M St unit) (w : world St) :
  (forall e, read_only (h e)) -> read_only fin ->
  w_db (snd (py_try body h fin w)) = w_db (snd (body w)).
Proof.
  intros Hh Hf. unfold py_try. destruct (body w) as [[a|e] w1]; simpl.
  - specialize (Hf w1). destruct (fin w1) as [[[]|e'] w2]; simpl in *; congruence.
  - specialize (Hh e w1). destruct (h e w1) as [r w2]. simpl in *.
    specialize (Hf w2). destruct (fin w2) as [[[]|e'] w3]; simpl in *; congruence.
Qed.

Lemma read_only_all_questions : read_only (St:=St) all_questions.
Proof. done. Qed.

Lemma read_only_all_categories : read_only (St:=St) all_categories.
Proof. done. Qed.

Lemma read_only_get_question (i : Z) : read_only (St:=St) (get_question i).
Proof. done. Qed.

Lemma read_only_db_session_call (attr : string) (c : session_call) :
  read_only (St:=St) (db_session_call attr c).
Proof. intros w. unfold db_session_call. by destruct (String.eqb _ _), c. Qed.

Lemma read_only_get_json (r : request) : read_only (St:=St) (get_json r).
Proof. intros w. unfold get_json. by destruct (req_body r). Qed.

Lemma read_only_jsonify (v : pyval) : read_only (St:=St) (jsonify v).
Proof. intros w. unfold jsonify. by destruct (to_json v). Qed.
End ReadOnly.

Section NeverOk.
Context {St : Type}.

Lemma never_ok_praise {A} (e : exn) : never_ok (St:=St) (A:=A) (praise e).
Proof. intros w. eauto. Qed.

Lemma never_ok_abort {A} (code : Z) : never_ok (St:=St) (A:=A) (abort code).
Proof. intros w. eauto. Qed.

Lemma never_ok_plift_Raise {A} (e : exn) : never_ok (St:=St) (A:=A) (plift (Raise e)).
Proof. intros w. eauto. Qed.

Lemma never_ok_pbind_l {A B} (m : M St A) (k : A -> M St B) :
  never_ok m -> never_ok (pbind m k).
Proof. intros Hm w. destruct (Hm w) as (e & w' & E). exists e, w'. by apply pbind_Raise. Qed.

Lemma never_ok_pbind_r {A B} (m : M St A) (k : A -> M St B) :
  (forall a, never_ok (k a)) -> never_ok (pbind m k).
Proof.
  intros Hk w. unfold pbind. destruct (m w) as [[a|e] w'].
  - apply Hk.
  - eauto.
Qed.

(** A [try] statement whose body and handler both raise raises,
    whatever its [finally] block does. *)
Lemma never_ok_py_try {A} (body : M St A) (h : exn -> M St A) (fin : M St unit) :
  never_ok body -> (forall e, never_ok (h e)) -> never_ok (py_try body h fin).
Proof.
  intros Hb Hh w. unfold py_try. destruct (Hb w) as (e & w1 & ->).
  destruct (Hh e w1) as (e' & w2 & ->). destruct (fin w2) as [[[]|e''] w3]; eauto.
Qed.
(** [jsonify] of a dict holding a mapped object raises. *)
Lemma never_ok_jsonify_entity (kvs : list (pyval * pyval)) :
  existsb (fun kv => match snd kv with PEntity _ => true | _ => false end) kvs = true ->
  never_ok (St:=St) (jsonify (PDict kvs)).
Proof.
  intros Hex w. destruct (to_json_dict_entity kvs Hex) as [e He].
  unfold jsonify. rewrite He. eauto.
Qed.
End NeverOk.

Section Returns.
Context {St : Type}.

Lemma returns_pret {A} (Q : A -> Prop) (a : A) : Q a -> returns (St:=St) Q (pret a).
Proof. intros Ha w a' w' [= <- _]. done. Qed.

Lemma returns_praise {A} (Q : A -> Prop) (e : exn) : returns (St:=St) Q (praise e).
Proof. done. Qed.

Lemma returns_abort {A} (Q : A -> Prop) (code : Z) : returns (St:=St) Q (abort code).
Proof. done. Qed.

Lemma returns_pbind {A B} (Q : B -> Prop) (m : M St A) (k : A -> M St B) :
  (forall a, returns Q (k a)) -> returns Q (pbind m k).
Proof.
  intros Hk w b w'. unfold pbind. destruct (m w) as [[a|e] w1]; [apply Hk|done].
Qed.

Lemma returns_py_try {A} (Q : A -> Prop) (body : M St A) (h : exn -> M St A) (fin : M St unit) :
  returns Q body -> (forall e, returns Q (h e)) -> returns Q (py_try body h fin).
Proof.
  intros Hb Hh w a w'. unfold py_try.
  destruct (body w) as [[a'|e] w1] eqn:E.
  - destruct (fin w1) as [[[]|e'] w2]; [|done]. intros [= <- _]. by eapply Hb.
  - destruct (h e w1) as [r w2] eqn:F. destruct (fin w2) as [[[]|e'] w3]; [|done].
    intros [= -> _]. by eapply Hh.
Qed.

Lemma returns_py_try_except {A} (Q : A -> Prop) (body : M St A) (h : exn -> M St A) :
  returns Q body -> (forall e, returns Q (h e)) -> returns Q (py_try_except body h).
Proof. intros. by apply returns_py_try. Qed.

Lemma returns_plift {A} (Q : A -> Prop) (o : outcome A) :
  (forall a, o = Ret a -> Q a) -> returns (St:=St) Q (plift o).
Proof. intros Ho w a w' [= -> _]. by apply Ho. Qed.

Lemma returns_impl {A} (Q Q' : A -> Prop) (m : M St A) :
  (forall a, Q a -> Q' a) -> returns Q m -> returns Q' m.
Proof. intros HQ Hm w a w' E. eauto. Qed.

(** [jsonify] answers 200 with a JSON body and no header of its own. *)
Lemma returns_jsonify (v : pyval) :
  returns (St:=St) (fun resp => status resp = 200 /\ headers resp = []) (jsonify v).
Proof. intros w a w'. unfold jsonify. destruct (to_json v); [intros [= <- _]|]; done. Qed.

(** A computation that never returns satisfies every postcondition. *)
Lemma returns_never_ok {A} (Q : A -> Prop) (m : M St A) : never_ok m -> returns Q m.
Proof. intros Hm w a w' E. destruct (Hm w) as (e & w'' & E'). congruence. Qed.

(** [never_ok] is [returns False]. *)
Lemma never_ok_returns {A} (m : M St A) : returns (fun _ => False) m -> never_ok m.
Proof. intros Hr w. destruct (m w) as [[a|e] w'] eqn:E; [by destruct (Hr w a w' E)|eauto]. Qed.

(** [db.<attr>] for an attribute other than [session] raises. *)
Lemma never_ok_db_session_call `{QueryLayer St} (attr : string) (c : session_call) :
  String.eqb attr "session" = false -> never_ok (St:=St) (db_session_call attr c).
Proof. intros Ha w. unfold db_session_call. rewrite Ha. eauto. Qed.
End Returns.

#[export] Hint Resolve never_ok_praise never_ok_abort never_ok_plift_Raise
  never_ok_db_session_call : trivia.

#[export] Hint Extern 2 (never_ok (jsonify (PDict _))) =>
  apply never_ok_jsonify_entity; reflexivity : trivia.

#[export] Hint Resolve read_only_pret read_only_praise read_only_abort read_only_plift
  read_only_all_questions read_only_all_categories read_only_get_question
  read_only_db_session_call read_only_get_json read_only_jsonify : trivia.

(** [solve_read_only] follows the structure of a handler: binds,
    [try] statements and conditionals, leaving the primitive steps to
    the [trivia] hints. *)
Ltac read_only_step :=
  match goal with
  | |- read_only (pbind _ _) => apply read_only_pbind; [|intros ?]
  | |- read_only (py_try _ _ _) => apply read_only_py_try; [|intros ?|]
  | |- read_only (py_try_except _ _) => apply read_only_py_try_except; [|intros ?]
  | |- read_only (if ?b then _ else _) => destruct b
  | |- read_only (match ?x with _ => _ end) => destruct x
  | |- _ => solve [eauto with trivia]
  end.
Ltac solve_read_only := cbv zeta; repeat read_only_step.

(** [solve_returns] proves [returns Q] by following the handler's
    structure; the primitive steps are left to [tac]. *)
Ltac returns_step tac :=
  match goal with
  | |- returns _ (pbind _ _) =>
      first [apply returns_never_ok, never_ok_pbind_l; solve [eauto with trivia]
            | apply returns_pbind; intros ?]
  | |- returns _ (py_try _ _ _) => apply returns_py_try; [|intros ?]
  | |- returns _ (py_try_except _ _) => apply returns_py_try_except; [|intros ?]
  | |- returns _ (if ?b then _ else _) => destruct b
  | |- returns _ (match ?x with _ => _ end) => destruct x
  | |- returns _ (praise _) => apply returns_praise
  | |- returns _ (abort _) => apply returns_abort
  | |- returns _ (pret _) => apply returns_pret
  | |- returns _ (plift _) => apply returns_plift; intros ? ?
  | |- _ => tac
  end.
Ltac solve_returns tac := cbv zeta; repeat (returns_step tac).

(** [solve_never_ok] shows that every path of a handler raises. *)
Ltac never_ok_step :=
  match goal with
  | |- never_ok (py_try _ _ _) => apply never_ok_py_try; [|intros ?]
  | |- never_ok (if ?b then _ else _) => destruct b
  | |- never_ok (match ?x with _ => _ end) => destruct x
  | |- never_ok (pbind _ _) =>
      first [apply never_ok_pbind_l; solve [repeat never_ok_step]
            | apply never_ok_pbind_r; intros ?]
  | |- _ => solve [eauto with trivia]
  end.
Ltac solve_never_ok := cbv zeta; repeat never_ok_step.

End Flask.
