(* ===== verification/Listing.v ===== *)
(** * Listing: the read-only endpoints

    [GET /categories] ([get_categories], lines 35-46),
    [GET /questions] ([get_questions], lines 77-112, with the record
    conversion [convert_questions_to_dict] of lines 63-75 and the
    pagination of lines 97-104) and
    [GET /categories/<id>/questions] ([get_questions_by_categories],
    lines 244-266). *)

From S2P Require Import Prelude PyCore Store Json Flask.
Import Models Json Flask.

Open Scope Z_scope.

Module Listing.

(** Line 10. *)
Definition QUESTIONS_PER_PAGE : Z := 10.

(** Lines 63-75: one flat record per row, in row order. *)
Definition question_record (q : question) : pyval :=
  PDict [(PStr "id", PInt (q_id q)); (PStr "question", PStr (q_question q));
         (PStr "answer", PStr (q_answer q)); (PStr "category", PInt (q_category q));
         (PStr "difficulty", PInt (q_difficulty q))].

Definition convert_questions_to_dict (qs : list question) : list pyval :=
  map question_record qs.

(** Lines 97-98 and 104: [formatted_questions[start:end]] with
    [start = (page - 1) * QUESTIONS_PER_PAGE]. *)
Definition page_slice {A} (l : list A) (page : Z) : list A :=
  let start := (page - 1) * QUESTIONS_PER_PAGE in
  let end_ := start + QUESTIONS_PER_PAGE in
  py_slice l start end_.

(** Lines 37-40: the loop [formatted_categories[row.id] = row.type]. *)
Definition format_categories (cs : list category) : list (pyval * pyval) :=
  fold_left (fun d row => dict_setitem d (PInt (c_id row)) (PStr (c_type row))) cs [].

Section Handlers.
Context {St : Type} `{QueryLayer St}.

(** [GET /categories], lines 36-46. *)
Definition get_categories : M St response :=
  let! categories := all_categories in
  let formatted := format_categories categories in
  jsonify (PDict [(PStr "success", PBool true);
                  (PStr "categories", PDict formatted);
                  (PStr "total_categories", PInt (Z.of_nat (length formatted)))]).

(** [GET /questions], lines 78-112.  The [try]/[abort(400)] around
    [request.args.get('page', 1, type=int)] has nothing to catch:
    [args.get] turns the [ValueError] of [int] into the default.
    [Query.all()] returns a list, so [questions is None] is never
    true.  The [finally] block evaluates [db.session.close] without
    calling it. *)
Definition get_questions (r : request) : M St response :=
  if negb (bool_decide (req_method r = GET)) then abort 405 else
  let page := args_get_int (req_args r) "page" 1 in
  let! questions := all_questions in
  let! categories := all_categories in
  if (length categories =? 0)%nat then abort 404 else
  py_try
    (let formatted_questions := convert_questions_to_dict questions in
     jsonify (PDict [(PStr "success", PBool true);
                     (PStr "questions", PList (page_slice formatted_questions page));
                     (PStr "total_questions", PInt (Z.of_nat (length formatted_questions)));
                     (PStr "total_categories", PInt (Z.of_nat (length categories)))]))
    (fun _ => let! _ := db_session_call "session" Rollback in abort 422)
    (pret tt).

(** [GET /categories/<int:category_id>/questions], lines 245-266.
    Line 255 reads the attribute [db.sessions], which the
    [SQLAlchemy] object does not have. *)
Definition get_questions_by_categories (r : request) (category_id : Z) : M St response :=
  if negb (bool_decide (req_method r = GET)) then abort 405 else
  let! all := all_questions in
  let filtered_by_category_questions := filter_category category_id all in
  if (length filtered_by_category_questions =? 0)%nat then abort 404 else
  py_try
    (let questions := convert_questions_to_dict filtered_by_category_questions in
     let! _ := db_session_call "sessions" Commit in
     let! first := plift (py_getitem (PList questions) (PInt 0)) in
     let! current := plift (py_getitem first (PStr "category")) in
     jsonify (PDict [(PStr "success", PBool true);
                     (PStr "total_questions", PInt (Z.of_nat (length questions)));
                     (PStr "current_category", current)]))
    (fun _ => let! _ := db_session_call "session" Rollback in abort 422)
    (db_session_call "session" Close).
End Handlers.

(** ** Expected JSON forms *)

(** The JSON object [jsonify] writes for one record of
    [convert_questions_to_dict] (keys sorted). *)
Definition question_json (q : question) : json :=
  JObj [("answer", JStr (q_answer q)); ("category", JNum (q_category q));
        ("difficulty", JNum (q_difficulty q)); ("id", JNum (q_id q));
        ("question", JStr (q_question q))].

(** The body of a successful [GET /questions]. *)
Definition questions_body (qs : list question) (ncat : nat) (page : Z) : json :=
  JObj [("questions", JArr (map question_json (page_slice qs page)));
        ("success", JBool true);
        ("total_categories", JNum (Z.of_nat ncat));
        ("total_questions", JNum (Z.of_nat (length qs)))].

(** An item of [formatted_categories] and its encoded form. *)
Definition category_item (c : category) : pyval * pyval := (PInt (c_id c), PStr (c_type c)).
Definition category_json_item (c : category) : pyval * (string * json) :=
  (PInt (c_id c), (py_str_int (c_id c), JStr (c_type c))).

(** The world of a request on the spec's example store. *)
Definition sample_world : world db := mkWorld sample_db false.

Definition get_request (path : string) (args : list (string * string)) : request :=
  mkRequest GET path args BodyNotJson.

(** ** Lemmas *)

(** *** Records and pages *)

Lemma to_json_question_record (q : question) :
  to_json (question_record q) = Ret (question_json q).
Proof. reflexivity. Qed.

Lemma to_json_records (qs : list question) :
  to_json (PList (convert_questions_to_dict qs)) = Ret (JArr (map question_json qs)).
Proof. cbn [to_json]. unfold convert_questions_to_dict. by rewrite (map_outcome_map_Ret _ _ question_json). Qed.

Lemma page_slice_map {A B} (f : A -> B) (l : list A) (p : Z) :
  page_slice (map f l) p = map f (page_slice l p).
Proof. apply py_slice_map. Qed.

Lemma page_slice_length {A} (l : list A) (page : Z) :
  (length (page_slice l page) <= 10)%nat.
Proof. unfold page_slice. etransitivity; [apply py_slice_length_le|]; unfold QUESTIONS_PER_PAGE; lia. Qed.

Lemma page_slice_window {A} (l : list A) (page : Z) :
  1 <= page -> page_slice l page = take 10 (drop (Z.to_nat ((page - 1) * 10)) l).
Proof.
  intros Hp. unfold page_slice, QUESTIONS_PER_PAGE. rewrite py_slice_window by lia.
  f_equal. lia.
Qed.

(** The window of the page that holds position [n] of a list of
    [n + 1] elements ends with its last element. *)
Lemma page_slice_last {A} (l : list A) (x : A) :
  exists pre, page_slice (l ++ [x]) (Z.of_nat (length l) / 10 + 1) = pre ++ [x].
Proof.
  rewrite page_slice_window by (pose proof (Z.div_pos (Z.of_nat (length l)) 10); lia).
  set (n := length l).
  assert (Hk : (Z.to_nat ((Z.of_nat n / 10 + 1 - 1) * 10) <= n)%nat).
  { pose proof (Z.mul_div_le (Z.of_nat n) 10). pose proof (Z.div_pos (Z.of_nat n) 10). lia. }
  rewrite drop_app_le by done.
  exists (drop (Z.to_nat ((Z.of_nat n / 10 + 1 - 1) * 10)) l).
  apply take_ge. rewrite length_app, length_drop. cbn.
  pose proof (Z.mod_pos_bound (Z.of_nat n) 10). pose proof (Z.div_mod (Z.of_nat n) 10). lia.
Qed.

(** C21: whatever the requested page, a page of
    [get_questions] holds at most [QUESTIONS_PER_PAGE] = 10 records
    (also for page 0 and negative pages). *)
Theorem page_slice_length_le {A} (l : list A) (page : Z) :
  (length (page_slice l page) <= 10)%nat.
Proof. unfold page_slice. etransitivity; [apply py_slice_length_le|]; unfold QUESTIONS_PER_PAGE; lia. Qed.

(** C2: for [page >= 1], the page is the reference
    slice of the spec (section 4.2): the records with positions
    [(page-1)*10 .. page*10 - 1]. *)
Theorem page_slice_spec {A} (l : list A) (page : Z) :
  1 <= page -> page_slice l page = take 10 (drop (Z.to_nat ((page - 1) * 10)) l).
Proof.
  intros Hp. unfold page_slice, QUESTIONS_PER_PAGE. rewrite py_slice_window by lia.
  f_equal. lia.
Qed.

(** C30: paging through pages [1..k] returns the first
    [10*k] records, each exactly once and in order. *)
Theorem page_slice_tile {A} (l : list A) (k : nat) :
  concat (map (fun n => page_slice l (Z.of_nat n)) (seq 1 k)) = take (k * 10) l.
Proof.
  induction k as [|k IH]; [done|].
  rewrite seq_S, map_app, concat_app, IH. cbn [map concat]. rewrite app_nil_r.
  rewrite page_slice_window by lia.
  replace (Z.to_nat ((Z.of_nat (1 + k) - 1) * 10)) with (k * 10)%nat by lia.
  apply (take_drop_tile 10 k).
Qed.

(** a page past the last one is empty (and,
    with [get_questions_page], still a success). *)
Theorem page_slice_past_end {A} (l : list A) (page : Z) :
  1 <= page -> Z.of_nat (length l) <= (page - 1) * 10 -> page_slice l page = [].
Proof.
  intros Hp Hlen. rewrite page_slice_window by done. rewrite drop_ge by lia. apply take_nil.
Qed.

(** C31: page 0 is empty, and a negative page
    [p] is not refused: Python's negative slice indices make it the
    window of 10 records that ends [10 * (-p)] records before the end. *)
Theorem page_slice_nonpositive {A} (l : list A) (page : Z) :
  page_slice l 0 = [] /\
  (page < 0 -> (1 - page) * 10 <= Z.of_nat (length l) ->
   page_slice l page = take 10 (drop (Z.to_nat (Z.of_nat (length l) + (page - 1) * 10)) l)).
Proof.
  unfold page_slice, py_slice, py_slice_index, QUESTIONS_PER_PAGE. split.
  - simpl. match goal with |- take ?k _ = _ => replace k with 0%nat by lia end. done.
  - intros Hp Hlen. destruct (Z.ltb_spec ((page - 1) * 10) 0); [|lia].
    destruct (Z.ltb_spec ((page - 1) * 10 + 10) 0); [|lia].
    rewrite !Z.max_r by lia. f_equal; [lia|f_equal; lia].
Qed.


(** *** Categories *)

Lemma format_categories_nodup (cs : list category) :
  NoDup (map c_id cs) -> format_categories cs = map category_item cs.
Proof.
  unfold format_categories.
  assert (Hgen : forall acc, NoDup (map c_id cs) ->
    Forall (fun kv => Forall (fun c => py_key_eqb (fst kv) (PInt (c_id c)) = false) cs) acc ->
    fold_left (fun d row => dict_setitem d (PInt (c_id row)) (PStr (c_type row))) cs acc
    = acc ++ map category_item cs).
  { induction cs as [|c cs IH]; intros acc Hnd Hacc; simpl; [by rewrite app_nil_r|].
    apply NoDup_cons in Hnd as [Hnin Hnd].
    rewrite dict_setitem_fresh.
    2: { eapply Forall_impl; [exact Hacc|]. intros kv Hkv. by inversion Hkv. }
    rewrite IH, <- app_assoc; [done|done|].
    apply Forall_app. split.
    - eapply Forall_impl; [exact Hacc|]. intros kv Hkv. by inversion Hkv.
    - constructor; [|constructor]. simpl. apply Forall_forall. intros c' Hc'.
      apply Z.eqb_neq. intros Heq. apply Hnin. rewrite Heq. by apply list_elem_of_fmap_2. }
  intros Hnd. apply Hgen; [done|constructor].
Qed.

Lemma to_json_categories (cs : list category) :
  to_json (PDict (map category_item cs)) =
  Ret (JObj (map snd (sort_items (map category_json_item cs)))).
Proof.
  cbn [to_json].
  replace (keys_sortable (map category_item cs)) with true.
  2: { symmetry. unfold keys_sortable. apply orb_true_iff. right.
       apply forallb_forall. intros kv Hkv. apply in_map_iff in Hkv as (c & <- & _). done. }
  by rewrite (map_outcome_map_Ret _ _ category_json_item).
Qed.

(** For distinct ids, the encoded category dict does not depend on the
    order of the rows. *)
Lemma to_json_categories_perm (cs1 cs2 : list category) :
  NoDup (map c_id cs1) -> cs1 ≡ₚ cs2 ->
  to_json (PDict (map category_item cs1)) = to_json (PDict (map category_item cs2)).
Proof.
  intros Hnd Hp. rewrite !to_json_categories. do 3 f_equal.
  apply sort_items_perm; [| |by apply Permutation_map].
  - apply List.Forall_forall. intros kv (c & <- & _)%in_map_iff. by eexists.
  - rewrite map_map. cbn. rewrite <- (map_map c_id PInt).
    apply NoDup_map_inj; [|done]. by intros x y [= ->].
Qed.

Section HandlerFacts.
Context {St : Type} `{QueryLayer St}.
Lemma get_questions_cases (r : request) (w : world St) :
  get_questions r w =
  if negb (bool_decide (req_method r = GET)) then (Raise (HTTPException 405), w)
  else if (length (categories_of (w_db w)) =? 0)%nat then (Raise (HTTPException 404), w)
  else (Ret (mkResponse 200 (RJson (questions_body (questions_of (w_db w))
          (length (categories_of (w_db w))) (args_get_int (req_args r) "page" 1))) []), w).
Proof.
  unfold get_questions. destruct (negb _); [done|].
  cbn [pbind all_questions all_categories].
  destruct (_ =? 0)%nat; [done|].
  unfold py_try, jsonify, convert_questions_to_dict.
  rewrite page_slice_map.
  set (ps := page_slice _ _). rewrite length_map.
  set (nq := Z.of_nat (length _)). set (nc := Z.of_nat (length (categories_of _))).
  simpl.
  rewrite (map_outcome_map_Ret _ _ question_json) by (intros; apply to_json_question_record).
  reflexivity.
Qed.


(** C13: [GET /categories] answers 200 with every
    category of the table under the key [str(id)] and nothing else,
    and [total_categories] is the number of categories (primary keys
    being unique). *)
Theorem get_categories_spec (w : world St) :
  NoDup (map c_id (categories_of (w_db w))) ->
  exists cats,
    get_categories w =
      (Ret (mkResponse 200 (RJson (JObj [("categories", cats); ("success", JBool true);
              ("total_categories", JNum (Z.of_nat (length (categories_of (w_db w)))))])) []), w) /\
    forall k j, json_field cats k = Some j <->
      exists c, In c (categories_of (w_db w)) /\ k = py_str_int (c_id c) /\ j = JStr (c_type c).
Proof.
  intros Hnd. set (cs := categories_of (w_db w)) in *.
  exists (JObj (map snd (sort_items (map category_json_item cs)))). split.
  - unfold get_categories. cbn [pbind all_categories].
    fold cs. rewrite format_categories_nodup by done. rewrite length_map.
    unfold jsonify.
    remember (PDict (map category_item cs)) as d eqn:Hd.
    set (n := Z.of_nat (length cs)).
    simpl. rewrite Hd, to_json_categories. reflexivity.
  - intros k j.
    assert (Hperm : map snd (sort_items (map category_json_item cs)) ≡ₚ
                    map snd (map category_json_item cs)).
    { apply Permutation_map, merge_sort_Permutation. }
    rewrite json_field_spec.
    2: { rewrite Hperm, !map_map. simpl.
         rewrite <- (map_map c_id py_str_int). apply NoDup_map_inj; [apply py_str_int_inj|done]. }
    split.
    + intros Hin. apply (Permutation_in _ Hperm) in Hin.
      apply in_map_iff in Hin as (x & Hx & Hin). apply in_map_iff in Hin as (c & <- & Hc).
      invc Hx. by exists c.
    + intros (c & Hc & -> & ->). apply (Permutation_in _ (Permutation_sym Hperm)).
      apply in_map_iff. exists (category_json_item c). split; [done|]. by apply in_map.
Qed.
(** C15: [GET /categories/<id>/questions]
    never succeeds: with no question in the category it raises 404,
    otherwise the attribute error of [db.sessions.commit()] is turned
    into 422 (and the session is closed). *)
Theorem get_questions_by_categories_spec (r : request) (c : Z) (w : world St) :
  req_method r = GET ->
  get_questions_by_categories r c w =
  if bool_decide (filter_category c (questions_of (w_db w)) = [])
  then (Raise (HTTPException 404), w)
  else (Raise (HTTPException 422), mkWorld (w_db w) true).
Proof.
  intros Hm. unfold get_questions_by_categories. rewrite Hm. cbn [negb bool_decide decide_rel].
  simpl. cbn [pbind all_questions].
  destruct (filter_category c (questions_of (w_db w))) as [|q qs]; simpl; done.
Qed.

(** C1: for a page [>= 1] and a non-empty category
    table, [GET /questions] answers 200 with the records of the
    reference slice, the number of questions and the number of
    categories, and changes nothing. *)
Theorem get_questions_page (r : request) (w : world St) (page : Z) :
  req_method r = GET -> categories_of (w_db w) <> [] ->
  args_get_int (req_args r) "page" 1 = page -> 1 <= page ->
  get_questions r w =
  (Ret (mkResponse 200 (RJson (JObj
     [("questions", JArr (map question_json
          (take 10 (drop (Z.to_nat ((page - 1) * 10)) (questions_of (w_db w))))));
      ("success", JBool true);
      ("total_categories", JNum (Z.of_nat (length (categories_of (w_db w)))));
      ("total_questions", JNum (Z.of_nat (length (questions_of (w_db w)))))])) []), w).
Proof.
  intros Hm Hc Hp Hp1. rewrite get_questions_cases, Hm, Hp. simpl negb. cbn iota.
  destruct (categories_of (w_db w)); [done|]. simpl. unfold questions_body.
  by rewrite page_slice_window.
Qed.

(** every successful [GET /questions]
    response lists at most 10 questions. *)
Theorem get_questions_at_most_ten (r : request) (w w' : world St) (resp : response) :
  get_questions r w = (Ret resp, w') ->
  exists j js, body resp = RJson j /\ json_field j "questions" = Some (JArr js) /\
               (length js <= 10)%nat.
Proof.
  rewrite get_questions_cases. destruct (negb _); [done|]. destruct (_ =? 0)%nat; [done|].
  intros [= <- _]. eexists _, _. split; [done|]. split; [done|].
  rewrite length_map. apply page_slice_length.
Qed.

(** [GET /questions] fails only with 405 or
    404: the 400 of line 86 and the 422 of line 110 are unreachable. *)
Theorem get_questions_errors (r : request) (w w' : world St) (e : exn) :
  get_questions r w = (Raise e, w') -> e = HTTPException 405 \/ e = HTTPException 404.
Proof.
  rewrite get_questions_cases. destruct (negb _); [intros [= <- _]; auto|].
  destruct (_ =? 0)%nat; [intros [= <- _]; auto|done].
Qed.

(** C29: [get_questions] leaves the world
    as it found it; in particular its [finally] block does not close
    the session ([db.session.close] is never called). *)
Theorem get_questions_world_unchanged (r : request) (w : world St) :
  snd (get_questions r w) = w.
Proof.
  rewrite get_questions_cases. by destruct (negb _); [|destruct (_ =? 0)%nat].
Qed.

(** C27: a [page] argument that [int] rejects is
    served as if absent, i.e. as page 1, not as a 400. *)
Theorem get_questions_bad_page (m : http_method) (path v : string) (b : request_body) (w : world St) :
  py_int_of_string v = None ->
  get_questions (mkRequest m path [("page", v)] b) w = get_questions (mkRequest m path [] b) w.
Proof.
  intros Hv. rewrite !get_questions_cases. unfold args_get_int. simpl. by rewrite Hv.
Qed.

(** C28: with an empty category table,
    [GET /questions] raises 404 even when there are questions. *)
Theorem get_questions_no_categories (r : request) (w : world St) :
  req_method r = GET -> categories_of (w_db w) = [] ->
  get_questions r w = (Raise (HTTPException 404), w).
Proof. intros Hm Hc. rewrite get_questions_cases, Hm, Hc. done. Qed.
(** C14: [GET /categories] answers the
    same whatever the storage order of the category table: [jsonify]
    sorts the integer keys, so the response is a function of the set
    of categories (with distinct ids). *)
Theorem get_categories_order_independent (w1 w2 : world St) :
  NoDup (map c_id (categories_of (w_db w1))) ->
  categories_of (w_db w1) ≡ₚ categories_of (w_db w2) ->
  fst (get_categories w1) = fst (get_categories w2).
Proof.
  intros Hnd Hp.
  assert (Hnd2 : NoDup (map c_id (categories_of (w_db w2)))) by by rewrite <- Hp.
  unfold get_categories. cbn [pbind all_categories].
  rewrite !format_categories_nodup by done. rewrite !length_map, (Permutation_length Hp).
  pose proof (to_json_categories_perm _ _ Hnd Hp) as Hj.
  remember (PDict (map category_item (categories_of (w_db w1)))) as d1 eqn:Hd1.
  remember (PDict (map category_item (categories_of (w_db w2)))) as d2 eqn:Hd2.
  unfold jsonify. simpl. rewrite Hj. by destruct (to_json d2).
Qed.
End HandlerFacts.

(** *** Witnesses *)

Lemma page_slice_spec_witness :
  page_slice (seq 0 25) 3 = take 10 (drop 20 (seq 0 25)).
Proof. apply (page_slice_spec (seq 0 25) 3). lia. Defined.

Lemma page_slice_past_end_witness : page_slice (seq 0 25) 4 = [].
Proof. apply (page_slice_past_end (seq 0 25) 4); simpl; lia. Defined.

Lemma page_slice_nonpositive_witness :
  page_slice (seq 0 25) (-1) = take 10 (drop 5 (seq 0 25)).
Proof. apply (proj2 (page_slice_nonpositive (seq 0 25) (-1))); simpl; lia. Defined.

Lemma get_categories_order_independent_witness :
  fst (get_categories sample_world) =
  fst (get_categories (mkWorld (mkDb (db_questions sample_db) (rev (db_categories sample_db)) 4) false)).
Proof.
  apply get_categories_order_independent.
  - apply (bool_decide_unpack _). vm_compute. reflexivity.
  - apply Permutation_rev.
Defined.

Lemma get_categories_spec_witness :
  exists cats, get_categories sample_world =
    (Ret (mkResponse 200 (RJson (JObj [("categories", cats); ("success", JBool true);
            ("total_categories", JNum 2)])) []), sample_world).
Proof.
  destruct (get_categories_spec sample_world) as [cats [Hres _]].
  - apply (bool_decide_unpack _). vm_compute. reflexivity.
  - exists cats. exact Hres.
Defined.

Lemma get_questions_by_categories_spec_witness :
  get_questions_by_categories (get_request "/categories/2/questions" []) 2 sample_world =
  (Raise (HTTPException 422), mkWorld sample_db true).
Proof.
  rewrite (get_questions_by_categories_spec (get_request "/categories/2/questions" []) 2 sample_world);
    reflexivity.
Defined.

Lemma get_questions_page_witness :
  fst (get_questions (get_request "/questions" [("page", "1")]) sample_world) =
  Ret (mkResponse 200 (RJson (questions_body (db_questions sample_db) 2 1)) []).
Proof.
  rewrite (get_questions_page (get_request "/questions" [("page", "1")]) sample_world 1);
    [reflexivity|reflexivity|discriminate|reflexivity|lia].
Defined.

Lemma get_questions_at_most_ten_witness :
  exists j js, body (mkResponse 200 (RJson (questions_body (db_questions sample_db) 2 1)) []) = RJson j /\
    json_field j "questions" = Some (JArr js) /\ (length js <= 10)%nat.
Proof.
  apply (get_questions_at_most_ten (get_request "/questions" [("page", "1")]) sample_world sample_world).
  reflexivity.
Defined.

Lemma get_questions_errors_witness :
  HTTPException 405 = HTTPException 405 \/ HTTPException 405 = HTTPException 404.
Proof.
  apply (get_questions_errors (mkRequest POST "/questions" [] BodyNotJson) sample_world sample_world).
  reflexivity.
Defined.

Lemma get_questions_bad_page_witness :
  get_questions (get_request "/questions" [("page", "ten")]) sample_world =
  get_questions (get_request "/questions" []) sample_world.
Proof. apply (get_questions_bad_page GET "/questions" "ten"). reflexivity. Defined.

Lemma get_questions_no_categories_witness :
  get_questions (get_request "/questions" []) (mkWorld (mkDb (db_questions sample_db) [] 4) false) =
  (Raise (HTTPException 404), mkWorld (mkDb (db_questions sample_db) [] 4) false).
Proof. apply get_questions_no_categories; reflexivity. Defined.

End Listing.
