(* ===== verification/Search.v ===== *)
(** * Search: [POST /questions/search] and PostgreSQL's [ILIKE]

    [search_questions] (lines 204-234) filters the question table with
    [Question.question.ilike('%' + search_term + '%')] (line 217).  The
    filter is evaluated by PostgreSQL: [ILIKE] is [LIKE] after case
    folding, where [%] matches any string, [_] any one character and a
    backslash makes the next character literal; a pattern ending in a
    lone backslash is an error.  Case folding is modelled on ASCII
    letters.  The abstract specification of the endpoint (spec,
    section 4.5) is case-insensitive substring containment
    [contains_ci]; [search_refines_contains] shows the handler
    implements it for terms without [%], [_] or backslash. *)

From S2P Require Import Prelude PyCore Store Json Flask Listing.
Import Models Json Flask Listing.

Open Scope Z_scope.

Module Search.

(** ** Case folding and substrings *)

Definition lower (cs : list ascii) : list ascii := map ascii_lower cs.

Fixpoint is_prefix (p s : list ascii) : bool :=
  match p, s with
  | [], _ => true
  | c :: p', c' :: s' => Ascii.eqb c c' && is_prefix p' s'
  | _ :: _, [] => false
  end.

(** All suffixes of [s], longest first, the empty one last. *)
Fixpoint suffixes (s : list ascii) : list (list ascii) :=
  s :: match s with [] => [] | _ :: r => suffixes r end.

Definition is_substring (t s : list ascii) : bool := existsb (is_prefix t) (suffixes s).

(** The specification of the search: [t] occurs in [s], ignoring case. *)
Definition contains_ci (t s : string) : bool :=
  is_substring (lower (list_ascii_of_string t)) (lower (list_ascii_of_string s)).

(** ** [LIKE] patterns *)

Inductive like_tok : Type :=
  | LLit (c : ascii)   (** this character *)
  | LAny               (** [_]: any one character *)
  | LMany.             (** [%]: any string *)

Definition is_like_special (c : ascii) : bool :=
  Ascii.eqb c "%" || Ascii.eqb c "_" || Ascii.eqb c "\".

Fixpoint like_tokens (cs : list ascii) : option (list like_tok) :=
  match cs with
  | [] => Some []
  | c :: r =>
      if Ascii.eqb c "%" then option_map (cons LMany) (like_tokens r)
      else if Ascii.eqb c "_" then option_map (cons LAny) (like_tokens r)
      else if Ascii.eqb c "\" then
        match r with
        | c' :: r' => option_map (cons (LLit c')) (like_tokens r')
        | [] => None   (** "LIKE pattern must not end with escape character" *)
        end
      else option_map (cons (LLit c)) (like_tokens r)
  end.

Fixpoint like_match (p : list like_tok) (s : list ascii) : bool :=
  match p with
  | [] => match s with [] => true | _ :: _ => false end
  | LLit c :: p' => match s with c' :: s' => Ascii.eqb c c' && like_match p' s' | [] => false end
  | LAny :: p' => match s with _ :: s' => like_match p' s' | [] => false end
  | LMany :: p' => existsb (like_match p') (suffixes s)
  end.

(** [s ILIKE pat]. *)
Definition ilike (s pat : string) : outcome bool :=
  match like_tokens (lower (list_ascii_of_string pat)) with
  | Some p => Ret (like_match p (lower (list_ascii_of_string s)))
  | None => Raise DBError
  end.

(** [Question.query.filter(Question.question.ilike(pat)).all()]: the
    test is evaluated row by row, in storage order. *)
Fixpoint filter_ilike (pat : string) (qs : list question) : outcome (list question) :=
  match qs with
  | [] => Ret []
  | q :: r =>
      match ilike (q_question q) pat, filter_ilike pat r with
      | Ret b, Ret l => Ret (if b then q :: l else l)
      | Raise e, _ | Ret _, Raise e => Raise e
      end
  end.

(** [a + v] for a string [a]: [TypeError] unless [v] is a string. *)
Definition py_str_concat (a : string) (v : pyval) : outcome string :=
  match v with PStr s => Ret (a ++ s)%string | _ => Raise TypeError end.

(** Line 217: ['%' + search_term + '%']. *)
Definition search_pattern (search_term : pyval) : outcome string :=
  match py_str_concat "%" search_term with
  | Ret s => Ret (s ++ "%")%string
  | Raise e => Raise e
  end.

Section Handler.
Context {St : Type} `{QueryLayer St}.

(** [POST /questions/search], lines 205-234.  The [db.session.rollback()]
    calls after [abort(422)] (lines 215 and 231) are never reached. *)
Definition search_questions (r : request) : M St response :=
  if negb (bool_decide (req_method r = POST)) then abort 405 else
  let! search_term :=
    py_try_except
      (let! body := get_json r in plift (py_getitem body (PStr "searchTerm")))
      (fun _ => abort 422) in
  let! pat := plift (search_pattern search_term) in
  let! all := all_questions in
  let! search_query := plift (filter_ilike pat all) in
  if bool_decide (search_query = []) then abort 404 else
  py_try
    (let questions := convert_questions_to_dict search_query in
     jsonify (PDict [(PStr "success", PBool true);
                     (PStr "questions", PList questions);
                     (PStr "total_questions", PInt (Z.of_nat (length questions)))]))
    (fun _ => abort 422)
    (db_session_call "session" Close).
End Handler.

(** The body of a successful search. *)
Definition search_body (hits : list question) : json :=
  JObj [("questions", JArr (map question_json hits)); ("success", JBool true);
        ("total_questions", JNum (Z.of_nat (length hits)))].

Definition search_request (term : pyval) : request :=
  mkRequest POST "/questions/search" [] (BodyJson (PDict [(PStr "searchTerm", term)])).

(** ** Lemmas *)

Lemma list_ascii_of_string_app (s1 s2 : string) :
  list_ascii_of_string (s1 ++ s2) = list_ascii_of_string s1 ++ list_ascii_of_string s2.
Proof. induction s1 as [|c s1 IH]; simpl; [done|]. by rewrite IH. Qed.

Lemma like_match_nil_suffix (s : list ascii) : existsb (like_match []) (suffixes s) = true.
Proof. induction s as [|c s IH]; [done|]. simpl in *. exact IH. Qed.

(** A run of literals followed by [%] matches exactly the strings
    that start with those literals. *)
Lemma like_match_prefix (t s : list ascii) :
  like_match (map LLit t ++ [LMany]) s = is_prefix t s.
Proof.
  revert s. induction t as [|c t IH]; intros s.
  - cbn [map app like_match is_prefix]. apply like_match_nil_suffix.
  - destruct s as [|c' s]; simpl; [done|]. by rewrite IH.
Qed.

Lemma like_tokens_plain (t cs : list ascii) :
  Forall (fun c => is_like_special c = false) t ->
  like_tokens (t ++ cs) = option_map (fun p => map LLit t ++ p) (like_tokens cs).
Proof.
  induction 1 as [|c t Hc _ IH]; simpl.
  - by destruct (like_tokens cs).
  - unfold is_like_special in Hc. apply orb_false_iff in Hc as [Hc Hbs].
    apply orb_false_iff in Hc as [Hpc Hus]. rewrite Hpc, Hus, Hbs, IH.
    by destruct (like_tokens cs).
Qed.

Lemma ascii_lower_not_special (c : ascii) :
  is_like_special c = false -> is_like_special (ascii_lower c) = false.
Proof.
  unfold ascii_lower. destruct ((65 <=? nat_of_ascii c)%nat && (nat_of_ascii c <=? 90)%nat) eqn:E; [|done].
  intros _. apply andb_true_iff in E as [E1 E2]. apply Nat.leb_le in E1, E2.
  unfold is_like_special.
  assert (Hne : forall d, (nat_of_ascii d < 97)%nat -> Ascii.eqb (ascii_of_nat (nat_of_ascii c + 32)) d = false).
  { intros d Hd. apply Ascii.eqb_neq. intros Heq. apply (f_equal nat_of_ascii) in Heq.
    rewrite nat_ascii_embedding in Heq by lia. lia. }
  rewrite !Hne; [done| | |]; vm_compute; lia.
Qed.

Lemma lower_plain (t : list ascii) :
  Forall (fun c => is_like_special c = false) t ->
  Forall (fun c => is_like_special c = false) (lower t).
Proof. intros Ht. unfold lower. apply Forall_map. eapply Forall_impl; [exact Ht|]. apply ascii_lower_not_special. Qed.

(** [ILIKE '%t%'] for a plain term [t]. *)
Lemma ilike_plain (s t : string) :
  Forall (fun c => is_like_special c = false) (list_ascii_of_string t) ->
  ilike s ("%" ++ t ++ "%") = Ret (contains_ci t s).
Proof.
  intros Ht. unfold ilike, contains_ci.
  rewrite !list_ascii_of_string_app. cbn [list_ascii_of_string].
  unfold lower at 1. rewrite !map_app. cbn [map app].
  change (ascii_lower "%") with "%"%char. cbn [like_tokens Ascii.eqb Bool.eqb andb].
  fold (lower (list_ascii_of_string t)).
  rewrite like_tokens_plain by (apply lower_plain, Ht). cbn [like_tokens option_map].
  cbn [option_map like_match]. f_equal.
  unfold is_substring. apply existsb_ext. intros x. apply like_match_prefix.
Qed.

(** for a term without [%], [_] or backslash,
    [s ILIKE '%' || t || '%'] is case-insensitive substring
    containment of [t] in [s]. *)
Theorem ilike_contains (s t : string) :
  Forall (fun c => is_like_special c = false) (list_ascii_of_string t) ->
  ilike s ("%" ++ t ++ "%") = Ret (contains_ci t s).
Proof. apply ilike_plain. Qed.

Lemma filter_ilike_map (pat : string) (f : string -> bool) (qs : list question) :
  (forall s, ilike s pat = Ret (f s)) ->
  filter_ilike pat qs = Ret (List.filter (fun q => f (q_question q)) qs).
Proof.
  intros Hf. induction qs as [|q qs IH]; simpl; [done|].
  rewrite Hf, IH. by destruct (f (q_question q)).
Qed.

Lemma search_pattern_str (t : string) : search_pattern (PStr t) = Ret ("%" ++ t ++ "%")%string.
Proof. reflexivity. Qed.

(** [_] between two [%]: any non-empty string. *)
Lemma ilike_underscore (s : string) : ilike s "%_%" = Ret (negb (String.eqb s "")).
Proof.
  unfold ilike.
  replace (like_tokens (lower (list_ascii_of_string "%_%"))) with (Some [LMany; LAny; LMany])
    by (vm_compute; reflexivity).
  destruct s as [|c s]; [reflexivity|]. unfold lower. cbn [list_ascii_of_string map].
  cbn [like_match suffixes existsb]. fold (lower (list_ascii_of_string s)).
  by rewrite like_match_nil_suffix.
Qed.

Section HandlerFacts.
Context {St : Type} `{QueryLayer St}.

Lemma search_questions_rows (r : request) (w : world St) (body : pyval) (t : string) (hits : list question) :
  req_method r = POST -> req_body r = BodyJson body ->
  py_getitem body (PStr "searchTerm") = Ret (PStr t) ->
  filter_ilike ("%" ++ t ++ "%") (questions_of (w_db w)) = Ret hits ->
  search_questions r w =
  if bool_decide (hits = []) then (Raise (HTTPException 404), w)
  else (Ret (mkResponse 200 (RJson (search_body hits)) []), mkWorld (w_db w) true).
Proof.
  intros Hm Hb Ht Hh. unfold search_questions. rewrite Hm, bool_decide_eq_true_2 by done. cbn [negb].
  rewrite (pbind_Ret _ _ w (PStr t) w).
  2: { unfold py_try_except, py_try, pbind, get_json. rewrite Hb. simpl. by rewrite Ht. }
  rewrite (pbind_Ret _ _ w ("%" ++ t ++ "%")%string w) by done.
  rewrite (pbind_Ret _ _ w (questions_of (w_db w)) w) by done.
  rewrite (pbind_Ret _ _ w hits w) by (unfold plift; by rewrite Hh).
  destruct hits as [|q hits]; [done|]. cbn.
  unfold py_try, jsonify, convert_questions_to_dict.
  set (hs := q :: hits). set (n := Z.of_nat (length (map question_record hs))).
  simpl. rewrite (map_outcome_map_Ret _ _ question_json) by (intros; apply to_json_question_record).
  subst n. rewrite length_map. reflexivity.
Qed.

(** C7: for a search term without [%], [_] or
    backslash, [POST /questions/search] implements the specification
    of section 4.5: it answers 200 with exactly the questions whose
    text contains the term ignoring case, in storage order, with their
    count, or 404 when there is none. *)
Theorem search_refines_contains (r : request) (w : world St) (body : pyval) (t : string) :
  req_method r = POST -> req_body r = BodyJson body ->
  py_getitem body (PStr "searchTerm") = Ret (PStr t) ->
  Forall (fun c => is_like_special c = false) (list_ascii_of_string t) ->
  let hits := List.filter (fun q => contains_ci t (q_question q)) (questions_of (w_db w)) in
  search_questions r w =
  if bool_decide (hits = []) then (Raise (HTTPException 404), w)
  else (Ret (mkResponse 200 (RJson (search_body hits)) []), mkWorld (w_db w) true).
Proof.
  intros Hm Hb Ht Hplain hits. apply (search_questions_rows r w body t); [done|done|done|].
  apply filter_ilike_map. intros s. by apply ilike_plain.
Qed.

(** C26: the term is not escaped, so
    a search for ["_"] is not a search for the character [_]: it
    matches every question with a non-empty text. *)
Theorem search_underscore_matches_nonempty (r : request) (w : world St) (body : pyval) :
  req_method r = POST -> req_body r = BodyJson body ->
  py_getitem body (PStr "searchTerm") = Ret (PStr "_") ->
  let hits := List.filter (fun q => negb (String.eqb (q_question q) "")) (questions_of (w_db w)) in
  search_questions r w =
  if bool_decide (hits = []) then (Raise (HTTPException 404), w)
  else (Ret (mkResponse 200 (RJson (search_body hits)) []), mkWorld (w_db w) true).
Proof.
  intros Hm Hb Ht hits. apply (search_questions_rows r w body "_"); [done|done|done|].
  apply (filter_ilike_map _ (fun s => negb (String.eqb s ""))). exact ilike_underscore.
Qed.

(** a body without [searchTerm] (or no
    JSON body at all: the bare [except] also catches werkzeug's 400 and
    415) is answered with 422, and the store is untouched. *)
Theorem search_questions_missing_term (r : request) (w : world St) :
  req_method r = POST ->
  (forall body, req_body r = BodyJson body -> exists e, py_getitem body (PStr "searchTerm") = Raise e) ->
  search_questions r w = (Raise (HTTPException 422), w).
Proof.
  intros Hm Hno. unfold search_questions. rewrite Hm, bool_decide_eq_true_2 by done. cbn [negb].
  unfold pbind at 1, py_try_except, py_try, pbind at 1, get_json.
  destruct (req_body r) as [v| |] eqn:Eb; [|done|done].
  destruct (Hno v eq_refl) as [e He]. simpl. by rewrite He.
Qed.

(** C36: a [searchTerm] that is not a
    string makes ['%' + search_term] raise [TypeError], which no
    [except] catches: the client gets a 500, not the 422 of the
    spec's error policy (section 7). *)
Theorem search_questions_nonstring_term (r : request) (w : world St) (body v : pyval) :
  req_method r = POST -> req_body r = BodyJson body ->
  py_getitem body (PStr "searchTerm") = Ret v -> (forall s, v <> PStr s) ->
  search_questions r w = (Raise TypeError, w).
Proof.
  intros Hm Hb Ht Hns. unfold search_questions. rewrite Hm, bool_decide_eq_true_2 by done. cbn [negb].
  rewrite (pbind_Ret _ _ w v w).
  2: { unfold py_try_except, py_try, pbind, get_json. rewrite Hb. simpl. by rewrite Ht. }
  apply pbind_Raise. unfold plift, search_pattern, py_str_concat.
  destruct v; try done. by destruct (Hns s).
Qed.

(** a search never changes the store. *)
Theorem search_questions_read_only (r : request) : read_only (St:=St) (search_questions r).
Proof. unfold search_questions. solve_read_only. Qed.
End HandlerFacts.

(** *** Witnesses *)

Lemma ilike_contains_witness : ilike "Speed of light?" ("%" ++ "LIGHT" ++ "%") = Ret true.
Proof. rewrite ilike_contains by (repeat constructor). reflexivity. Defined.

Lemma search_refines_contains_witness :
  search_questions (search_request (PStr "LIGHT")) sample_world =
  (Ret (mkResponse 200 (RJson (search_body [mkQuestion 2 "Speed of light?" "c" 1 3])) []),
   mkWorld sample_db true).
Proof.
  rewrite (search_refines_contains (search_request (PStr "LIGHT")) sample_world
             (PDict [(PStr "searchTerm", PStr "LIGHT")]) "LIGHT");
    [reflexivity|reflexivity|reflexivity|reflexivity|repeat constructor].
Defined.

Lemma search_underscore_matches_nonempty_witness :
  search_questions (search_request (PStr "_")) sample_world =
  (Ret (mkResponse 200 (RJson (search_body (db_questions sample_db))) []), mkWorld sample_db true).
Proof.
  rewrite (search_underscore_matches_nonempty (search_request (PStr "_")) sample_world
             (PDict [(PStr "searchTerm", PStr "_")])); reflexivity.
Defined.

Lemma search_questions_missing_term_witness :
  search_questions (mkRequest POST "/questions/search" [] (BodyJson (PDict []))) sample_world =
  (Raise (HTTPException 422), sample_world).
Proof.
  apply search_questions_missing_term; [reflexivity|].
  intros body [= <-]. exists KeyError. reflexivity.
Defined.

Lemma search_questions_nonstring_term_witness :
  search_questions (search_request (PInt 3)) sample_world = (Raise TypeError, sample_world).
Proof.
  apply (search_questions_nonstring_term _ _ (PDict [(PStr "searchTerm", PInt 3)]) (PInt 3));
    [reflexivity|reflexivity|reflexivity|discriminate].
Defined.

End Search.
