(* ===== verification/Quiz.v ===== *)
(** * Quiz: [POST /quizzes]

    [quizzes_search] (lines 279-313) selects the first question, in
    storage order, whose id is not among [previous_questions], within
    the requested category unless its id is 0 ("All"), with
    [Query.first()] (lines 290-294).  It then reads the selected row
    with [filtered_question['question']] (line 300): a mapped
    [Question] is not subscriptable, so the [TypeError] is caught and
    answered with 422 on every path that reaches the [try]. *)

From S2P Require Import Prelude PyCore Store Json Flask Listing.
Import Models Json Flask Listing.

Open Scope Z_scope.

Module Quiz.

(** Lines 290-294: the row [Query.first()] returns, for a category
    filter ([None] for "All") and the [previous_questions] list bound
    by [~Question.id.in_(...)]. *)
Definition quiz_select (category : option Z) (previous : list (option Z))
    (qs : list question) : option question :=
  query_first (filter_not_in previous
    (match category with None => qs | Some c => filter_category c qs end)).

Section Handler.
Context {St : Type} `{QueryLayer St}.

(** Lines 290-294 with the conversion of the Python values into SQL
    parameters: the category filter is built before the [IN] list. *)
Definition quiz_query (quiz_category_id previous_questions : pyval) : M St (option question) :=
  if py_eq_int quiz_category_id 0 then
    let! ids := plift (sql_int_list previous_questions) in
    let! all := all_questions in
    pret (quiz_select None ids all)
  else
    let! c := plift (sql_int_cmp quiz_category_id) in
    let! ids := plift (sql_int_list previous_questions) in
    let! all := all_questions in
    pret (query_first (filter_not_in ids (filter_category_param c all))).

(** [POST /quizzes], lines 280-313.  [quiz_category['id']] is read at
    lines 288 and 290 with the same result.  [print] writes to the
    standard output only.  [filtered_question.__dict__] raises
    [AttributeError] when no row was found. *)
Definition quizzes_search (r : request) : M St response :=
  if negb (bool_decide (req_method r = POST)) then abort 405 else
  let! body := get_json r in
  let! previous_questions := plift (py_getitem body (PStr "previous_questions")) in
  let! quiz_category := plift (py_getitem body (PStr "quiz_category")) in
  let! quiz_category_id := plift (py_getitem quiz_category (PStr "id")) in
  let! filtered_question := quiz_query quiz_category_id previous_questions in
  py_try
    (match filtered_question with
     | None => praise AttributeError
     | Some q =>
         let! question := plift (py_getitem (PEntity q) (PStr "question")) in
         let! answer := plift (py_getitem (PEntity q) (PStr "answer")) in
         let! id := plift (py_getitem (PEntity q) (PStr "id")) in
         jsonify (PDict [(PStr "question",
                          PDict [(PStr "question", question); (PStr "answer", answer);
                                 (PStr "id", id)])])
     end)
    (fun _ => let! _ := db_session_call "session" Rollback in abort 422)
    (db_session_call "session" Close).
End Handler.

(** The request the front end sends for a quiz round. *)
Definition quiz_request (previous : list Z) (category : Z) : request :=
  mkRequest POST "/quizzes" []
    (BodyJson (PDict [(PStr "previous_questions", PList (map PInt previous));
                      (PStr "quiz_category", PDict [(PStr "type", PStr "click");
                                                    (PStr "id", PInt category)])])).

(** Whether a row is in the scope of the quiz category. *)
Definition in_scope (category : option Z) (q : question) : bool :=
  match category with None => true | Some c => q_category q =? c end.

(** ** Lemmas *)

Lemma sql_not_in_spec (x : Z) (vs : list (option Z)) :
  sql_not_in x vs = true <-> ~ In None vs /\ ~ In (Some x) vs.
Proof.
  unfold sql_not_in. rewrite forallb_forall. split.
  - intros Hall. split; intros Hin; specialize (Hall _ Hin); simpl in Hall;
      [done|by rewrite Z.eqb_refl in Hall].
  - intros [Hn Hs] [y|] Hin; [|done]. apply negb_true_iff, Z.eqb_neq. intros ->. done.
Qed.

Lemma sql_not_in_false (x : Z) (vs : list (option Z)) :
  sql_not_in x vs = false -> In None vs \/ In (Some x) vs.
Proof.
  induction vs as [|[y|] vs IH]; simpl; [done| |auto].
  destruct (Z.eqb_spec x y) as [->|Hne]; simpl; [auto|]. intros H. destruct (IH H); auto.
Qed.

Lemma quiz_select_find (category : option Z) (previous : list (option Z)) (qs : list question) :
  quiz_select category previous qs =
  List.find (fun q => in_scope category q && sql_not_in (q_id q) previous) qs.
Proof.
  unfold quiz_select, query_first, filter_not_in, filter_category.
  rewrite hd_error_filter_find. destruct category as [c|]; simpl; [|done].
  induction qs as [|q qs IH]; simpl; [done|].
  destruct (q_category q =? c); simpl; [destruct (sql_not_in _ _)|]; done.
Qed.

(** C9: the drawn question is a row of the
    table, its id is not among the previous questions, and it belongs
    to the requested category unless the category is "All". *)
Theorem quiz_select_not_previous (category : option Z) (previous : list (option Z))
    (qs : list question) (q : question) :
  quiz_select category previous qs = Some q ->
  In q qs /\ ~ In (Some (q_id q)) previous /\
  (forall c, category = Some c -> q_category q = c).
Proof.
  rewrite quiz_select_find. intros Hf. apply find_some in Hf as [Hin Hok].
  apply andb_true_iff in Hok as [Hsc Hni]. apply sql_not_in_spec in Hni as [_ Hni].
  split; [done|]. split; [done|]. intros c ->. by apply Z.eqb_eq in Hsc.
Qed.

(** C22: the draw is deterministic: it is the first row
    in storage order that is in scope and not excluded; every row
    before it is out of scope or excluded. *)
Theorem quiz_select_first (category : option Z) (previous : list (option Z))
    (qs : list question) (q : question) :
  quiz_select category previous qs = Some q ->
  exists before after, qs = before ++ q :: after /\
    Forall (fun q' => in_scope category q' = false \/ In (Some (q_id q')) previous
                      \/ In None previous) before.
Proof.
  rewrite quiz_select_find. intros Hf. apply find_some_first in Hf as (l1 & l2 & -> & _ & Hl1).
  exists l1, l2. split; [done|]. eapply Forall_impl; [exact Hl1|]. intros q' Hq'.
  apply andb_false_iff in Hq' as [Hq'|Hq']; [by left|right].
  destruct (sql_not_in (q_id q') previous) eqn:E; [done|].
  apply sql_not_in_false in E as [E|E]; auto.
Qed.

(** the draw finds nothing exactly when every
    row in scope has already been asked (or the list holds a [NULL]). *)
Theorem quiz_select_exhausted (category : option Z) (previous : list (option Z)) (qs : list question) :
  quiz_select category previous qs = None <->
  forall q, In q qs -> in_scope category q = true ->
            In (Some (q_id q)) previous \/ In None previous.
Proof.
  rewrite quiz_select_find. split.
  - intros Hn q Hin Hsc. eapply find_none in Hn; [|exact Hin]. rewrite Hsc in Hn.
    simpl in Hn. apply sql_not_in_false in Hn as [H|H]; auto.
  - intros Hall. destruct (List.find _ _) as [q|] eqn:Hf; [|done].
    apply find_some in Hf as [Hin Hok]. apply andb_true_iff in Hok as [Hsc Hni].
    apply sql_not_in_spec in Hni as [Hn Hs]. destruct (Hall q Hin Hsc); done.
Qed.

(** C32: a [null] in [previous_questions]
    makes [id NOT IN (...)] unknown for every row under SQL's
    three-valued logic, so nothing is drawn at all. *)
Theorem quiz_select_null_previous (category : option Z) (previous : list (option Z)) (qs : list question) :
  In None previous -> quiz_select category previous qs = None.
Proof.
  intros Hn. rewrite quiz_select_find. destruct (List.find _ _) as [q|] eqn:Hf; [|done].
  apply find_some in Hf as [_ Hok]. apply andb_true_iff in Hok as [_ Hni].
  by apply sql_not_in_spec in Hni as [? _].
Qed.

Lemma sql_int_list_ints (l : list Z) : sql_int_list (PList (map PInt l)) = Ret (map Some l).
Proof. induction l as [|z l IH]; simpl; [done|]. simpl in IH. by rewrite IH. Qed.

Section HandlerFacts.
Context {St : Type} `{QueryLayer St}.

Lemma quiz_query_ints (c : Z) (previous : list Z) (w : world St) :
  quiz_query (PInt c) (PList (map PInt previous)) w =
  (Ret (quiz_select (if c =? 0 then None else Some c) (map Some previous)
          (questions_of (w_db w))), w).
Proof.
  unfold quiz_query, py_eq_int. cbn [py_num].
  destruct (c =? 0); unfold pbind, plift; rewrite sql_int_list_ints; reflexivity.
Qed.

(** [POST /quizzes] never answers with a
    question: every run raises (405, a request error, or the 422 of
    line 310). *)
Theorem quizzes_search_never_ok (r : request) : never_ok (St:=St) (quizzes_search r).
Proof. unfold quizzes_search. solve_never_ok. Qed.

(** C8: for every well-formed quiz request,
    whatever the store holds, the answer is 422: subscripting the
    mapped row raises [TypeError] (and an exhausted draw raises
    [AttributeError]), both caught by the bare [except]. *)
Theorem quizzes_search_request_422 (previous : list Z) (category : Z) (w : world St) :
  quizzes_search (quiz_request previous category) w =
  (Raise (HTTPException 422), mkWorld (w_db w) true).
Proof.
  unfold quizzes_search. cbn [req_method quiz_request]. rewrite bool_decide_eq_true_2 by done.
  cbn [negb]. repeat (erewrite (pbind_Ret _ _ w) by reflexivity).
  rewrite (pbind_Ret _ _ w _ w) by apply quiz_query_ints.
  destruct (category =? 0); simpl;
    destruct (quiz_select _ _ _); reflexivity.
Qed.

(** a quiz request never changes the store. *)
Theorem quizzes_search_read_only (r : request) : read_only (St:=St) (quizzes_search r).
Proof. unfold quizzes_search, quiz_query. solve_read_only. Qed.
End HandlerFacts.

(** *** Witnesses *)

Lemma quiz_select_not_previous_witness :
  In (mkQuestion 2 "Speed of light?" "c" 1 3) (db_questions sample_db) /\
  ~ In (Some 2) [Some 1] /\ (forall c, Some 1 = Some c -> 1 = c).
Proof. apply (quiz_select_not_previous (Some 1) [Some 1] (db_questions sample_db)). reflexivity. Defined.

Lemma quiz_select_first_witness :
  exists before after, db_questions sample_db = before ++ mkQuestion 2 "Speed of light?" "c" 1 3 :: after /\
    Forall (fun q' => in_scope (Some 1) q' = false \/ In (Some (q_id q')) [Some 1] \/ In None [Some 1]) before.
Proof. apply (quiz_select_first (Some 1) [Some 1] (db_questions sample_db)). reflexivity. Defined.

Lemma quiz_select_exhausted_witness : quiz_select (Some 1) [Some 1; Some 2] (db_questions sample_db) = None.
Proof.
  apply quiz_select_exhausted. intros q Hin Hsc.
  destruct Hin as [<-|[<-|[<-|[]]]]; simpl in *; auto; discriminate.
Defined.

Lemma quiz_select_null_previous_witness : quiz_select None [None] (db_questions sample_db) = None.
Proof. apply quiz_select_null_previous. simpl. auto. Defined.

(** The example of section 8 of the spec: the round after question 1
    in category 1 should return question 2; it answers 422. *)
Lemma quizzes_search_request_422_example :
  quizzes_search (quiz_request [1] 1) sample_world = (Raise (HTTPException 422), mkWorld sample_db true).
Proof. reflexivity. Qed.

End Quiz.
