(* ===== verification/Mutation.v ===== *)
(** * Mutation: [DELETE /questionsDelete/<id>] and [POST /questionsPost]

    [del_question] (lines 121-148) and [post_question] (lines 160-188),
    the two handlers that change the store.  Both change it through
    the models ([deletes()], [insert()]), which commit at once, and
    both then pass the mapped [Question] object itself to [jsonify]
    ([deleted] at line 141, [question] at line 181): the encoder
    raises [TypeError], the bare [except] answers 422, and the
    rollback on the module's own session cannot undo the committed
    change. *)

From S2P Require Import Prelude PyCore Store Json Flask Listing.
Import Models Json Flask Listing.

Open Scope Z_scope.

Module Mutation.

(** The four columns of [Question(data)] as they are stored when the
    object is flushed ([question.insert()]): text columns take
    strings, integer columns integers of 32 bits. *)
Definition row_of_data (data : pyval) : outcome question_fields :=
  match py_getitem data (PStr "question"), py_getitem data (PStr "answer"),
        py_getitem data (PStr "category"), py_getitem data (PStr "difficulty") with
  | Ret q, Ret a, Ret c, Ret d =>
      match sql_text q, sql_text a, sql_int_assign c, sql_int_assign d with
      | Ret q', Ret a', Ret c', Ret d' => Ret (mkFields q' a' c' d')
      | Raise e, _, _, _ | _, Raise e, _, _ | _, _, Raise e, _ | _, _, _, Raise e => Raise e
      end
  | Raise e, _, _, _ | _, Raise e, _, _ | _, _, Raise e, _ | _, _, _, Raise e => Raise e
  end.

Section Handlers.
Context {St : Type} `{QueryLayer St}.

(** [DELETE /questionsDelete/<int:delete_id>], lines 122-148.  The body
    is read outside any [try]. *)
Definition del_question (r : request) (delete_id : Z) : M St response :=
  if negb (bool_decide (req_method r = DELETE)) then abort 405 else
  let! body := get_json r in
  let! currentCategory := plift (py_getitem body (PStr "currentCategory")) in
  let! question_to_delete := get_question delete_id in
  match question_to_delete with
  | None => abort 404
  | Some q =>
      py_try
        (let! _ := store_delete (q_id q) in
         let! c := plift (sql_int_cmp currentCategory) in
         let! all := all_questions in
         let questions := convert_questions_to_dict (filter_category_param c all) in
         let! _ := db_session_call "session" Commit in
         jsonify (PDict [(PStr "success", PBool true);
                         (PStr "questions", PList questions);
                         (PStr "deleted", PEntity q);
                         (PStr "total_questions", PInt (Z.of_nat (length questions)))]))
        (fun _ => let! _ := db_session_call "session" Rollback in abort 422)
        (db_session_call "session" Close)
  end.

(** [POST /questionsPost], lines 161-188 (registered with [method=]
    instead of [methods=]; see [App]). *)
Definition post_question (r : request) : M St response :=
  if negb (bool_decide (req_method r = POST)) then abort 405 else
  let! data :=
    py_try_except
      (let! body := get_json r in
       let! q := plift (py_getitem body (PStr "question")) in
       let! a := plift (py_getitem body (PStr "answer")) in
       let! c := plift (py_getitem body (PStr "category")) in
       let! d := plift (py_getitem body (PStr "difficulty")) in
       pret (PDict [(PStr "question", q); (PStr "answer", a);
                    (PStr "category", c); (PStr "difficulty", d)]))
      (fun _ => abort 422) in
  py_try
    (let! f := plift (row_of_data data) in
     let! question := store_insert f in
     jsonify (PDict [(PStr "success", PBool true); (PStr "question", PEntity question)]))
    (fun _ => let! _ := db_session_call "session" Rollback in abort 422)
    (db_session_call "session" Close).
End Handlers.

(** The bodies the front end sends. *)
Definition delete_request (category : Z) : request :=
  mkRequest DELETE "/questionsDelete" [] (BodyJson (PDict [(PStr "currentCategory", PInt category)])).

Definition post_request (q a : string) (c d : Z) : request :=
  mkRequest POST "/questionsPost" []
    (BodyJson (PDict [(PStr "question", PStr q); (PStr "answer", PStr a);
                      (PStr "category", PInt c); (PStr "difficulty", PInt d)])).

(** ** Lemmas *)

Lemma row_of_data_valid (q a : string) (c d : Z) :
  int4_min <= c <= int4_max -> int4_min <= d <= int4_max ->
  row_of_data (PDict [(PStr "question", PStr q); (PStr "answer", PStr a);
                      (PStr "category", PInt c); (PStr "difficulty", PInt d)]) =
  Ret (mkFields q a c d).
Proof.
  intros Hc Hd. unfold row_of_data. cbn. unfold sql_int_assign.
  rewrite (proj2 (andb_true_iff _ _) (conj (proj2 (Z.leb_le _ _) (proj1 Hc)) (proj2 (Z.leb_le _ _) (proj2 Hc)))).
  rewrite (proj2 (andb_true_iff _ _) (conj (proj2 (Z.leb_le _ _) (proj1 Hd)) (proj2 (Z.leb_le _ _) (proj2 Hd)))).
  reflexivity.
Qed.

Section HandlerFacts.
Context {St : Type} `{QueryLayerLaws St}.

Lemma query_get_id (s : St) (i : Z) (q : question) : query_get s i = Some q -> q_id q = i.
Proof. unfold query_get. intros Hf. apply find_some in Hf as [_ Hid]. by apply Z.eqb_eq. Qed.

(** The run of [del_question] on an existing row. *)
Lemma del_question_run (r : request) (i : Z) (body v : pyval) (q : question) (w : world St) :
  req_method r = DELETE -> req_body r = BodyJson body ->
  py_getitem body (PStr "currentCategory") = Ret v ->
  query_get (w_db w) i = Some q ->
  del_question r i w = (Raise (HTTPException 422), mkWorld (delete_question i (w_db w)) true).
Proof.
  intros Hm Hb Hc Hq. pose proof (query_get_id _ _ _ Hq) as Hid.
  unfold del_question. rewrite Hm, bool_decide_eq_true_2 by done. cbn [negb].
  rewrite (pbind_Ret _ _ w body w) by (unfold get_json; by rewrite Hb).
  rewrite (pbind_Ret _ _ w v w) by (unfold plift; by rewrite Hc).
  rewrite (pbind_Ret _ _ w (Some q) w) by (unfold get_question; by rewrite Hq).
  unfold py_try, pbind at 1, store_delete. rewrite Hid. cbn [fst snd w_db w_closed].
  unfold pbind at 1, plift. destruct (sql_int_cmp v) as [c|e]; [|reflexivity].
  unfold pbind, jsonify, convert_questions_to_dict. cbn [all_questions w_db].
  set (qs := filter_category_param c _). set (n := Z.of_nat (length (map question_record qs))).
  simpl. rewrite (map_outcome_map_Ret _ _ question_json) by (intros; apply to_json_question_record).
  reflexivity.
Qed.

(** C4: deleting an existing question removes its
    row (committed by [deletes()]) and still answers 422: [jsonify]
    cannot encode the [deleted] object, whatever [currentCategory]
    holds. *)
Theorem del_question_existing (r : request) (i : Z) (body v : pyval) (q : question) (w : world St) :
  req_method r = DELETE -> req_body r = BodyJson body ->
  py_getitem body (PStr "currentCategory") = Ret v ->
  query_get (w_db w) i = Some q ->
  del_question r i w = (Raise (HTTPException 422), mkWorld (delete_question i (w_db w)) true).
Proof. apply del_question_run. Qed.

(** C23: deleting an id that is not in the table
    answers 404 and changes nothing. *)
Theorem del_question_missing (r : request) (i : Z) (body v : pyval) (w : world St) :
  req_method r = DELETE -> req_body r = BodyJson body ->
  py_getitem body (PStr "currentCategory") = Ret v ->
  query_get (w_db w) i = None ->
  del_question r i w = (Raise (HTTPException 404), w).
Proof.
  intros Hm Hb Hc Hq. unfold del_question. rewrite Hm, bool_decide_eq_true_2 by done. cbn [negb].
  rewrite (pbind_Ret _ _ w body w) by (unfold get_json; by rewrite Hb).
  rewrite (pbind_Ret _ _ w v w) by (unfold plift; by rewrite Hc).
  rewrite (pbind_Ret _ _ w None w) by (unfold get_question; by rewrite Hq).
  reflexivity.
Qed.

(** C33: a body without [currentCategory] (read
    outside any [try]) raises [KeyError]: a 500, not the 422 of the
    spec's error policy; nothing is deleted. *)
Theorem del_question_no_category (r : request) (i : Z) (body : pyval) (e : exn) (w : world St) :
  req_method r = DELETE -> req_body r = BodyJson body ->
  py_getitem body (PStr "currentCategory") = Raise e ->
  del_question r i w = (Raise e, w).
Proof.
  intros Hm Hb Hc. unfold del_question. rewrite Hm, bool_decide_eq_true_2 by done. cbn [negb].
  rewrite (pbind_Ret _ _ w body w) by (unfold get_json; by rewrite Hb).
  apply pbind_Raise. unfold plift. by rewrite Hc.
Qed.

(** What [del_question] does to the store: nothing, or the delete of
    the requested id, on a [DELETE] for which the row is stored. *)
Lemma del_question_store (r : request) (i : Z) (w : world St) :
  w_db (snd (del_question r i w)) = w_db w \/
  (req_method r = DELETE /\ (exists q, query_get (w_db w) i = Some q) /\
   w_db (snd (del_question r i w)) = delete_question i (w_db w)).
Proof.
  unfold del_question. destruct (bool_decide (req_method r = DELETE)) eqn:Hm; cbn [negb]; [|by left].
  apply bool_decide_eq_true in Hm.
  destruct (req_body r) as [body| |] eqn:Hb.
  2: { rewrite (pbind_Raise _ _ w (HTTPException 400) w) by (unfold get_json; by rewrite Hb). by left. }
  2: { rewrite (pbind_Raise _ _ w (HTTPException 415) w) by (unfold get_json; by rewrite Hb). by left. }
  rewrite (pbind_Ret _ _ w body w) by (unfold get_json; by rewrite Hb). cbv beta.
  match goal with |- context [py_getitem body ?k] => destruct (py_getitem body k) as [v|e] eqn:Hc end.
  2: { rewrite (pbind_Raise _ _ w e w) by reflexivity. by left. }
  rewrite (pbind_Ret _ _ w v w) by reflexivity. cbv beta.
  rewrite (pbind_Ret _ _ w (query_get (w_db w) i) w) by reflexivity. cbv beta.
  destruct (query_get (w_db w) i) as [q|] eqn:Hq; [|by left].
  right. split; [done|]. split; [eauto|].
  rewrite py_try_db_body by (intros; solve_read_only).
  rewrite pbind_db_tail by (intros; solve_read_only).
  simpl. by rewrite (query_get_id _ _ _ Hq).
Qed.

Lemma del_question_never_ok (r : request) (i : Z) : never_ok (St:=St) (del_question r i).
Proof. unfold del_question. solve_never_ok. Qed.

(** C24: whatever the request, [del_question] never answers
    normally (the [deleted] object defeats [jsonify] on the one path
    that reaches it), and the only change it makes to the store is the
    delete of the rows of the requested id, on a [DELETE] request for
    which such a row is stored. *)
Theorem del_question_effect (r : request) (i : Z) (w : world St) :
  (exists e, fst (del_question r i w) = Raise e) /\
  (w_db (snd (del_question r i w)) = w_db w \/
   (req_method r = DELETE /\ (exists q, query_get (w_db w) i = Some q) /\
    w_db (snd (del_question r i w)) = delete_question i (w_db w))).
Proof.
  split; [|apply del_question_store].
  destruct (del_question_never_ok r i w) as (e & w' & ->). eauto.
Qed.

Lemma post_question_data (r : request) (body : pyval) (q a c d : pyval) (w : world St) :
  req_body r = BodyJson body ->
  py_getitem body (PStr "question") = Ret q -> py_getitem body (PStr "answer") = Ret a ->
  py_getitem body (PStr "category") = Ret c -> py_getitem body (PStr "difficulty") = Ret d ->
  py_try_except
    (let! body := get_json r in
     let! q := plift (py_getitem body (PStr "question")) in
     let! a := plift (py_getitem body (PStr "answer")) in
     let! c := plift (py_getitem body (PStr "category")) in
     let! d := plift (py_getitem body (PStr "difficulty")) in
     pret (PDict [(PStr "question", q); (PStr "answer", a);
                  (PStr "category", c); (PStr "difficulty", d)]))
    (fun _ => abort 422) w =
  (Ret (PDict [(PStr "question", q); (PStr "answer", a);
               (PStr "category", c); (PStr "difficulty", d)]), w).
Proof.
  intros Hb Hq Ha Hc Hd. unfold py_try_except, py_try, get_json, pbind, plift.
  rewrite Hb. cbv beta iota delta [pret]. rewrite Hq, Ha, Hc, Hd. reflexivity.
Qed.

(** The run of [post_question] on a complete, well-typed body. *)
Lemma post_question_run (r : request) (body : pyval) (q a : string) (c d : Z) (w : world St) :
  req_method r = POST -> req_body r = BodyJson body ->
  py_getitem body (PStr "question") = Ret (PStr q) -> py_getitem body (PStr "answer") = Ret (PStr a) ->
  py_getitem body (PStr "category") = Ret (PInt c) -> py_getitem body (PStr "difficulty") = Ret (PInt d) ->
  int4_min <= c <= int4_max -> int4_min <= d <= int4_max ->
  post_question r w =
  (Raise (HTTPException 422), mkWorld (insert_question (mkFields q a c d) (w_db w)) true).
Proof.
  intros Hm Hb Hq Ha Hc Hd Hcr Hdr. unfold post_question.
  rewrite Hm, bool_decide_eq_true_2 by done. cbn [negb].
  rewrite (pbind_Ret _ _ w _ w) by (apply (post_question_data r body); done). cbv beta.
  unfold py_try, pbind at 1, plift. rewrite row_of_data_valid by done. reflexivity.
Qed.

(** C5: a complete, well-typed creation request
    appends the new question with the next id (so a later listing shows
    it) and still answers 422, because [jsonify] cannot encode the
    created object. *)
Theorem post_question_inserts_422 (r : request) (body : pyval) (q a : string) (c d : Z) (w : world St) :
  req_method r = POST -> req_body r = BodyJson body ->
  py_getitem body (PStr "question") = Ret (PStr q) -> py_getitem body (PStr "answer") = Ret (PStr a) ->
  py_getitem body (PStr "category") = Ret (PInt c) -> py_getitem body (PStr "difficulty") = Ret (PInt d) ->
  int4_min <= c <= int4_max -> int4_min <= d <= int4_max ->
  post_question r w =
  (Raise (HTTPException 422), mkWorld (insert_question (mkFields q a c d) (w_db w)) true).
Proof. apply post_question_run. Qed.

(** C35: a category outside PostgreSQL's 32-bit
    [integer] range makes the insert fail: 422, and the store is
    unchanged. *)
Theorem post_question_out_of_range (r : request) (body : pyval) (q a : string) (c d : Z) (w : world St) :
  req_method r = POST -> req_body r = BodyJson body ->
  py_getitem body (PStr "question") = Ret (PStr q) -> py_getitem body (PStr "answer") = Ret (PStr a) ->
  py_getitem body (PStr "category") = Ret (PInt c) -> py_getitem body (PStr "difficulty") = Ret (PInt d) ->
  ~ (int4_min <= c <= int4_max) ->
  post_question r w = (Raise (HTTPException 422), mkWorld (w_db w) true).
Proof.
  intros Hm Hb Hq Ha Hc Hd Hcr. unfold post_question.
  rewrite Hm, bool_decide_eq_true_2 by done. cbn [negb].
  rewrite (pbind_Ret _ _ w _ w) by (apply (post_question_data r body); done). cbv beta.
  unfold py_try, pbind at 1, plift, row_of_data, sql_int_assign. cbn.
  replace ((int4_min <=? c) && (c <=? int4_max)) with false
    by (symmetry; apply andb_false_iff; destruct (Z.leb_spec int4_min c), (Z.leb_spec c int4_max); auto; lia).
  destruct ((int4_min <=? d) && (d <=? int4_max)); reflexivity.
Qed.

(** The [try] of lines 166-175 returns only the dict of the four
    fields of a JSON body, and changes nothing. *)
Lemma post_question_data_cases (r : request) (data : pyval) (w w1 : world St) :
  py_try_except
    (let! body := get_json r in
     let! q := plift (py_getitem body (PStr "question")) in
     let! a := plift (py_getitem body (PStr "answer")) in
     let! c := plift (py_getitem body (PStr "category")) in
     let! d := plift (py_getitem body (PStr "difficulty")) in
     pret (PDict [(PStr "question", q); (PStr "answer", a);
                  (PStr "category", c); (PStr "difficulty", d)]))
    (fun _ => abort 422) w = (Ret data, w1) ->
  w1 = w /\ exists body q a c d, req_body r = BodyJson body /\
    py_getitem body (PStr "question") = Ret q /\ py_getitem body (PStr "answer") = Ret a /\
    py_getitem body (PStr "category") = Ret c /\ py_getitem body (PStr "difficulty") = Ret d /\
    data = PDict [(PStr "question", q); (PStr "answer", a); (PStr "category", c); (PStr "difficulty", d)].
Proof.
  unfold py_try_except, py_try, get_json, pbind, plift.
  destruct (req_body r) as [body| |] eqn:Hb; [|done|done]. cbv beta iota delta [pret].
  destruct (py_getitem body (PStr "question")) eqn:E1; [|done].
  destruct (py_getitem body (PStr "answer")) eqn:E2; [|done].
  destruct (py_getitem body (PStr "category")) eqn:E3; [|done].
  destruct (py_getitem body (PStr "difficulty")) eqn:E4; [|done].
  intros [= <- <-]. split; [done|]. eexists _, _, _, _, _. eauto 10.
Qed.

(** What [post_question] does to the store: nothing, or the insert of
    the row built from the four fields of the body, on a [POST]. *)
Lemma post_question_store (r : request) (w : world St) :
  w_db (snd (post_question r w)) = w_db w \/
  exists body q a c d f,
    req_method r = POST /\ req_body r = BodyJson body /\
    py_getitem body (PStr "question") = Ret q /\ py_getitem body (PStr "answer") = Ret a /\
    py_getitem body (PStr "category") = Ret c /\ py_getitem body (PStr "difficulty") = Ret d /\
    row_of_data (PDict [(PStr "question", q); (PStr "answer", a);
                        (PStr "category", c); (PStr "difficulty", d)]) = Ret f /\
    w_db (snd (post_question r w)) = insert_question f (w_db w).
Proof.
  remember (w_db (snd (post_question r w))) as X eqn:HX.
  unfold post_question in HX. destruct (bool_decide (req_method r = POST)) eqn:Hm;
    cbn [negb] in HX; [|by left].
  apply bool_decide_eq_true in Hm. unfold pbind at 1 in HX.
  match type of HX with context [py_try_except ?B ?h w] =>
    assert (R : read_only (py_try_except B h)) by solve_read_only;
    specialize (R w); destruct (py_try_except B h w) as [[data|e] w1] eqn:Ed end;
    [|left; subst X; by simpl in *].
  apply post_question_data_cases in Ed as [-> (body & q & a & c & d & Hb & Hq & Ha & Hc & Hd & ->)].
  cbv beta iota in HX. rewrite py_try_db_body in HX by (intros; solve_read_only).
  unfold pbind at 1, plift in HX. destruct (row_of_data _) as [f|e] eqn:Hf; [|by left].
  rewrite pbind_db_tail in HX by (intros; solve_read_only). right.
  exists body, q, a, c, d, f. by repeat (split; [done|]).
Qed.

Lemma post_question_never_ok (r : request) : never_ok (St:=St) (post_question r).
Proof. unfold post_question. solve_never_ok. Qed.

(** C25: whatever the request, [post_question] never answers
    normally (the [question] object defeats [jsonify]), and the only
    change it makes to the store is one insert of the row whose
    columns are the [question], [answer], [category] and [difficulty]
    members of the body of a [POST], in that order. *)
Theorem post_question_effect (r : request) (w : world St) :
  (exists e, fst (post_question r w) = Raise e) /\
  (w_db (snd (post_question r w)) = w_db w \/
   exists body q a c d f,
     req_method r = POST /\ req_body r = BodyJson body /\
     py_getitem body (PStr "question") = Ret q /\ py_getitem body (PStr "answer") = Ret a /\
     py_getitem body (PStr "category") = Ret c /\ py_getitem body (PStr "difficulty") = Ret d /\
     row_of_data (PDict [(PStr "question", q); (PStr "answer", a);
                         (PStr "category", c); (PStr "difficulty", d)]) = Ret f /\
     w_db (snd (post_question r w)) = insert_question f (w_db w)).
Proof.
  split; [|apply post_question_store].
  destruct (post_question_never_ok r w) as (e & w' & ->). eauto.
Qed.

(** C34: a body without one of the four fields
    (or no JSON body) answers 422 and inserts nothing. *)
Theorem post_question_missing_field (r : request) (w : world St) :
  req_method r = POST ->
  (forall body, req_body r = BodyJson body ->
     exists k e, In k ["question"; "answer"; "category"; "difficulty"] /\
                 py_getitem body (PStr k) = Raise e) ->
  post_question r w = (Raise (HTTPException 422), w).
Proof.
  intros Hm Hno. unfold post_question. rewrite Hm, bool_decide_eq_true_2 by done. cbn [negb].
  apply pbind_Raise. unfold py_try_except, py_try, get_json, pbind, plift.
  destruct (req_body r) as [v| |] eqn:Hb; [|reflexivity|reflexivity].
  destruct (Hno v eq_refl) as (k & e & Hk & He). cbv beta iota delta [pret].
  destruct (py_getitem v (PStr "question")) eqn:E1; [|reflexivity].
  destruct (py_getitem v (PStr "answer")) eqn:E2; [|reflexivity].
  destruct (py_getitem v (PStr "category")) eqn:E3; [|reflexivity].
  destruct (py_getitem v (PStr "difficulty")) eqn:E4; [|reflexivity].
  exfalso. destruct Hk as [<-|[<-|[<-|[<-|[]]]]]; congruence.
Qed.
(** C6: the property of the spec's section 8 and of
    the comment of lines 156-158: after a successful creation (which
    the client sees as 422), a full listing of the last page shows the
    new question as the last record, and the total count has grown by
    one. *)
Theorem post_then_listed (r r' : request) (b : pyval) (q a : string) (c d : Z) (w : world St) :
  req_method r = POST -> req_body r = BodyJson b ->
  py_getitem b (PStr "question") = Ret (PStr q) -> py_getitem b (PStr "answer") = Ret (PStr a) ->
  py_getitem b (PStr "category") = Ret (PInt c) -> py_getitem b (PStr "difficulty") = Ret (PInt d) ->
  int4_min <= c <= int4_max -> int4_min <= d <= int4_max ->
  req_method r' = GET -> categories_of (w_db w) <> [] ->
  args_get_int (req_args r') "page" 1 = Z.of_nat (length (questions_of (w_db w))) / 10 + 1 ->
  exists resp js, get_questions r' (snd (post_question r w)) = (Ret resp, snd (post_question r w)) /\
    body resp = RJson (JObj [("questions", JArr js); ("success", JBool true);
      ("total_categories", JNum (Z.of_nat (length (categories_of (w_db w)))));
      ("total_questions", JNum (Z.of_nat (length (questions_of (w_db w))) + 1))]) /\
    last js = Some (question_json (make_question (next_id_of (w_db w)) (mkFields q a c d))).
Proof.
  intros Hm Hb Hq Ha Hc Hd Hcr Hdr Hm' Hcat Hp.
  rewrite (post_question_run r b q a c d w) by done. cbn [snd w_db].
  rewrite get_questions_cases, Hm'. cbn [negb bool_decide decide_rel].
  rewrite bool_decide_eq_true_2 by done. cbn [negb].
  cbn [w_db]. rewrite insert_categories_law. destruct (categories_of (w_db w)) as [|c0 cs] eqn:E; [done|].
  cbn [length Nat.eqb]. unfold questions_body. rewrite insert_questions_law, Hp.
  destruct (page_slice_last (questions_of (w_db w)) (make_question (next_id_of (w_db w)) (mkFields q a c d)))
    as [pre ->].
  eexists _, _. split; [reflexivity|].
  split.
  - rewrite length_app, Nat2Z.inj_add. reflexivity.
  - rewrite map_app. cbn [map]. apply last_snoc.
Qed.
End HandlerFacts.

(** *** Witnesses *)

Lemma del_question_existing_witness :
  del_question (delete_request 1) 1 sample_world =
  (Raise (HTTPException 422), mkWorld (delete_question 1 sample_db) true).
Proof.
  apply (del_question_existing _ 1 (PDict [(PStr "currentCategory", PInt 1)]) (PInt 1)
           (mkQuestion 1 "What is H2O?" "Water" 1 1)); reflexivity.
Defined.

Lemma del_question_missing_witness :
  del_question (delete_request 1) 7 sample_world = (Raise (HTTPException 404), sample_world).
Proof.
  apply (del_question_missing _ 7 (PDict [(PStr "currentCategory", PInt 1)]) (PInt 1)); reflexivity.
Defined.

Lemma del_question_no_category_witness :
  del_question (mkRequest DELETE "/questionsDelete" [] (BodyJson (PDict []))) 1 sample_world =
  (Raise KeyError, sample_world).
Proof. apply (del_question_no_category _ 1 (PDict [])); reflexivity. Defined.

Lemma post_question_inserts_422_witness :
  post_question (post_request "Capital of France?" "Paris" 2 1) sample_world =
  (Raise (HTTPException 422),
   mkWorld (insert_question (mkFields "Capital of France?" "Paris" 2 1) sample_db) true).
Proof.
  apply (post_question_inserts_422 _ (PDict [(PStr "question", PStr "Capital of France?");
           (PStr "answer", PStr "Paris"); (PStr "category", PInt 2); (PStr "difficulty", PInt 1)]));
    try reflexivity; unfold int4_min, int4_max; lia.
Defined.

Lemma post_question_missing_field_witness :
  post_question (mkRequest POST "/questionsPost" [] (BodyJson (PDict [(PStr "question", PStr "Q")])))
    sample_world = (Raise (HTTPException 422), sample_world).
Proof.
  apply post_question_missing_field; [reflexivity|].
  intros body [= <-]. exists "answer", KeyError. split; [simpl; auto|reflexivity].
Defined.

Lemma post_question_out_of_range_witness :
  post_question (post_request "Q" "A" (2 ^ 31) 1) sample_world =
  (Raise (HTTPException 422), mkWorld sample_db true).
Proof.
  apply (post_question_out_of_range _ (PDict [(PStr "question", PStr "Q");
           (PStr "answer", PStr "A"); (PStr "category", PInt (2 ^ 31)); (PStr "difficulty", PInt 1)])
           "Q" "A" (2 ^ 31) 1); try reflexivity. unfold int4_min, int4_max. lia.
Defined.

Lemma post_then_listed_witness :
  exists resp js,
    get_questions (mkRequest GET "/questions" [("page", "1")] BodyNotJson)
      (snd (post_question (post_request "Capital of France?" "Paris" 2 1) sample_world)) =
    (Ret resp, snd (post_question (post_request "Capital of France?" "Paris" 2 1) sample_world)) /\
    body resp = RJson (JObj [("questions", JArr js); ("success", JBool true);
      ("total_categories", JNum (Z.of_nat (length (categories_of (w_db sample_world)))));
      ("total_questions", JNum (Z.of_nat (length (questions_of (w_db sample_world))) + 1))]) /\
    last js = Some (question_json (make_question (next_id_of (w_db sample_world))
                                    (mkFields "Capital of France?" "Paris" 2 1))).
Proof.
  eapply (post_then_listed (post_request "Capital of France?" "Paris" 2 1)
            (mkRequest GET "/questions" [("page", "1")] BodyNotJson) _ "Capital of France?" "Paris" 2 1
            sample_world);
    try reflexivity; try (unfold int4_min, int4_max; lia); discriminate.
Defined.

End Mutation.
