(* ===== verification/App.v ===== *)
(** * App: [create_app], URL rules and the request cycle

    [create_app] (lines 12-354) registers seven URL rules with
    [@app.route] (lines 35, 77, 121, 160, 204, 244, 279; one
    definition [rule_*] each).  Flask passes the keyword options other
    than [methods] to werkzeug's [Rule], which accepts a fixed set of
    them: the [method=['POST']] of line 160 is not one, so
    [create_app] raises [TypeError] there.  [handle_request] is Flask's
    request cycle over a list of URL rules: werkzeug's matching
    ([dispatch]: a path that matches no rule is 404, a path whose rules
    do not allow the method is 405, a path that matches only with its
    slashes merged is a 308 redirect, [OPTIONS] is answered
    automatically and [HEAD] runs the [GET] view), the view, the error
    handlers for what the routing or the view raises (wrapped by
    Flask-CORS's [intercept_exceptions]), and the [after_request]
    functions.  Since [create_app] raises, [handle_request url_rules]
    is the app the decorators describe, as it would serve requests if
    the registration of line 160 went through; [reachable] is the
    relation of the worlds a sequence of such requests leads to. *)

From S2P Require Import Prelude PyCore Store Json Flask Listing Search Quiz Mutation.
Import Models Json Flask Listing Search Quiz Mutation.

Open Scope Z_scope.

Module App.

(** ** URL rules *)

Inductive segment : Type :=
  | Static (s : string)   (** a literal path segment *)
  | IntArg.               (** [<int:name>] *)

Inductive endpoint : Type :=
  | EGetCategories | EGetQuestions | EDelQuestion | EPostQuestion
  | ESearch | EByCategory | EQuizzes.

#[export] Instance endpoint_eq_dec : EqDecision endpoint.
Proof. solve_decision. Defined.

Record url_rule := mkRule {
  rule_path : list segment;
  rule_methods : option (list http_method);   (** the [methods=] option *)
  rule_options : list string;                  (** the other keyword options *)
  rule_endpoint : endpoint
}.

(** The decorators of [create_app], one rule each, with the options
    they are written with. *)
Definition rule_get_categories : url_rule :=
  mkRule [Static "categories"] (Some [GET]) [] EGetCategories.
Definition rule_get_questions : url_rule :=
  mkRule [Static "questions"] (Some [GET]) [] EGetQuestions.
Definition rule_del_question : url_rule :=
  mkRule [Static "questionsDelete"; IntArg] (Some [DELETE]) [] EDelQuestion.
Definition rule_post_question : url_rule :=
  mkRule [Static "questionsPost"] None ["method"] EPostQuestion.
Definition rule_search_questions : url_rule :=
  mkRule [Static "questions"; Static "search"] (Some [POST]) [] ESearch.
Definition rule_get_questions_by_categories : url_rule :=
  mkRule [Static "categories"; IntArg; Static "questions"] (Some [GET]) [] EByCategory.
Definition rule_quizzes_search : url_rule :=
  mkRule [Static "quizzes"] (Some [POST]) [] EQuizzes.

(** The rules in the order [create_app] registers them. *)
Definition url_rules : list url_rule :=
  [rule_get_categories; rule_get_questions; rule_del_question; rule_post_question;
   rule_search_questions; rule_get_questions_by_categories; rule_quizzes_search].

(** The keyword arguments of werkzeug's [Rule] besides [methods]. *)
Definition rule_kwargs : list string :=
  ["defaults"; "subdomain"; "build_only"; "endpoint"; "strict_slashes";
   "merge_slashes"; "redirect_to"; "alias"; "host"; "websocket"].

(** [app.add_url_rule]: [methods] defaults to [("GET",)]; an option
    [Rule] does not take is a [TypeError]. *)
Definition add_url_rule (rule : url_rule) : outcome url_rule :=
  if forallb (fun o => existsb (String.eqb o) rule_kwargs) (rule_options rule) then
    Ret (mkRule (rule_path rule)
           (Some (match rule_methods rule with Some ms => ms | None => [GET] end))
           [] (rule_endpoint rule))
  else Raise TypeError.

(** [create_app()]: [setup_db], [CORS] and the [after_request] hook
    have no effect on the rules; the routes are registered in order and
    the first refused one aborts the function. *)
Definition create_app : outcome (list url_rule) := map_outcome add_url_rule url_rules.

(** ** Matching *)

Fixpoint split_on_slash (cs : list ascii) (cur : list ascii) : list string :=
  match cs with
  | [] => [string_of_list_ascii (rev cur)]
  | c :: r =>
      if Ascii.eqb c "/" then string_of_list_ascii (rev cur) :: split_on_slash r []
      else split_on_slash r (c :: cur)
  end.

(** The segments of a path that starts with [/]. *)
Definition path_segments (path : string) : option (list string) :=
  match list_ascii_of_string path with
  | c :: r => if Ascii.eqb c "/" then Some (split_on_slash r []) else None
  | [] => None
  end.

(** werkzeug's [IntegerConverter]: one or more decimal digits. *)
Definition int_converter (s : string) : option Z :=
  match list_ascii_of_string s with
  | [] => None
  | cs => if forallb (fun c => match digit_value c with Some _ => true | None => false end) cs
          then digits_aux 0 false cs else None
  end.

Fixpoint match_segments (pat : list segment) (segs : list string) : option (list Z) :=
  match pat, segs with
  | [], [] => Some []
  | Static s :: pat', s' :: segs' =>
      if String.eqb s s' then match_segments pat' segs' else None
  | IntArg :: pat', s' :: segs' =>
      match int_converter s', match_segments pat' segs' with
      | Some z, Some zs => Some (z :: zs)
      | _, _ => None
      end
  | _, _ => None
  end.

(** The methods a registered rule serves: werkzeug adds [HEAD] when
    [GET] is there, and Flask adds [OPTIONS] (automatic options). *)
Definition rule_methods_full (rule : url_rule) : list http_method :=
  let ms := match rule_methods rule with Some ms => ms | None => [GET] end in
  ms ++ (if bool_decide (GET ∈ ms) then [HEAD] else []) ++ [OPTIONS].

Definition rule_allows (rule : url_rule) (m : http_method) : bool :=
  let ms := match rule_methods rule with Some ms => ms | None => [GET] end in
  bool_decide (m ∈ ms) || (bool_decide (m = HEAD) && bool_decide (GET ∈ ms))
  || bool_decide (m = OPTIONS).

(** werkzeug's second matching attempt ([merge_slashes], on by
    default): [re.sub("/{2,}?", "/", path)], which replaces each pair
    of slashes, left to right, by one ([///] becomes [//]). *)
Fixpoint merge_slash_pairs (cs : list ascii) : list ascii :=
  match cs with
  | c1 :: (c2 :: r) as tl =>
      if Ascii.eqb c1 "/" && Ascii.eqb c2 "/" then "/"%char :: merge_slash_pairs r
      else c1 :: merge_slash_pairs tl
  | _ => cs
  end.

Definition merge_slashes (path : string) : string :=
  string_of_list_ascii (merge_slash_pairs (list_ascii_of_string path)).

(** The rules whose path matches the segments, whatever the method. *)
Definition rule_hits (rules : list url_rule) (segs : list string) : list url_rule :=
  List.filter (fun rule => match match_segments (rule_path rule) segs with
                           | Some _ => true | None => false end) rules.

Inductive dispatch_result : Type :=
  | NotFound
  | MethodNotAllowed
  | Redirect (location : string)
  | AutoOptions (allowed : list http_method)
  | Matched (e : endpoint) (args : list Z).

(** [MapAdapter.match] for [request.path] (which werkzeug starts with
    exactly one [/]): the first rule whose path matches and that
    allows the method.  When there is none, werkzeug matches again
    with the slashes merged: a rule that matches there and allows the
    method is a [RequestRedirect] (308) to the merged path; otherwise
    the request is 405 when some rule of either attempt matched the
    path, and 404 when none did. *)
Definition dispatch (rules : list url_rule) (r : request) : dispatch_result :=
  match path_segments (req_path r) with
  | None => NotFound
  | Some segs =>
      let hits := rule_hits rules segs in
      match List.find (fun rule => rule_allows rule (req_method r)) hits with
      | Some rule =>
          if bool_decide (req_method r = OPTIONS) then AutoOptions (flat_map rule_methods_full hits)
          else match match_segments (rule_path rule) segs with
               | Some args => Matched (rule_endpoint rule) args
               | None => NotFound
               end
      | None =>
          let hits' := match path_segments (merge_slashes (req_path r)) with
                       | Some segs' => rule_hits rules segs'
                       | None => []
                       end in
          if existsb (fun rule => rule_allows rule (req_method r)) hits'
          then Redirect (merge_slashes (req_path r))
          else match hits ++ hits' with [] => NotFound | _ :: _ => MethodNotAllowed end
      end
  end.

(** ** The request cycle *)

(** The [Allow] header of an automatic [OPTIONS] answer: the methods of
    every rule that matches the path, each once.  werkzeug collects
    them in a set, so the order of the names is not fixed; it is rule
    order here. *)
Definition allow_header (ms : list http_method) : string :=
  String.concat ", " (map method_name (remove_dups ms)).

(** The headers the cycle itself puts on a response before the hooks
    run: only the [Allow] header of an automatic [OPTIONS] answer. *)
Definition own_headers (rules : list url_rule) (r : request) : list (string * string) :=
  match dispatch rules r with
  | AutoOptions ms => [("Allow", allow_header ms)]
  | Redirect loc => [("Location", loc)]
  | _ => []
  end.

(** [RequestRedirect(new_url).get_response()]: werkzeug's redirect
    page.  Its [Location] is the absolute URL of the merged path (the
    scheme, the host and the query string of the request around it);
    the model's request carries no host, so the header holds the path. *)
Definition redirect_response (location : string) : response :=
  mkResponse 308 (RDefault 308) [("Location", location)].

Section Cycle.
Context {St : Type} `{QueryLayer St}.

Definition run_endpoint (e : endpoint) (args : list Z) (r : request) : M St response :=
  match e, args with
  | EGetCategories, [] => get_categories
  | EGetQuestions, [] => get_questions r
  | EDelQuestion, [i] => del_question r i
  | EPostQuestion, [] => post_question r
  | ESearch, [] => search_questions r
  | EByCategory, [c] => get_questions_by_categories r c
  | EQuizzes, [] => quizzes_search r
  | _, _ => praise TypeError
  end.

(** Flask's [full_dispatch_request]: a routing exception or the
    view's exception goes to the error handlers (Flask returns a
    [RequestRedirect] as it is), wrapped by Flask-CORS's
    [intercept_exceptions]; an automatic [OPTIONS] answer is made by
    Flask itself; then the [after_request] functions process every
    response. *)
Definition handle_request (rules : list url_rule) (r : request) (w : world St) : response * world St :=
  let path := req_path r in
  let '(resp, w') :=
    match dispatch rules r with
    | NotFound => (error_response path (HTTPException 404), w)
    | MethodNotAllowed => (error_response path (HTTPException 405), w)
    | Redirect loc => (cors_after_request path (redirect_response loc), w)
    | AutoOptions ms => (mkResponse 200 REmpty [("Allow", allow_header ms)], w)
    | Matched e args =>
        let '(o, w') := run_endpoint e args r w in
        (match o with Ret resp => resp | Raise ex => error_response path ex end, w')
    end in
  (process_response path resp, w').

(** The worlds a sequence of requests served by the app's rules can
    lead to from [w0] (one request at a time: Flask serves a request
    in one transaction scope). *)
Inductive reachable (w0 : world St) : world St -> Prop :=
  | reachable_init : reachable w0 w0
  | reachable_step (r : request) (w : world St) :
      reachable w0 w -> reachable w0 (snd (handle_request url_rules r w)).
End Cycle.

(** A request of the front end: delete question 2 while category 1 is
    shown. *)
Definition sample_delete : request :=
  mkRequest DELETE "/questionsDelete/2" [] (BodyJson (PDict [(PStr "currentCategory", PInt 1)])).

(** The headers the hooks add to a response that has no CORS header
    yet, and to one that went through Flask-CORS's exception wrapper
    first. *)
Definition cors_part (path : string) : list (string * string) :=
  if cors_resource_match path then [("Access-Control-Allow-Origin", "*")] else [].

Definition hook_headers : list (string * string) :=
  [("Access-Control-Allow-Headers", "Content-Type, Authorization");
   ("Access-Control-Allow-Methods", "GET, POST, PATCH, DELETE, OPTIONS")].

(** ** Lemmas *)

(** *** Paths *)

Lemma prefix_list_ascii (s1 s2 : string) :
  String.prefix s1 s2 = true -> exists rest, list_ascii_of_string s2 = list_ascii_of_string s1 ++ rest.
Proof.
  revert s2. induction s1 as [|c s1 IH]; intros [|c' s2]; simpl; try discriminate.
  - eauto.
  - eauto.
  - destruct (ascii_dec c c') as [->|]; [|discriminate]. intros Hp.
    destruct (IH s2 Hp) as [rest ->]. eauto.
Qed.

Lemma split_on_slash_head (cs cur : list ascii) :
  exists x rest, split_on_slash cs cur = string_of_list_ascii (rev cur ++ x) :: rest.
Proof.
  revert cur. induction cs as [|c cs IH]; intros cur; simpl.
  - exists [], []. by rewrite app_nil_r.
  - destruct (Ascii.eqb c "/").
    + exists [], (split_on_slash cs []). by rewrite app_nil_r.
    + destruct (IH (c :: cur)) as (x & rest & ->). exists (c :: x), rest.
      simpl. by rewrite <- app_assoc.
Qed.

Lemma split_on_slash_noslash (cs cur : list ascii) :
  Forall (fun c => Ascii.eqb c "/" = false) cs ->
  split_on_slash cs cur = [string_of_list_ascii (rev cur ++ cs)].
Proof.
  intros Hall. revert cur. induction Hall as [|c cs Hc _ IH]; intros cur; simpl.
  - by rewrite app_nil_r.
  - rewrite Hc, IH. simpl. by rewrite <- app_assoc.
Qed.

Lemma digit_not_slash (c : ascii) : is_Some (digit_value c) -> Ascii.eqb c "/" = false.
Proof.
  unfold digit_value. intros Hs. apply Ascii.eqb_neq. intros ->. vm_compute in Hs. by destruct Hs.
Qed.

Lemma int_converter_str (i : Z) : 0 <= i -> int_converter (py_str_int i) = Some i.
Proof.
  intros Hi. destruct (py_str_int_nonneg i Hi) as (ds & -> & Hall & Hne & Hval).
  unfold int_converter. rewrite list_ascii_of_string_of_list_ascii.
  destruct ds as [|c r]; [done|]. rewrite <- Hval.
  replace (forallb _ _) with true; [done|]. symmetry. apply forallb_forall.
  intros x Hx. rewrite List.Forall_forall in Hall. by destruct (Hall x Hx) as [? ->].
Qed.

(** *** The CORS resource *)

Lemma ascii_lower_slash (c : ascii) : ascii_lower c = "/"%char -> c = "/"%char.
Proof. destruct c as [[] [] [] [] [] [] [] []]; vm_compute; intros H; first [discriminate H|reflexivity]. Qed.

Lemma ascii_lower_a (c : ascii) : ascii_lower c = "a"%char -> c = "a"%char \/ c = "A"%char.
Proof. destruct c as [[] [] [] [] [] [] [] []]; vm_compute; intros H; first [discriminate H|auto]. Qed.

(** A path of the resource starts with [/a] or [/A]. *)
Lemma cors_resource_match_chars (path : string) :
  cors_resource_match path = true ->
  exists c rest, list_ascii_of_string path = "/"%char :: c :: rest /\ (c = "a"%char \/ c = "A"%char).
Proof.
  unfold cors_resource_match. intros (rest & Hp)%prefix_list_ascii.
  rewrite list_ascii_of_string_of_list_ascii in Hp. cbn in Hp.
  apply map_eq_cons in Hp as (c0 & l0 & -> & H0 & Hp). apply map_eq_cons in Hp as (c1 & l1 & -> & H1 & _).
  exists c1, l1. split; [by rewrite (ascii_lower_slash c0 H0)|by apply ascii_lower_a].
Qed.

Lemma cors_after_request_other (path : string) (r : response) :
  cors_resource_match path = false -> cors_after_request path r = r.
Proof. intros Hc. unfold cors_after_request. rewrite Hc. by destruct (has_header _ _). Qed.

(** *** Routing *)

Lemma merge_slash_pairs_cons (c : ascii) (l : list ascii) :
  Ascii.eqb c "/" = false -> merge_slash_pairs (c :: l) = c :: merge_slash_pairs l.
Proof. intros Hc. destruct l as [|c' l]; [done|]. cbn [merge_slash_pairs]. by rewrite Hc. Qed.

(** No rule matches a path whose first segment starts with [a] or [A]. *)
Lemma app_path_no_hits (p : string) (c : ascii) (rest : list ascii) :
  list_ascii_of_string p = "/"%char :: c :: rest -> c = "a"%char \/ c = "A"%char ->
  exists segs, path_segments p = Some segs /\ rule_hits url_rules segs = [].
Proof.
  intros Hp Hc. unfold path_segments. rewrite Hp. cbn [Ascii.eqb Bool.eqb andb].
  eexists. split; [reflexivity|].
  destruct Hc as [-> | ->]; cbn [split_on_slash Ascii.eqb Bool.eqb andb];
    match goal with |- context [split_on_slash rest ?cur] =>
      destruct (split_on_slash_head rest cur) as (x & segs & ->) end; reflexivity.
Qed.

(** Every path the CORS resource [/app/*] matches is outside the app's
    URL rules, slashes merged or not. *)
Lemma dispatch_app_path (r : request) :
  cors_resource_match (req_path r) = true -> dispatch url_rules r = NotFound.
Proof.
  intros (c & rest & Hp & Hc)%cors_resource_match_chars.
  destruct (app_path_no_hits _ _ _ Hp Hc) as (segs & Hs & Hh).
  assert (Hm : list_ascii_of_string (merge_slashes (req_path r)) = "/"%char :: c :: merge_slash_pairs rest).
  { unfold merge_slashes. rewrite list_ascii_of_string_of_list_ascii, Hp.
    transitivity ("/"%char :: merge_slash_pairs (c :: rest)); [by destruct Hc as [-> | ->]|].
    rewrite merge_slash_pairs_cons; [done|]. by destruct Hc as [-> | ->]. }
  destruct (app_path_no_hits _ _ _ Hm Hc) as (segs' & Hs' & Hh').
  unfold dispatch. rewrite Hs, Hh, Hs', Hh'. reflexivity.
Qed.

Lemma dispatch_delete (i : Z) (args : list (string * string)) (b : request_body) :
  0 <= i ->
  dispatch url_rules (mkRequest DELETE ("/questionsDelete/" ++ py_str_int i) args b) =
  Matched EDelQuestion [i].
Proof.
  intros Hi. pose proof (int_converter_str i Hi) as Hconv.
  destruct (py_str_int_nonneg i Hi) as (ds & Hds & Hall & _ & _).
  unfold dispatch, path_segments. cbn [req_path req_method].
  rewrite list_ascii_of_string_app, Hds, list_ascii_of_string_of_list_ascii. cbn.
  rewrite split_on_slash_noslash by (eapply Forall_impl; [exact Hall|]; apply digit_not_slash).
  cbn [rev app]. rewrite <- Hds, Hconv. simpl. rewrite Hconv. reflexivity.
Qed.


(** A matched request was matched by a rule of the list that allows
    its method, and it is not an [OPTIONS] request. *)
Lemma dispatch_Matched (rules : list url_rule) (r : request) (e : endpoint) (args : list Z) :
  dispatch rules r = Matched e args ->
  exists rule, In rule rules /\ rule_endpoint rule = e /\ rule_allows rule (req_method r) = true /\
               req_method r <> OPTIONS.
Proof.
  unfold dispatch. destruct (path_segments (req_path r)) as [segs|]; [|done].
  destruct (List.find _ _) as [rule|] eqn:Hf.
  - apply find_some in Hf as [Hin Hallow]. apply filter_In in Hin as [Hin _].
    case_bool_decide as Ho; [done|].
    destruct (match_segments _ _); [|done]. intros [= <- _]. eauto 10.
  - destruct (existsb _ _); [done|]. by destruct (_ ++ _).
Qed.

(** The rule of [post_question] allows [GET] and [HEAD] only. *)
Lemma dispatch_post_method (r : request) (args : list Z) :
  dispatch url_rules r = Matched EPostQuestion args -> req_method r <> POST.
Proof.
  intros (rule & Hin & He & Hallow & Ho)%dispatch_Matched Hm.
  rewrite Hm in Hallow.
  destruct Hin as [<-|[<-|[<-|[<-|[<-|[<-|[<-|[]]]]]]]]; try discriminate.
Qed.

(** even with the option spelled [methods=],
    [POST /questionsPost] would not reach [post_question]: the rule
    written at line 160 has no [methods] list, so it allows [GET] (and
    [HEAD], [OPTIONS]) only and the request is answered 405. *)
Theorem dispatch_questionsPost (args : list (string * string)) (b : request_body) :
  dispatch url_rules (mkRequest POST "/questionsPost" args b) = MethodNotAllowed.
Proof. reflexivity. Qed.

(** C17: [create_app()] raises [TypeError] at the
    decorator of line 160 ([method=] is not an option of werkzeug's
    [Rule]), so no application object is ever returned. *)
Theorem create_app_fails : create_app = Raise TypeError.
Proof. reflexivity. Qed.

(** *** Responses *)

Lemma process_response_headers (path : string) (resp : response) :
  has_header "Access-Control-Allow-Origin" resp = false ->
  headers (process_response path resp) = headers resp ++ hook_headers ++ cors_part path.
Proof.
  intros Hn. unfold process_response, cors_part, hook_headers. rewrite cors_after_request_headers.
  unfold has_header in *. cbn [after_request headers]. rewrite existsb_app, Hn.
  simpl. by rewrite <- app_assoc.
Qed.

Lemma process_response_cors_headers (path : string) (resp : response) :
  has_header "Access-Control-Allow-Origin" resp = false ->
  headers (process_response path (cors_after_request path resp)) =
  headers resp ++ cors_part path ++ hook_headers.
Proof.
  intros Hn. unfold process_response, cors_after_request, cors_part, hook_headers, has_header in *.
  rewrite Hn. destruct (cors_resource_match path); cbn [after_request headers];
    rewrite ?existsb_app, ?Hn; simpl; rewrite <- ?app_assoc; reflexivity.
Qed.

Lemma handle_exception_headers (e : exn) : headers (handle_exception e) = [].
Proof.
  destruct e as [c| | | | |]; simpl; [|done..]. unfold error_handler.
  repeat (destruct (_ =? _); [done|]). done.
Qed.

Local Ltac error_code_case c k :=
  destruct (Z.eqb_spec c k) as [->|];
  [split; [done|]; split;
   [intros _; exists k; split; [done|simpl; tauto]
   |intros _; eexists; split; [reflexivity|split; reflexivity]]|].

(** C19: an exception that leaves a view is
    answered with its HTTP code, or 500 when it is not an
    [HTTPException]; the body is the JSON error object of lines
    320-350 ([success] false, [error] the status) exactly for the four
    codes that have a registered handler (400, 404, 405, 422). *)
Theorem handle_exception_spec (e : exn) :
  status (handle_exception e) = match e with HTTPException c => c | _ => 500 end /\
  ((exists j, body (handle_exception e) = RJson j /\ json_field j "success" = Some (JBool false) /\
              json_field j "error" = Some (JNum (status (handle_exception e)))) <->
   exists c, e = HTTPException c /\ In c [400; 404; 405; 422]).
Proof.
  destruct e as [c| | | | |]; simpl.
  2-6: split; [done|]; split; [intros (j & [=] & _)|intros (c & [=] & _)].
  unfold error_handler.
  error_code_case c 404.
  error_code_case c 405.
  error_code_case c 422.
  error_code_case c 400.
  split; [done|]. split; [intros (j & [=] & _)|]. intros (c' & [= <-] & Hin). simpl in Hin. lia.
Qed.

(** *** The request cycle *)

Section CycleFacts.
Context {St : Type} `{QueryLayer St}.

(** A view answers normally only through [jsonify]: 200, and no
    header of its own. *)
Lemma run_endpoint_ok (e : endpoint) (args : list Z) (r : request) :
  returns (St:=St) (fun resp => status resp = 200 /\ headers resp = []) (run_endpoint e args r).
Proof.
  destruct e, args as [|a [|b args]]; cbn [run_endpoint]; try apply returns_praise;
  unfold get_categories, get_questions, del_question, post_question, search_questions,
    get_questions_by_categories, quizzes_search;
  solve_returns ltac:(apply returns_jsonify).
Qed.

(** A response of the cycle is a response with only the cycle's own
    headers, processed by the hooks, after Flask-CORS's exception
    wrapper when it comes from an exception. *)
Lemma handle_request_outcome (rules : list url_rule) (r : request) (w : world St) :
  exists resp, headers resp = own_headers rules r /\
    (fst (handle_request rules r w) = process_response (req_path r) resp \/
     fst (handle_request rules r w) = process_response (req_path r) (cors_after_request (req_path r) resp)) /\
    (dispatch rules r = NotFound -> resp = handle_exception (HTTPException 404)).
Proof.
  unfold handle_request, own_headers, error_response.
  destruct (dispatch rules r) as [| |loc|ms|e args] eqn:Hd.
  1-4: eexists; split; [|split; [first [right; reflexivity|left; reflexivity]|]]; [|done..].
  1-4: try apply handle_exception_headers; done.
  destruct (run_endpoint e args r w) as [[resp|ex] w'] eqn:E.
  - exists resp. split; [eapply run_endpoint_ok; exact E|]. split; [by left|done].
  - exists (handle_exception ex). split; [apply handle_exception_headers|]. split; [by right|done].
Qed.

Lemma own_headers_cases (rules : list url_rule) (r : request) :
  own_headers rules r = [] \/ (exists v, own_headers rules r = [("Allow", v)]) \/
  (exists v, own_headers rules r = [("Location", v)]).
Proof. unfold own_headers. destruct (dispatch rules r); eauto. Qed.

(** The headers of every response: one [Access-Control-Allow-Headers]
    and one [Access-Control-Allow-Methods] with the values of lines
    27-28, [Access-Control-Allow-Origin: *] once exactly on the paths
    of the CORS resource, and besides them only the cycle's own
    headers. *)
Lemma handle_request_headers_spec (rules : list url_rule) (r : request) (w : world St) :
  List.filter (fun h => String.eqb (fst h) "Access-Control-Allow-Headers")
    (headers (fst (handle_request rules r w))) =
    [("Access-Control-Allow-Headers", "Content-Type, Authorization")] /\
  List.filter (fun h => String.eqb (fst h) "Access-Control-Allow-Methods")
    (headers (fst (handle_request rules r w))) =
    [("Access-Control-Allow-Methods", "GET, POST, PATCH, DELETE, OPTIONS")] /\
  List.filter (fun h => String.eqb (fst h) "Access-Control-Allow-Origin")
    (headers (fst (handle_request rules r w))) = cors_part (req_path r) /\
  List.filter (fun h => negb (existsb (String.eqb (fst h))
                 ["Access-Control-Allow-Headers"; "Access-Control-Allow-Methods"; "Access-Control-Allow-Origin"]))
    (headers (fst (handle_request rules r w))) = own_headers rules r.
Proof.
  destruct (handle_request_outcome rules r w) as (resp & Hh & [Hr|Hr] & _); rewrite Hr;
    [rewrite process_response_headers|rewrite process_response_cors_headers];
    try (unfold has_header; rewrite Hh;
         destruct (own_headers_cases rules r) as [->|[[v ->]|[v ->]]]; reflexivity);
    rewrite Hh; unfold cors_part;
    destruct (own_headers_cases rules r) as [->|[[v ->]|[v ->]]], (cors_resource_match (req_path r));
    repeat split.
Qed.


(** C16: the only responses with an
    [Access-Control-Allow-Origin] header are 404s: the CORS resource
    of line 20 covers [/app/*], where the app has no route, so no answer
    of a view is readable by a cross-origin front end (the spec, section
    6, says CORS allows all origins). *)
Theorem handle_request_allow_origin (r : request) (w : world St) (v : string) :
  In ("Access-Control-Allow-Origin", v) (headers (fst (handle_request url_rules r w))) ->
  v = "*" /\ status (fst (handle_request url_rules r w)) = 404.
Proof.
  intros Hin. destruct (handle_request_headers_spec url_rules r w) as (_ & _ & Ho & _).
  assert (Hin' : In ("Access-Control-Allow-Origin", v)
                    (List.filter (fun h => String.eqb (fst h) "Access-Control-Allow-Origin")
                       (headers (fst (handle_request url_rules r w)))))
    by (apply filter_In; split; [done|apply String.eqb_refl]).
  rewrite Ho in Hin'. unfold cors_part in Hin'.
  destruct (cors_resource_match (req_path r)) eqn:Hc; [|done].
  destruct Hin' as [[= <-]|[]]. split; [done|].
  destruct (handle_request_outcome url_rules r w) as (resp & _ & [Hr|Hr] & H404); rewrite Hr;
    rewrite (proj1 (process_response_status _ _)), ?(proj1 (cors_after_request_status _ _)),
      H404 by (by apply dispatch_app_path); reflexivity.
Qed.
(** werkzeug routes [HEAD] to a [GET] rule, but [get_questions] tests
    [request.method == 'GET'] (line 80), so [HEAD /questions] is
    answered 405 by the view itself. *)
Lemma handle_request_head_questions (args : list (string * string)) (b : request_body) (w : world St) :
  status (fst (handle_request url_rules (mkRequest HEAD "/questions" args b) w)) = 405 /\
  snd (handle_request url_rules (mkRequest HEAD "/questions" args b) w) = w.
Proof. split; reflexivity. Qed.
End CycleFacts.

Section DeleteRoute.
Context {St : Type} `{QueryLayerLaws St}.

(** The request cycle of a [DELETE] of a stored question. *)
Lemma handle_request_delete_run (i : Z) (args : list (string * string)) (body v : pyval)
    (q : question) (w : world St) :
  0 <= i -> py_getitem body (PStr "currentCategory") = Ret v -> query_get (w_db w) i = Some q ->
  handle_request url_rules (mkRequest DELETE ("/questionsDelete/" ++ py_str_int i) args (BodyJson body)) w =
  (process_response ("/questionsDelete/" ++ py_str_int i) (handle_exception (HTTPException 422)),
   mkWorld (delete_question i (w_db w)) true).
Proof.
  intros Hi Hc Hq. unfold handle_request. rewrite dispatch_delete by done. cbn [run_endpoint].
  rewrite (del_question_run _ i body v q w) by done. unfold error_response.
  rewrite cors_after_request_other; [reflexivity|].
  unfold cors_resource_match. cbn [req_path]. rewrite list_ascii_of_string_app, map_app. reflexivity.
Qed.

(** C3: [DELETE /questionsDelete/<i>] on a stored
    question, through routing, the view, the error handler and the
    hooks: the row is deleted and committed, the session closed, and
    the client receives the 422 error object. *)
Theorem handle_request_delete (i : Z) (args : list (string * string)) (body v : pyval)
    (q : question) (w : world St) :
  0 <= i -> py_getitem body (PStr "currentCategory") = Ret v -> query_get (w_db w) i = Some q ->
  handle_request url_rules (mkRequest DELETE ("/questionsDelete/" ++ py_str_int i) args (BodyJson body)) w =
  (process_response ("/questionsDelete/" ++ py_str_int i) (handle_exception (HTTPException 422)),
   mkWorld (delete_question i (w_db w)) true).
Proof. apply handle_request_delete_run. Qed.
End DeleteRoute.

Section StoreEffects.
Context {St : Type} `{QueryLayer St}.

(** What a view other than [post_question] does to the store: nothing,
    or the delete of [del_question]. *)
Lemma run_endpoint_store (e : endpoint) (args : list Z) (r : request) (w : world St) :
  e <> EPostQuestion ->
  w_db (snd (run_endpoint e args r w)) = w_db w \/
  exists i, args = [i] /\ e = EDelQuestion /\
            w_db (snd (run_endpoint e args r w)) = delete_question i (w_db w).
Proof.
  intros Hp. destruct e, args as [|a [|b args]]; cbn [run_endpoint]; try (left; reflexivity);
    try done.
  all: try (left; apply read_only_praise).
  - left. assert (R : read_only (St:=St) get_categories)
      by (unfold get_categories; solve_read_only). apply R.
  - left. assert (R : read_only (St:=St) (get_questions r))
      by (unfold get_questions; solve_read_only). apply R.
  - destruct (del_question_store r a w) as [E|(_ & _ & E)]; [by left|right; eauto].
  - left. apply search_questions_read_only.
  - left. assert (R : read_only (St:=St) (get_questions_by_categories r a))
      by (unfold get_questions_by_categories; solve_read_only). apply R.
  - left. apply quizzes_search_read_only.
Qed.

(** C10: through the app's URL rules, a request
    leaves the store as it is, except a [DELETE] routed to
    [del_question], which removes the rows of one id.  No request
    inserts a question: the only rule of [post_question] allows [GET]
    and [HEAD], on which the view aborts with 405. *)
Theorem handle_request_store (r : request) (w : world St) :
  w_db (snd (handle_request url_rules r w)) = w_db w \/
  exists i, dispatch url_rules r = Matched EDelQuestion [i] /\
            w_db (snd (handle_request url_rules r w)) = delete_question i (w_db w).
Proof.
  unfold handle_request. destruct (dispatch url_rules r) as [| | | |e args] eqn:Hd; [by left..|].
  destruct (run_endpoint e args r w) as [o w'] eqn:E. cbn [snd].
  destruct (decide (e = EPostQuestion)) as [->|Hne].
  - left. apply dispatch_post_method in Hd.
    destruct args as [|a args]; cbn [run_endpoint] in E; [|destruct args; cbn in E; by injection E as _ <-].
    unfold post_question in E. rewrite bool_decide_eq_false_2 in E by done. by injection E as _ <-.
  - destruct (run_endpoint_store e args r w Hne) as [R|(i & -> & -> & R)]; rewrite E in R; [by left|].
    right. eauto.
Qed.
End StoreEffects.

Section Reachability.
Context {St : Type} `{QueryLayerLaws St}.

(** The questions of a reachable world were stored at the start. *)
Lemma reachable_subset (w0 w : world St) (q : question) :
  reachable w0 w -> In q (questions_of (w_db w)) -> In q (questions_of (w_db w0)).
Proof.
  induction 1 as [|r w _ IH]; [done|].
  destruct (handle_request_store r w) as [->|(i & _ & ->)]; [done|].
  rewrite delete_question_spec. intros [Hin _]. auto.
Qed.

(** C11: whatever sequence of requests is
    served, every question stored afterwards was stored at the start:
    the question table only shrinks. *)
Theorem reachable_questions_shrink (w0 w : world St) (q : question) :
  reachable w0 w -> In q (questions_of (w_db w)) -> In q (questions_of (w_db w0)).
Proof. apply reachable_subset. Qed.

(** C12: the property of the spec's section 8: once
    [DELETE /questionsDelete/<i>] has removed question [i], no
    question with id [i] is stored in any world that later requests
    reach, so no later listing shows it. *)
Theorem delete_permanent (i : Z) (args : list (string * string)) (body v : pyval) (q : question)
    (w w' : world St) :
  0 <= i -> py_getitem body (PStr "currentCategory") = Ret v -> query_get (w_db w) i = Some q ->
  reachable (snd (handle_request url_rules
                    (mkRequest DELETE ("/questionsDelete/" ++ py_str_int i) args (BodyJson body)) w)) w' ->
  forall q', In q' (questions_of (w_db w')) -> q_id q' <> i.
Proof.
  intros Hi Hc Hq Hr q' Hin. apply (reachable_subset _ _ q' Hr) in Hin.
  rewrite (handle_request_delete_run i args body v q w Hi Hc Hq) in Hin.
  by apply delete_question_spec in Hin as [_ ?].
Qed.
End Reachability.

(** *** Witnesses *)

Lemma handle_request_allow_origin_witness :
  "*" = "*" /\
  status (fst (handle_request url_rules (mkRequest GET "/app" [] BodyNotJson) sample_world)) = 404.
Proof.
  apply (handle_request_allow_origin (mkRequest GET "/app" [] BodyNotJson) sample_world "*").
  vm_compute. auto.
Defined.

Lemma handle_request_delete_witness :
  handle_request url_rules (mkRequest DELETE "/questionsDelete/2" [] (BodyJson (PDict [(PStr "currentCategory", PInt 1)]))) sample_world =
  (process_response "/questionsDelete/2" (handle_exception (HTTPException 422)),
   mkWorld (delete_question 2 sample_db) true).
Proof.
  apply (handle_request_delete 2 [] _ (PInt 1) (mkQuestion 2 "Speed of light?" "c" 1 3) sample_world);
    [lia|reflexivity|reflexivity].
Defined.

Lemma reachable_questions_shrink_witness :
  In (mkQuestion 1 "What is H2O?" "Water" 1 1) (questions_of (w_db sample_world)).
Proof.
  apply (reachable_questions_shrink sample_world (snd (handle_request url_rules sample_delete sample_world))).
  - apply reachable_step, reachable_init.
  - vm_compute. left. reflexivity.
Defined.

Lemma delete_permanent_witness :
  In (mkQuestion 1 "What is H2O?" "Water" 1 1)
     (questions_of (w_db (snd (handle_request url_rules sample_delete sample_world)))) /\
  q_id (mkQuestion 1 "What is H2O?" "Water" 1 1) <> 2.
Proof.
  assert (Hin : In (mkQuestion 1 "What is H2O?" "Water" 1 1)
                   (questions_of (w_db (snd (handle_request url_rules sample_delete sample_world)))))
    by (vm_compute; left; reflexivity).
  split; [exact Hin|].
  apply (delete_permanent 2 [] (PDict [(PStr "currentCategory", PInt 1)]) (PInt 1)
           (mkQuestion 2 "Speed of light?" "c" 1 3) sample_world
           (snd (handle_request url_rules sample_delete sample_world))); [lia|reflexivity|reflexivity| |exact Hin].
  apply reachable_init.
Defined.

End App.
