(* ===== verification/Schema.v ===== *)
(** * Schema: the JSON shapes of the responses

    Section 6 of the spec lists, for each route, the members of its
    success body, and the uniform error object.  [jtype] is a small
    type language for JSON documents (records with their members in
    the order [jsonify] writes them, arrays, and maps with distinct
    member names), [json_type] the typing relation, and
    [endpoint_schema] the table of section 6.  The theorems show that
    every answer of a view, and every response of the request cycle,
    has its type. *)

From S2P Require Import Prelude PyCore Store Json Flask Listing Search Quiz Mutation App.
Import Models Json Flask Listing Search Quiz Mutation App.

Open Scope Z_scope.

#[local] Set Warnings "-register-all".

Module Schema.

(** JSON types: records list their members in the order [jsonify]
    writes them (sorted names); [TMap t] is an object with any member
    names, all distinct, whose values have type [t]. *)
Inductive jtype : Type :=
  | TBool
  | TNum
  | TStr
  | TArr (t : jtype)
  | TRec (fields : list (string * jtype))
  | TMap (t : jtype).

Inductive json_type : json -> jtype -> Prop :=
  | jt_bool b : json_type (JBool b) TBool
  | jt_num z : json_type (JNum z) TNum
  | jt_str s : json_type (JStr s) TStr
  | jt_arr js t : Forall (fun j => json_type j t) js -> json_type (JArr js) (TArr t)
  | jt_rec kvs fs :
      Forall2 (fun kv f => fst kv = fst f /\ json_type (snd kv) (snd f)) kvs fs ->
      json_type (JObj kvs) (TRec fs)
  | jt_map kvs t :
      NoDup (map fst kvs) -> Forall (fun kv => json_type (snd kv) t) kvs ->
      json_type (JObj kvs) (TMap t).

(** Section 6: a question record, and the success body of each route. *)
Definition record_type : jtype :=
  TRec [("answer", TStr); ("category", TNum); ("difficulty", TNum); ("id", TNum); ("question", TStr)].

Definition endpoint_schema (e : endpoint) : jtype :=
  match e with
  | EGetCategories =>
      TRec [("categories", TMap TStr); ("success", TBool); ("total_categories", TNum)]
  | EGetQuestions =>
      TRec [("questions", TArr record_type); ("success", TBool);
            ("total_categories", TNum); ("total_questions", TNum)]
  | EDelQuestion =>
      TRec [("deleted", TNum); ("questions", TArr record_type); ("success", TBool);
            ("total_questions", TNum)]
  | EPostQuestion => TRec [("question", record_type); ("success", TBool)]
  | ESearch => TRec [("questions", TArr record_type); ("success", TBool); ("total_questions", TNum)]
  | EByCategory => TRec [("current_category", TNum); ("success", TBool); ("total_questions", TNum)]
  | EQuizzes => TRec [("question", TRec [("answer", TStr); ("id", TNum); ("question", TStr)])]
  end.

(** The uniform error body. *)
Definition error_schema : jtype := TRec [("error", TNum); ("message", TStr); ("success", TBool)].

(** An item of [formatted_categories]: an integer key and a string. *)
Definition int_str_item (kv : pyval * pyval) : Prop := exists z s, kv = (PInt z, PStr s).

Definition key_name (k : pyval) : string := match k with PInt z => py_str_int z | _ => "" end.
Definition str_json (v : pyval) : json := match v with PStr s => JStr s | _ => JNull end.
Definition encode_item (kv : pyval * pyval) : pyval * (string * json) :=
  (fst kv, (key_name (fst kv), str_json (snd kv))).

(** A response whose body is a JSON document of type [t]. *)
Definition has_schema (t : jtype) (resp : response) : Prop :=
  exists j, body resp = RJson j /\ json_type j t.

(** [response_fields] rewrites the status and body of a response
    after the hooks into those of the response before them. *)
Ltac response_fields :=
  rewrite ?(proj1 (process_response_status _ _)), ?(proj2 (process_response_status _ _)),
    ?(proj1 (cors_after_request_status _ _)), ?(proj2 (cors_after_request_status _ _)).

(** ** Lemmas *)

Lemma json_type_question (q : question) : json_type (question_json q) record_type.
Proof. repeat constructor. Qed.

Lemma dict_setitem_keys (kvs : list (pyval * pyval)) (k v x : pyval) :
  In x (map fst (dict_setitem kvs k v)) -> In x (map fst kvs) \/ x = k.
Proof.
  induction kvs as [|[k' v'] kvs IH]; simpl; [intuition|].
  destruct (py_key_eqb k' k); simpl; [tauto|]. intros [->|H]; [auto|]. destruct (IH H); auto.
Qed.

Lemma dict_setitem_int_str (kvs : list (pyval * pyval)) (z : Z) (s : string) :
  Forall int_str_item kvs -> NoDup (map fst kvs) ->
  Forall int_str_item (dict_setitem kvs (PInt z) (PStr s)) /\
  NoDup (map fst (dict_setitem kvs (PInt z) (PStr s))).
Proof.
  induction kvs as [|[k' v'] kvs IH]; intros Hall Hnd; simpl.
  - split; [repeat constructor; by exists z, s|apply NoDup_singleton].
  - apply Forall_cons in Hall as [(z' & s' & [= -> ->]) Hall'].
    apply NoDup_cons in Hnd as [Hnin Hnd]. cbn [py_key_eqb py_num].
    destruct (Z.eqb_spec z' z) as [->|Hne]; simpl.
    + split; [constructor; [by exists z, s|done]|by constructor].
    + destruct (IH Hall' Hnd) as [IH1 IH2]. split; [constructor; [by exists z', s'|done]|].
      constructor; [|done]. intros Hin%list_elem_of_In.
      destruct (dict_setitem_keys _ _ _ _ Hin) as [H|[= ?]]; [|done].
      apply Hnin. by apply list_elem_of_In.
Qed.

Lemma format_categories_int_str (cs : list category) :
  Forall int_str_item (format_categories cs) /\ NoDup (map fst (format_categories cs)).
Proof.
  unfold format_categories.
  enough (Hgen : forall acc, Forall int_str_item acc -> NoDup (map fst acc) ->
    Forall int_str_item (fold_left (fun d row => dict_setitem d (PInt (c_id row)) (PStr (c_type row))) cs acc) /\
    NoDup (map fst (fold_left (fun d row => dict_setitem d (PInt (c_id row)) (PStr (c_type row))) cs acc)))
    by (apply Hgen; constructor).
  induction cs as [|c cs IH]; intros acc Hall Hnd; simpl; [done|].
  destruct (dict_setitem_int_str acc (c_id c) (c_type c) Hall Hnd). by apply IH.
Qed.

Lemma map_outcome_int_str (kvs : list (pyval * pyval)) :
  Forall int_str_item kvs ->
  map_outcome (fun kv => match json_key (fst kv), to_json (snd kv) with
                         | Ret ks, Ret j => Ret (fst kv, (ks, j))
                         | Raise e, _ | Ret _, Raise e => Raise e
                         end) kvs = Ret (map encode_item kvs).
Proof. induction 1 as [|kv kvs (z & s & ->) _ IH]; simpl; [done|]. by rewrite IH. Qed.

(** The encoding of a dict with distinct integer keys and string values
    is an object with distinct member names and string values. *)
Lemma to_json_int_str_dict (kvs : list (pyval * pyval)) :
  Forall int_str_item kvs -> NoDup (map fst kvs) ->
  exists j, to_json (PDict kvs) = Ret j /\ json_type j (TMap TStr).
Proof.
  intros Hall Hnd. cbn [to_json].
  replace (keys_sortable kvs) with true.
  2: { symmetry. unfold keys_sortable. apply orb_true_iff. right. apply forallb_forall.
       intros kv Hin. rewrite List.Forall_forall in Hall. by destruct (Hall kv Hin) as (z & s & ->). }
  rewrite map_outcome_int_str by done. eexists. split; [reflexivity|].
  assert (Hp : sort_items (map encode_item kvs) ≡ₚ map encode_item kvs) by apply merge_sort_Permutation.
  constructor.
  - rewrite Hp, !map_map. replace (map _ kvs) with (map key_name (map fst kvs)) by (by rewrite map_map).
    apply NoDup_map_inj_on; [|done]. intros x y (kv & <- & Hx)%in_map_iff (kv' & <- & Hy)%in_map_iff.
    rewrite List.Forall_forall in Hall.
    destruct (Hall kv Hx) as (z & s & ->), (Hall kv' Hy) as (z' & s' & ->). simpl.
    by intros ->%py_str_int_inj.
  - rewrite Hp. apply Forall_map, Forall_map. eapply Forall_impl; [exact Hall|].
    intros kv (z & s & ->). constructor.
Qed.

Lemma json_type_records (qs : list question) :
  Forall (fun j => json_type j record_type) (map question_json qs).
Proof. apply Forall_map, Forall_forall. intros q _. apply json_type_question. Qed.

Section Views.
Context {St : Type} `{QueryLayer St}.

Lemma returns_jsonify_type (v : pyval) (t : jtype) :
  (forall j, to_json v = Ret j -> json_type j t) -> returns (St:=St) (has_schema t) (jsonify v).
Proof.
  intros Hv w a w'. unfold jsonify. destruct (to_json v) eqn:E; [|done].
  intros [= <- _]. eexists. split; [reflexivity|]. by apply Hv.
Qed.

Lemma run_endpoint_schema (e : endpoint) (args : list Z) (r : request) :
  returns (St:=St) (has_schema (endpoint_schema e)) (run_endpoint e args r).
Proof.
  destruct e, args as [|a [|b args]]; cbn [run_endpoint endpoint_schema]; try apply returns_praise.
  - unfold get_categories. solve_returns idtac. apply returns_jsonify_type. intros j Hj.
    destruct (format_categories_int_str a) as [Hall Hnd].
    destruct (to_json_int_str_dict _ Hall Hnd) as (j0 & Hj0 & Ht).
    remember (PDict (format_categories a)) as d eqn:Hd.
    simpl in Hj. rewrite Hj0 in Hj. simpl in Hj. injection Hj as <-.
    repeat constructor; done.
  - unfold get_questions. solve_returns idtac. apply returns_jsonify_type. intros j Hj.
    unfold convert_questions_to_dict in Hj. rewrite page_slice_map in Hj.
    remember (page_slice _ _) as ps.
    simpl in Hj. rewrite (map_outcome_map_Ret _ _ question_json) in Hj by (intros; apply to_json_question_record).
    simpl in Hj. injection Hj as <-. repeat constructor; apply json_type_records.
  - unfold del_question. solve_returns idtac. apply returns_never_ok, never_ok_jsonify_entity.
    reflexivity.
  - unfold post_question. solve_returns idtac. apply returns_jsonify_type. intros j Hj. discriminate.
  - unfold search_questions. solve_returns idtac. apply returns_jsonify_type. intros j Hj.
    unfold convert_questions_to_dict in Hj.
    simpl in Hj. rewrite (map_outcome_map_Ret _ _ question_json) in Hj by (intros; apply to_json_question_record).
    simpl in Hj. injection Hj as <-. repeat constructor; apply json_type_records.
  - unfold get_questions_by_categories. solve_returns idtac.
  - unfold quizzes_search. solve_returns idtac.
Qed.

Lemma returns_and {A} (Q1 Q2 : A -> Prop) (m : M St A) :
  returns Q1 m -> returns Q2 m -> returns (fun a => Q1 a /\ Q2 a) m.
Proof. intros H1 H2 w a w' E. eauto. Qed.
End Views.

(** What [handle_exception] answers: a registered error object, or
    werkzeug's default page. *)
Lemma handle_exception_schema (e : exn) :
  (In (status (handle_exception e)) [400; 404; 405; 422] /\ has_schema error_schema (handle_exception e)) \/
  body (handle_exception e) = RDefault (status (handle_exception e)).
Proof.
  destruct e as [c| | | | |]; [|right; reflexivity..]. cbn [handle_exception]. unfold error_handler.
  repeat match goal with
         | |- context [?c =? ?k] => destruct (Z.eqb_spec c k) as [->|]
         end;
  try (right; reflexivity); left; (split; [simpl; tauto|eexists; split; [reflexivity|repeat constructor]]).
Qed.

Section App.
Context {St : Type} `{QueryLayer St}.

(** C20: every response the app sends has one of
    the shapes of section 6 of the spec: a 200 whose JSON body has the
    type of the route that served it, one of the four registered error
    codes with the uniform error object, werkzeug's default page (for a
    code without a handler, the 308 of a merged-slashes redirect, and
    the 500 of an exception that is not an [HTTPException]), or the
    empty 200 of an automatic [OPTIONS]. *)
Theorem handle_request_schema (rules : list url_rule) (r : request) (w : world St) :
  let resp := fst (handle_request rules r w) in
  (exists e args, dispatch rules r = Matched e args /\ status resp = 200 /\
                  has_schema (endpoint_schema e) resp) \/
  (In (status resp) [400; 404; 405; 422] /\ has_schema error_schema resp) \/
  body resp = RDefault (status resp) \/
  (status resp = 200 /\ body resp = REmpty /\ exists ms, dispatch rules r = AutoOptions ms).
Proof.
  cbv zeta. unfold handle_request, error_response.
  destruct (dispatch rules r) as [| |loc|ms|e args] eqn:Hd.
  - pose proof (handle_exception_schema (HTTPException 404)) as Hx.
    cbn [fst]. unfold has_schema in *. response_fields. tauto.
  - pose proof (handle_exception_schema (HTTPException 405)) as Hx.
    cbn [fst]. unfold has_schema in *. response_fields. tauto.
  - cbn [fst]. response_fields. right; right; left. reflexivity.
  - cbn [fst]. response_fields. eauto 10.
  - destruct (run_endpoint e args r w) as [[resp|ex] w'] eqn:E; cbn [fst];
      unfold has_schema; response_fields.
    + left. exists e, args. split; [done|].
      destruct (returns_and _ _ _ (run_endpoint_ok e args r) (run_endpoint_schema e args r) w resp w' E)
        as [[Hs _] Hsch]. done.
    + pose proof (handle_exception_schema ex) as Hx. unfold has_schema in Hx. tauto.
Qed.
End App.
End Schema.
